(** * fairyfly-therm: the THERM XML interchange layer

    A shallow embedding of the parts of [fairyfly_therm] that the
    specification talks about:

    - [simulation/exposure.py]: the [ModelExposure] value object, its
      validating setters and its THERM XML encoder and decoder;
    - [properties/shape.py]: the material setter of the shape properties,
      together with the lock/unlock life cycle of the material objects;
    - [writer.py]: the translator from a building model to the XML document;
    - [run.py]: the runner that hands a written model to THERM.

    Python objects are records, Python exceptions are values of [Py.exn],
    a call that may raise returns a [Py.result], and code that mutates an
    object before it raises returns the mutated object next to the result. *)

From Stdlib Require Import ZArith QArith String Ascii List Lia Bool.
From stdpp Require Import base option list gmap strings pretty.

Local Open Scope string_scope.
Local Open Scope list_scope.

(** ** Python runtime: exceptions, results, strings *)

Module Py.

(** The exception classes that the modelled code raises or catches. *)
Inductive exn : Type :=
| ValueError (msg : string)
| AssertionError (msg : string)
| TypeError (msg : string)
| AttributeError (msg : string)
| KeyError (key : string)
| OSError (msg : string)
| UnicodeEncodeError (msg : string).

Inductive result (A : Type) : Type :=
| Ok (a : A)
| Raise (e : exn).
Arguments Ok {A} a.
Arguments Raise {A} e.

Definition is_ok {A} (r : result A) : bool :=
  match r with Ok _ => true | Raise _ => false end.

Definition raises {A} (r : result A) : Prop :=
  match r with Ok _ => False | Raise _ => True end.

#[global] Instance result_ret : MRet result := λ A a, Ok a.
#[global] Instance result_bind : MBind result := λ A B f r,
  match r with Ok a => f a | Raise e => Raise e end.
#[global] Instance result_fmap : FMap result := λ A B f r,
  match r with Ok a => Ok (f a) | Raise e => Raise e end.

(** [assert cond, msg] *)
Definition assert (cond : bool) (msg : string) : result unit :=
  if cond then Ok tt else Raise (AssertionError msg).

(** [for x in xs: body], where the body may raise *)
Fixpoint mapM {A B} (f : A → result B) (xs : list A) : result (list B) :=
  match xs with
  | [] => Ok []
  | x :: xs' => y ← f x; ys ← mapM f xs'; Ok (y :: ys)
  end.

(** The double quote and the line feed, which the messages and the XML
    declaration of the source contain. *)
Definition dq : string := String "034"%char EmptyString.
Definition nl : string := String "010"%char EmptyString.

(** ['"{}"'.format(s)] *)
Definition quoted (s : string) : string := dq +:+ s +:+ dq.

(** [sep.join(xs)] *)
Fixpoint join (sep : string) (xs : list string) : string :=
  match xs with
  | [] => ""
  | [x] => x
  | x :: xs' => x +:+ sep +:+ join sep xs'
  end.

(** [str.lower] on the letters A-Z.  Every key that the source compares
    with a lowered input is plain ASCII without the letter k, so the one
    non-ASCII character whose lower case is ASCII (the Kelvin sign) can
    not produce a match, and lowering byte by byte decides the same
    comparisons as Python does on code points. *)
Definition lower_ascii (c : ascii) : ascii :=
  let n := nat_of_ascii c in
  if (65 <=? n)%nat && (n <=? 90)%nat then ascii_of_nat (n + 32) else c.

Fixpoint lower (s : string) : string :=
  match s with
  | EmptyString => EmptyString
  | String c r => String (lower_ascii c) (lower r)
  end.

(** [needle in haystack] on strings *)
Fixpoint contains (needle haystack : string) : bool :=
  String.prefix needle haystack ||
  match haystack with
  | EmptyString => false
  | String _ r => contains needle r
  end.

(** [str(x)] of an optional text: [None] prints as the word None. *)
Definition str_opt (o : option string) : string := default "None" o.

(** Python floats are not computed with here: they are printed, parsed,
    compared and stored.  [str_of_float] is [str(x)], [float_of_str] is
    [float(text)] ([None] when Python raises [ValueError]), [float_leb]
    is [<=] and [float_eqb] is [==]. *)
Class Float := {
  float : Type;
  float_of_Z : Z → float;
  float_of_str : string → option float;
  str_of_float : float → string;
  float_leb : float → float → bool;
  float_eqb : float → float → bool;
}.

(** A value handed to [float()]: [None], a text, an integer or a float. *)
Inductive number `{Float} : Type :=
| NNone
| NStr (s : string)
| NInt (z : Z)
| NFloat (x : float).

End Py.

Import Py.

(** ** xml.etree.ElementTree

  An element has a tag, attributes, a text and children.  The white space
  that [ET.indent] puts between child elements is not represented: no
  function of this package reads the text of an element that has children,
  or a tail. *)

Module ET.

#[warnings="-register-all"]
Inductive Element : Type := mkElement {
  tag : string;
  attrib : gmap string string;
  text : option string;
  children : list Element;
}.

(** [ET.Element(tag)] *)
Definition new (t : string) : Element := mkElement t ∅ None [].

(** A leaf [<t>txt</t>]: [e = ET.SubElement(parent, t); e.text = txt] *)
Definition leaf (t txt : string) : Element := mkElement t ∅ (Some txt) [].

(** [e.find(t)]: the first child with tag [t], or [None] *)
Definition find (t : string) (e : Element) : option Element :=
  List.find (λ c, String.eqb (tag c) t) (children e).

(** [e.find(t)] used as an object: [None.text], [None.find] and iterating
    [None] raise. *)
Definition find_elem (t : string) (e : Element) : result Element :=
  match find t e with
  | Some c => Ok c
  | None => Raise (AttributeError "'NoneType' object has no attribute")
  end.

(** [e.find(t).text] *)
Definition find_text (t : string) (e : Element) : result (option string) :=
  c ← find_elem t e; Ok (text c).

(** [e.get(k)] and [e.set(k, v)] *)
Definition get (k : string) (e : Element) : option string := attrib e !! k.

Definition set (k v : string) (e : Element) : Element :=
  mkElement (tag e) (<[k := v]> (attrib e)) (text e) (children e).

(** [parent.append(c)], the effect of [ET.SubElement(parent, ...)] on the
    parent *)
Definition append (c : Element) (e : Element) : Element :=
  mkElement (tag e) (attrib e) (text e) (children e ++ [c]).

Definition with_children (cs : list Element) (e : Element) : Element :=
  mkElement (tag e) (attrib e) (text e) cs.

(** In-place mutation of the element that [parent.find(t)] returned: the
    first child with tag [t] is replaced by its new state. *)
Fixpoint replace_first (t : string) (c' : Element) (cs : list Element)
  : list Element :=
  match cs with
  | [] => []
  | c :: cs' =>
      if String.eqb (tag c) t then c' :: cs' else c :: replace_first t c' cs'
  end.

Definition update_found (t : string) (c' : Element) (e : Element) : Element :=
  with_children (replace_first t c' (children e)) e.

End ET.

(** ** simulation/exposure.py *)

Module Exposure.
Section WithFloat.
Context `{Float}.

Definition MODEL_TYPES : list string :=
  ["Window"; "Opaque Wall"; "Opaque Roof"; "Other"].

Definition WINDOW_SECTIONS : list string :=
  ["Sill"; "Jamb"; "Head"; "Horizontal Divider"; "Vertical Divider";
   "Horizontal Meeting Rail"; "Vertical Meeting Rail"; "Common Frame"; "Spacer"].

Definition OPAQUE_SECTIONS : list string :=
  ["Sill Plate"; "Header"; "End Section"; "Middle Section"; "Thermal Bridge";
   "Window Framing - Sill"; "Rough Opening - Header"; "Rough Opening - Jamb"].

Definition OTHER_SECTIONS : list string :=
  ["General Cross Section"; "Common Thermal Bridge"].

Definition ALL_SECTIONS : list string :=
  WINDOW_SECTIONS ++ OPAQUE_SECTIONS ++ OTHER_SECTIONS.

Definition GRAVITY_ORIENTATIONS : list string :=
  ["Down"; "Up"; "Left"; "Right"; "Into Screen"; "Out Of Screen"].

(** [SECTION_MAP]: the first section of the list of each model type *)
Definition SECTION_MAP : gmap string string :=
  {[ "Window" := "Sill"; "Opaque Wall" := "Sill Plate";
     "Opaque Roof" := "Sill Plate"; "Other" := "General Cross Section" ]}.

(** The four slots of a [ModelExposure].  [None] in the second and third
    slot is Python's [None]: no explicit value was given. *)
Record ModelExposure : Type := mkModelExposure {
  _model_type : string;
  _cross_section_type : option string;
  _gravity_orientation : option string;
  _wind_orientation : float;
}.

(** The [model_type] property (getter) *)
Definition model_type (self : ModelExposure) : string := _model_type self.

(** The [cross_section_type] property (getter): the explicit value, or the
    default of the model type; [SECTION_MAP[...]] raises [KeyError] on a
    model type that is not one of its keys. *)
Definition cross_section_type (self : ModelExposure) : result string :=
  match _cross_section_type self with
  | Some c => Ok c
  | None =>
      match SECTION_MAP !! _model_type self with
      | Some c => Ok c
      | None => Raise (KeyError (_model_type self))
      end
  end.

Definition gravity_orientation (self : ModelExposure) : option string :=
  _gravity_orientation self.

Definition wind_orientation (self : ModelExposure) : float :=
  _wind_orientation self.

(** [_check_model_and_cross_section].  The early return on a [None] cross
    section never fires, since the getter substitutes the default. *)
Definition _check_model_and_cross_section (self : ModelExposure) : result unit :=
  cs ← cross_section_type self;
  let msg_init :=
    "Cross section type " +:+ quoted cs +:+
    " is not supported for model type " +:+ quoted (model_type self) +:+ "." in
  let msg_template (sections : list string) :=
    msg_init +:+ nl +:+ "Choose from the following:" +:+ nl +:+ join nl sections in
  if String.eqb (model_type self) "Other" then
    assert (bool_decide (cs ∈ OTHER_SECTIONS)) (msg_template OTHER_SECTIONS)
  else if String.eqb (model_type self) "Window" then
    assert (bool_decide (cs ∈ WINDOW_SECTIONS)) (msg_template WINDOW_SECTIONS)
  else
    assert (bool_decide (cs ∈ OPAQUE_SECTIONS)) (msg_template OPAQUE_SECTIONS).

(** The loop [for key in KEYS: if key.lower() == clean_input: ...; break]
    with its [else: raise ValueError] clause. *)
Definition match_key (what : string) (keys : list string) (value : string)
  : result string :=
  let clean_input := lower value in
  match List.find (λ key, String.eqb (lower key) clean_input) keys with
  | Some key => Ok key
  | None =>
      Raise (ValueError
        ("ModelExposure " +:+ what +:+ " " +:+ quoted value +:+
         " is not supported." +:+ nl +:+ "Choose from the following:" +:+ nl +:+
         join nl keys))
  end.

(** A setter assigns its slot and then runs the check; when the check
    raises, the assignment has already happened.  A setter therefore
    returns the outcome together with the object as it is left. *)
Definition setter : Type := ModelExposure → result unit * ModelExposure.

(** The slot assignments [self._model_type = value] and so on *)
Definition assign_model_type (v : string) (self : ModelExposure) : ModelExposure :=
  mkModelExposure v (_cross_section_type self) (_gravity_orientation self)
    (_wind_orientation self).

Definition assign_cross_section_type (v : option string) (self : ModelExposure)
  : ModelExposure :=
  mkModelExposure (_model_type self) v (_gravity_orientation self)
    (_wind_orientation self).

Definition assign_gravity_orientation (v : option string) (self : ModelExposure)
  : ModelExposure :=
  mkModelExposure (_model_type self) (_cross_section_type self) v
    (_wind_orientation self).

Definition assign_wind_orientation (v : float) (self : ModelExposure)
  : ModelExposure :=
  mkModelExposure (_model_type self) (_cross_section_type self)
    (_gravity_orientation self) v.

(** [model_type.setter]; [value] is [None] or the text [str(value)]. *)
Definition set_model_type (value : option string) : setter := λ self,
  match value with
  | Some v =>
      match match_key "model_type" MODEL_TYPES v with
      | Ok key =>
          let self := assign_model_type key self in
          (_check_model_and_cross_section self, self)
      | Raise e => (Raise e, self)
      end
  | None =>
      let self := assign_model_type "Other" self in
      (_check_model_and_cross_section self, self)
  end.

(** [cross_section_type.setter] *)
Definition set_cross_section_type (value : option string) : setter := λ self,
  match value with
  | Some v =>
      match match_key "cross_section_type" ALL_SECTIONS v with
      | Ok key =>
          let self := assign_cross_section_type (Some key) self in
          (_check_model_and_cross_section self, self)
      | Raise e => (Raise e, self)
      end
  | None =>
      let self := assign_cross_section_type None self in
      (_check_model_and_cross_section self, self)
  end.

(** [gravity_orientation.setter] *)
Definition set_gravity_orientation (value : option string) : setter := λ self,
  match value with
  | Some v =>
      match match_key "gravity_orientation" GRAVITY_ORIENTATIONS v with
      | Ok key => (Ok tt, assign_gravity_orientation (Some key) self)
      | Raise e => (Raise e, self)
      end
  | None => (Ok tt, assign_gravity_orientation None self)
  end.

(** [fairyfly.typing.float_in_range(value, mi, ma, input_name)]: the value
    is converted with [float()], which raises [TypeError] on what is not a
    number, and is asserted to lie between the bounds. *)
Definition float_in_range (value : number) (mi ma : Z) (input_name : string)
  : result float :=
  let not_a_number :=
    Raise (TypeError ("Input " +:+ input_name +:+ " must be a number.")) in
  number ←
    match value with
    | NNone => not_a_number
    | NStr s => match float_of_str s with Some x => Ok x | None => not_a_number end
    | NInt z => Ok (float_of_Z z)
    | NFloat x => Ok x
    end;
  _ ← assert (float_leb (float_of_Z mi) number && float_leb number (float_of_Z ma))
        ("Input number " +:+ input_name +:+ " must be between " +:+
         pretty mi +:+ " and " +:+ pretty ma +:+ ".");
  Ok number.

(** [wind_orientation.setter] *)
Definition set_wind_orientation (value : number) : setter := λ self,
  match float_in_range value 0 360 "ModelExposure wind orientation" with
  | Ok x => (Ok tt, assign_wind_orientation x self)
  | Raise e => (Raise e, self)
  end.

(** [__init__].  The slots [_model_type] and [_wind_orientation] are unset
    until their setters run; no code reads them before, so the values they
    start with here are never observed. *)
Definition __init__ (model_type cross_section_type gravity_orientation : option string)
    (wind_orientation : number) : result ModelExposure :=
  let self := mkModelExposure "Other" None None (float_of_Z 0) in
  let '(r, self) := set_model_type model_type self in _ ← r;
  let '(r, self) := set_cross_section_type cross_section_type self in _ ← r;
  let '(r, self) := set_gravity_orientation gravity_orientation self in _ ← r;
  let '(r, self) := set_wind_orientation wind_orientation self in _ ← r;
  Ok self.

(** [ModelExposure()] with every argument at its default *)
Definition default_exposure : result ModelExposure :=
  __init__ (Some "Other") None None (NInt 0).

(** [__key] and [__eq__] *)
Definition eqb (self other : ModelExposure) : bool :=
  String.eqb (_model_type self) (_model_type other)
  && bool_decide (_cross_section_type self = _cross_section_type other)
  && bool_decide (_gravity_orientation self = _gravity_orientation other)
  && float_eqb (_wind_orientation self) (_wind_orientation other).

(** [from_therm_xml] *)
Definition from_therm_xml (xml_element : ET.Element) : result ModelExposure :=
  xml_exp ← ET.find_elem "Exposure" xml_element;
  purpose ← ET.find_text "ModelPurpose" xml_exp;
  '(model_type, cross_type) ←
    (if bool_decide (purpose = Some "Other") then
       cross_type ← ET.find_text "OtherCrossSection" xml_exp;
       Ok ("Other", cross_type)
     else if bool_decide (purpose = Some "Window/Transparent Facade") then
       cross_type ← ET.find_text "WindowCrossSection" xml_exp;
       Ok ("Window", cross_type)
     else
       assembly ← ET.find_text "Assembly" xml_exp;
       cross_type ← ET.find_text "OpaqueCrossSection" xml_exp;
       Ok ("Opaque " +:+ str_opt assembly, cross_type));
  g_text ← ET.find_text "GravityOrientation" xml_element;
  w_text ← ET.find_text "ModelOrientation" xml_element;
  __init__ (Some model_type) cross_type g_text
    (match w_text with Some s => NStr s | None => NNone end).

(** [to_therm_xml(properties_element=None, model_plane)].  [model_plane] is
    given by the angle in degrees between its upward normal and the
    vertical axis, which is all the method takes from it. *)
Definition to_therm_xml (self : ModelExposure) (model_plane : option Q)
  : result ET.Element :=
  let xml_w_ornt := ET.leaf "ModelOrientation" (str_of_float (wind_orientation self)) in
  let xml_g_ornt :=
    ET.leaf "GravityOrientation"
      match gravity_orientation self with
      | None =>
          match model_plane with
          | Some up_ang =>
              if Qle_bool 45 up_ang then "Down" else "Into Screen"
          | None => "Down"
          end
      | Some g => g
      end in
  let exposure (purpose : string) (assembly : list ET.Element) (cs_tag : string) :=
    cs ← cross_section_type self;
    Ok (ET.mkElement "Exposure" ∅ None
          ([ET.leaf "ModelPurpose" purpose] ++ assembly ++ [ET.leaf cs_tag cs])) in
  xml_e ←
    (if String.eqb (model_type self) "Window" then
       exposure "Window/Transparent Facade" [] "WindowCrossSection"
     else if String.eqb (model_type self) "Opaque Wall" then
       exposure "Opaque Facade" [ET.leaf "Assembly" "Walls"] "OpaqueCrossSection"
     else if String.eqb (model_type self) "Opaque Roof" then
       exposure "Opaque Facade" [ET.leaf "Assembly" "Roof"] "OpaqueCrossSection"
     else
       exposure (model_type self) [] "OtherCrossSection");
  Ok (ET.mkElement "ModelExposure" ∅ None [xml_w_ornt; xml_g_ornt; xml_e]).

(** *** Properties of exposure objects *)

(** The sections that the documentation of the class allows for a model
    type; nothing is allowed for a text that is not a model type. *)
Definition permitted (mt : string) : list string :=
  if bool_decide (mt = "Other") then OTHER_SECTIONS
  else if bool_decide (mt = "Window") then WINDOW_SECTIONS
  else if bool_decide (mt ∈ ["Opaque Wall"; "Opaque Roof"]) then OPAQUE_SECTIONS
  else [].

(** The list that the check consults, read off its three branches. *)
Definition checked_sections (mt : string) : list string :=
  if String.eqb mt "Other" then OTHER_SECTIONS
  else if String.eqb mt "Window" then WINDOW_SECTIONS
  else OPAQUE_SECTIONS.

(** The effective cross section lies in the list of the model type. *)
Definition consistent (self : ModelExposure) : Prop :=
  ∃ cs, cross_section_type self = Ok cs ∧ cs ∈ permitted (model_type self).

(** The model type is one of the four keys: every setter keeps this,
    whether it returns or raises. *)
Definition wf (self : ModelExposure) : Prop := _model_type self ∈ MODEL_TYPES.

(** No key spells [v], whatever the case of its letters. *)
Definition unknown (keys : list string) (v : string) : Prop :=
  ∀ key, key ∈ keys → lower key ≠ lower v.

(** The objects that the constructor and the setters produce. *)
Definition valid (self : ModelExposure) : Prop :=
  consistent self
  ∧ (∀ g, _gravity_orientation self = Some g → g ∈ GRAVITY_ORIENTATIONS)
  ∧ float_leb (float_of_Z 0) (_wind_orientation self) = true
  ∧ float_leb (_wind_orientation self) (float_of_Z 360) = true.

(** The object with its two defaults written out: the cross section of the
    model type, and the gravity orientation that the encoder writes when
    none is set and no model plane is given. *)
Definition explicit (self : ModelExposure) : ModelExposure :=
  mkModelExposure (_model_type self)
    (Some (default (default "" (SECTION_MAP !! _model_type self))
             (_cross_section_type self)))
    (Some (default "Down" (_gravity_orientation self)))
    (_wind_orientation self).

(** The element that the encoder builds *)
Definition encoded (purpose : string) (assembly : list ET.Element)
    (cs_tag cs g : string) (w : float) : ET.Element :=
  ET.mkElement "ModelExposure" ∅ None
    [ET.leaf "ModelOrientation" (str_of_float w);
     ET.leaf "GravityOrientation" g;
     ET.mkElement "Exposure" ∅ None
       ([ET.leaf "ModelPurpose" purpose] ++ assembly ++ [ET.leaf cs_tag cs])].

(** [ET.tostring(root, encoding='unicode')] after [ET.indent], and
    [ET.fromstring]: the library's serialiser and parser. *)
Variable tostring : ET.Element → string.
Variable fromstring : string → result ET.Element.

(** [to_therm_xml_str] and [from_therm_xml_str] *)
Definition to_therm_xml_str (self : ModelExposure) : result string :=
  xml_root ← to_therm_xml self None; Ok (tostring xml_root).

Definition from_therm_xml_str (xml_str : string) : result ModelExposure :=
  root ← fromstring xml_str; from_therm_xml root.

(** Encoding and then decoding gives an object equal to the one encoded. *)
Definition roundtrips (self : ModelExposure) : Prop :=
  ∃ self', (s ← to_therm_xml_str self; from_therm_xml_str s) = Ok self'
           ∧ eqb self' self = true.

End WithFloat.
End Exposure.

(** ** A reference instance of the library interfaces

    Whole-number floats, printed the way Python prints them ([90.0]), a
    serialiser, and a parser for documents without attributes.  The
    concrete runs below go through them. *)

Module Reference.

(** Reads a run of decimal digits. *)
Fixpoint read_digits (acc : Z) (seen : bool) (s : string) : option (Z * string) :=
  match s with
  | String c r =>
      let n := nat_of_ascii c in
      if (48 <=? n)%nat && (n <=? 57)%nat
      then read_digits (10 * acc + Z.of_nat (n - 48)) true r
      else if seen then Some (acc, s) else None
  | EmptyString => if seen then Some (acc, s) else None
  end.

Definition whole_of_str (s : string) : option Z :=
  '(z, rest) ← read_digits 0 false s;
  if bool_decide (rest = "" ∨ rest = ".0") then Some z else None.

#[global] Instance whole_float : Float := {|
  float := Z;
  float_of_Z z := z;
  float_of_str := whole_of_str;
  str_of_float z := pretty z +:+ ".0";
  float_leb := Z.leb;
  float_eqb := Z.eqb;
|}.

Fixpoint tostring (e : ET.Element) : string :=
  match e with
  | ET.mkElement t a tx cs =>
      "<" +:+ t +:+
      foldr (λ '(k, v) rest, " " +:+ k +:+ "=" +:+ quoted v +:+ rest) ""
        (map_to_list a) +:+
      ">" +:+ default "" tx +:+
      (fix all (cs : list ET.Element) : string :=
         match cs with
         | [] => ""
         | c :: cs' => tostring c +:+ all cs'
         end) cs +:+
      "</" +:+ t +:+ ">"
  end.

(** [split_at c s]: the text before the first [c] and the text after it *)
Fixpoint split_at (c : ascii) (s : string) : option (string * string) :=
  match s with
  | EmptyString => None
  | String c' r =>
      if Ascii.eqb c' c then Some ("", r)
      else '(pre, post) ← split_at c r; Some (String c' pre, post)
  end.

Definition malformed {A} : result A := Raise (ValueError "ParseError").

Definition closing (t : string) (s : string) : option string :=
  '(t', rest) ← split_at ">" s;
  if String.eqb t t' then Some rest else None.

(** One element at the head of [s], and what follows it. *)
Fixpoint parse_element (fuel : nat) (s : string) : option (ET.Element * string) :=
  match fuel, s with
  | S fuel, String "<" s1 =>
      '(t, s2) ← split_at ">" s1;
      match s2 with
      | String "<" (String "/" s3) =>
          rest ← closing t s3; Some (ET.mkElement t ∅ None [], rest)
      | String "<" _ =>
          (fix all (n : nat) (s : string) (acc : list ET.Element) :=
             match n, s with
             | _, String "<" (String "/" s3) =>
                 rest ← closing t s3; Some (ET.mkElement t ∅ None acc, rest)
             | S n, _ =>
                 '(c, s') ← parse_element fuel s; all n s' (acc ++ [c])
             | O, _ => None
             end) fuel s2 []
      | _ =>
          '(tx, s3) ← split_at "<" s2;
          match s3 with
          | String "/" s4 =>
              rest ← closing t s4; Some (ET.mkElement t ∅ (Some tx) [], rest)
          | _ => None
          end
      end
  | _, _ => None
  end.

Definition fromstring (s : string) : result ET.Element :=
  match parse_element (String.length s) s with
  | Some (e, "") => Ok e
  | _ => malformed
  end.

(** [ModelExposure()] and [ModelExposure('Window', 'Jamb', 'Up', 90)] *)
Definition exposure_of_defaults : Exposure.ModelExposure :=
  Exposure.mkModelExposure "Other" None None 0%Z.

Definition window_jamb : Exposure.ModelExposure :=
  Exposure.mkModelExposure "Window" (Some "Jamb") (Some "Up") 90%Z.

End Reference.


(** ** The lock/unlock life cycle of materials and conditions

    [material/solid.py] and [condition/comprehensive.py] are not among the
    sources at hand; their tests and the setter of [properties/shape.py]
    are.  The classes are modelled from the specification, with the
    exception classes that the tests expect. *)

Module Lockable.

(** Modelled from the spec: the error of an attempt to mutate a locked
    object, raised by the lockable classes, whose source is missing.  The
    tests expect it as Python's [AttributeError]. *)
Definition ImmutableStateError (msg : string) : exn := AttributeError msg.

(** Modelled from the spec: the error of a value out of its physical
    range, raised by the setters of the missing classes.  The tests expect
    it as Python's [AssertionError]. *)
Definition ValidationError (msg : string) : exn := AssertionError msg.

(** Modelled from the spec: an object of a lockable class (the classes and
    their lock mechanism are missing), with its fields [state] and the flag
    that [lock()] sets. *)
Record t (A : Type) : Type := mk {
  locked : bool;
  state : A;
}.
Arguments mk {A} locked state.
Arguments locked {A} _.
Arguments state {A} _.

(** Modelled from the spec: the constructor of a lockable class, which is
    missing; a new object is unlocked. *)
Definition new {A} (a : A) : t A := mk false a.

(** Modelled from the spec: [lock()] of the missing lockable classes *)
Definition lock {A} (x : t A) : t A := mk true (state x).

(** Modelled from the spec: [unlock()] of the missing lockable classes *)
Definition unlock {A} (x : t A) : t A := mk false (state x).

(** Modelled from the spec: a mutator of the missing lockable classes.
    Once locked, any mutator fails; otherwise the change is validated
    again, [f] being the validated update of the fields, and fails fast on
    an invalid value. *)
Definition mutate {A} (f : A → result A) (x : t A) : result unit * t A :=
  if locked x then (Raise (ImmutableStateError "locked"), x)
  else match f (state x) with
       | Ok a => (Ok tt, mk false a)
       | Raise e => (Raise e, x)
       end.

(** Modelled from the spec: the fields of a [SolidMaterial]
    ([material/solid.py] is missing), with the optional ones as options. *)
Record SolidMaterial : Type := mkSolidMaterial {
  conductivity : Q;
  emissivity : Q;
  emissivity_back : Q;
  density : option Q;
  porosity : option Q;
  specific_heat : option Q;
  vapor_diffusion_resistance : option Q;
}.

(** Modelled from the spec: the validated update of the density of the
    missing [SolidMaterial], which is optional and not negative. *)
Definition update_density (value : option Q) (m : SolidMaterial) : result SolidMaterial :=
  let store v := mkSolidMaterial (conductivity m) (emissivity m) (emissivity_back m)
                   v (porosity m) (specific_heat m) (vapor_diffusion_resistance m) in
  match value with
  | None => Ok (store None)
  | Some v =>
      if Qle_bool 0 v then Ok (store (Some v))
      else Raise (ValidationError "density must not be negative")
  end.

(** Modelled from the spec: the validated update of the conductivity of
    the missing [SolidMaterial], which is greater than zero. *)
Definition update_conductivity (value : Q) (m : SolidMaterial) : result SolidMaterial :=
  if Qle_bool value 0 then Raise (ValidationError "conductivity must be positive")
  else Ok (mkSolidMaterial value (emissivity m) (emissivity_back m) (density m)
             (porosity m) (specific_heat m) (vapor_diffusion_resistance m)).

(** Modelled from the spec: the [density] setter of the missing
    [SolidMaterial] *)
Definition set_density (value : option Q) : t SolidMaterial → result unit * t SolidMaterial :=
  mutate (update_density value).

(** Modelled from the spec: the [conductivity] setter of the missing
    [SolidMaterial] *)
Definition set_conductivity (value : Q) : t SolidMaterial → result unit * t SolidMaterial :=
  mutate (update_conductivity value).

(** Modelled from the spec: the fields of a [ComprehensiveCondition]
    ([condition/comprehensive.py] is missing); the radiant temperature
    defaults to the temperature. *)
Record ComprehensiveCondition : Type := mkComprehensiveCondition {
  temperature : Q;
  film_coefficient : Q;
  condition_emissivity : Q;
  radiant_temperature : option Q;
  heat_flux : Q;
  relative_humidity : Q;
}.

(** Modelled from the spec: the update of the temperature of the missing
    [ComprehensiveCondition], of any value *)
Definition update_temperature (value : Q) (c : ComprehensiveCondition)
  : result ComprehensiveCondition :=
  Ok (mkComprehensiveCondition value (film_coefficient c) (condition_emissivity c)
        (radiant_temperature c) (heat_flux c) (relative_humidity c)).

(** Modelled from the spec: the [temperature] setter of the missing
    [ComprehensiveCondition] *)
Definition set_temperature (value : Q)
  : t ComprehensiveCondition → result unit * t ComprehensiveCondition :=
  mutate (update_temperature value).

(** [SolidMaterial(0.5, 0.95, None, 800, 0.81, 1200, 7.9)] and
    [ComprehensiveCondition(-18, 26)] of the tests *)
Definition concrete : t SolidMaterial :=
  new (mkSolidMaterial (1 # 2) (95 # 100) (95 # 100) (Some (800 # 1))
         (Some (81 # 100)) (Some (1200 # 1)) (Some (79 # 10))).

Definition nfrc_ext : t ComprehensiveCondition :=
  new (mkComprehensiveCondition (-18 # 1) (26 # 1) (1 # 1) None (0 # 1) (1 # 2)).

(** [concrete.density = 600] and [nfrc_ext.temperature = 36], the first
    statements of the two lockability tests *)
Definition concrete_600 : t SolidMaterial := (set_density (Some (600 # 1)) concrete).2.

Definition nfrc_ext_36 : t ComprehensiveCondition := (set_temperature (36 # 1) nfrc_ext).2.

End Lockable.

(** ** properties/shape.py *)

Module Shape.

(** Materials are shared between shapes: they live in a store and a shape
    holds a reference.  The store also holds objects of other classes. *)
Inductive object : Type :=
| IsSolidMaterial (m : Lockable.t Lockable.SolidMaterial)
| NotSolidMaterial (type_name : string).

Abbreviation store := (gmap nat object).

Record ShapeThermProperties : Type := mkShapeThermProperties {
  _host : string;
  _material : option nat;
}.

(** The [material] property (getter): the material set by the user, or the
    generic concrete of the library, which [generic_concrete] refers to. *)
Definition material (generic_concrete : nat) (self : ShapeThermProperties) : nat :=
  default generic_concrete (_material self).

(** [material.setter]: a value that is not [None] is asserted to be a
    [SolidMaterial] and is locked, in the store, before the slot is
    assigned.  A reference that the store does not hold is no
    [SolidMaterial]. *)
Definition set_material (value : option nat) (self : ShapeThermProperties) (σ : store)
  : result unit * ShapeThermProperties * store :=
  match value with
  | Some r =>
      match σ !! r with
      | Some (IsSolidMaterial m) =>
          (Ok tt, mkShapeThermProperties (_host self) (Some r),
           <[r := IsSolidMaterial (Lockable.lock m)]> σ)
      | Some (NotSolidMaterial type_name) =>
          (Raise (AssertionError ("Expected SolidMaterial. Got " +:+ type_name +:+ ".")),
           self, σ)
      | None =>
          (Raise (AssertionError "Expected SolidMaterial. Got <class 'NoneType'>."),
           self, σ)
      end
  | None => (Ok tt, mkShapeThermProperties (_host self) None, σ)
  end.

(** [__init__(host, material=None)] *)
Definition __init__ (host : string) (material : option nat) (σ : store)
  : result ShapeThermProperties * store :=
  let '(r, self, σ) := set_material material (mkShapeThermProperties host None) σ in
  (_ ← r; Ok self, σ).

End Shape.

(** ** writer.py

    The host library owns the model: rooms, faces, shades and their
    geometry.  The translator consumes its queries as given, so they are
    the fields of the class [Host], next to the names that [writer.py]
    uses and neither imports nor defines: [face_types], [Room],
    [clean_string], [DESIGNBUILDER_VERSION], [_object_ids] and
    [room_group_to_therm_xml_block]. *)

Module Writer.
Section WithHost.
Context `{Float}.

Inductive Units : Type := Meters | Millimeters | Feet | Inches | Centimeters.

#[global] Instance Units_eq_dec : EqDecision Units.
Proof. solve_decision. Defined.

(** The text of [model.units] *)
Definition units_str (u : Units) : string :=
  match u with
  | Meters => "Meters"
  | Millimeters => "Millimeters"
  | Feet => "Feet"
  | Inches => "Inches"
  | Centimeters => "Centimeters"
  end.

(** [face_types] of the host library *)
Inductive face_types : Type := wall | roof_ceiling | floor | air_boundary.

Record Point3D : Type := mkPoint3D { x : float; y : float; z : float }.

(** A face of a room.  [normal_angle] is the value of
    [math.degrees(z_axis.angle(face.normal))], which the host's geometry
    computes; [user_data] is [None] or a dictionary. *)
Record Face : Type := mkFace {
  face_identifier : string;
  type : face_types;
  normal_angle : Q;
  face_user_data : option (gmap string string);
}.

(** A room; iterating a room yields its faces. *)
Record Room : Type := mkRoom {
  room_identifier : string;
  room_user_data : option (gmap string string);
  room_faces : list Face;
}.

(** A shade: its boundary, and its holes as the vertices of
    [Face3D(hole, plane=flip_plane)], which the host's geometry orders. *)
Record Shade : Type := mkShade {
  shade_identifier : string;
  shade_display_name : string;
  boundary : list Point3D;
  holes : list (list Point3D);
}.

Record ShadeMesh : Type := mkShadeMesh {
  mesh_display_name : string;
  face_vertices : list (list Point3D);
}.

Record Model : Type := mkModel {
  units : Units;
  display_name : string;
  tolerance : Q;
  stories : list string;
  rooms : list Room;
  orphaned_faces : list Face;
  shades : list Shade;
  shade_meshes : list ShadeMesh;
}.

(** [model.faces]: the faces of the rooms and the faces without a room *)
Definition faces (m : Model) : list Face :=
  concat (room_faces <$> rooms m) ++ orphaned_faces m.

(** A room is passed around by reference: a block holds the positions of
    its rooms in [model.rooms], so that it sees what later steps do to
    them. *)
Definition room_ref : Type := nat.

Class Host : Type := {
  (** [model.convert_to_units(units)] *)
  convert_to_units : Units → Model → Model;
  (** [model.remove_degenerate_geometry(tolerance)], which may raise *)
  remove_degenerate_geometry : Q → Model → result unit * Model;
  (** [model.assign_stories_by_floor_height(min_difference)] *)
  assign_stories_by_floor_height : Q → Model → Model;
  (** [Room.group_by_story(rooms)]: the rooms of each story and the name
      of each story *)
  group_by_story : list Room → list (list room_ref) * list string;
  (** [Room.group_by_adjacency(rooms)] on the rooms of one story *)
  group_by_adjacency : list Room → list room_ref → list (list room_ref);
  (** [ET.parse(template_file).getroot()] for a template name *)
  parse_template : string → result ET.Element;
  clean_string : string → string;
  DESIGNBUILDER_VERSION : string;
  (** [str(datetime.date.today())] *)
  today : string;
  (** The element that [_object_ids(element, handle, ...)] adds to its
      first argument *)
  object_ids : string → string → ET.Element;
  (** What [room_group_to_therm_xml_block] builds from the rooms of a
      block, the handle and the name of the block and the handle counter:
      the block element, the rooms with the face index noted in the user
      data of their faces, and the counter *)
  block_element :
    list Room → Z → string → Z → result (ET.Element * list Room * Z);
  (** [shade_mesh.triangulate_and_remove_degenerate_faces(tolerance)] *)
  triangulate_and_remove_degenerate_faces : Q → ShadeMesh → ShadeMesh;
  (** [ET.indent(root, '\t')] and [ET.tostring(root, encoding='unicode')] *)
  tostring : ET.Element → string;
  (** [text.encode(codec)] *)
  encode : string → string → result (list Byte.byte);
  (** [os.path.dirname(os.path.abspath(path))] *)
  dirname_abspath : string → string;
}.

Context `{Host}.

(** *** The state of a translation: the duplicate of the model, which the
    translator edits, and the global [HANDLE_COUNTER]. *)
Record Session : Type := mkSession {
  model : Model;
  HANDLE_COUNTER : Z;
}.

Definition M (A : Type) : Type := Session → result A * Session.

#[global] Instance M_ret : MRet M := λ A a s, (Ok a, s).
#[global] Instance M_bind : MBind M := λ A B f m s,
  match m s with
  | (Ok a, s') => f a s'
  | (Raise e, s') => (Raise e, s')
  end.

Definition raise {A} (e : exn) : M A := λ s, (Raise e, s).
Definition lift {A} (r : result A) : M A := λ s, (r, s).
Definition get_model : M Model := λ s, (Ok (model s), s).
Definition modify_model (f : Model → Model) : M unit :=
  λ s, (Ok tt, mkSession (f (model s)) (HANDLE_COUNTER s)).
Definition get_counter : M Z := λ s, (Ok (HANDLE_COUNTER s), s).
Definition set_counter (n : Z) : M unit := λ s, (Ok tt, mkSession (model s) n).

(** [for x in xs: body] in a session *)
Fixpoint for_each {A} (xs : list A) (body : A → M unit) : M unit :=
  match xs with
  | [] => mret tt
  | x :: xs' => _ ← body x; for_each xs' body
  end.

(** *** Step 3: degenerate geometry *)

(** The message of lines 121-122 *)
Definition degenerate_error (original_units : Units) : string :=
  "Failed to remove degenerate Rooms." +:+ nl +:+
  "Your Model units system is: " +:+ units_str original_units +:+ ". " +:+
  "Is this correct?".

(** [try: model.remove_degenerate_geometry(0.01)] with its handler, which
    catches [ValueError] and nothing else *)
Definition clean_geometry (original_units : Units) : M unit := λ s,
  match remove_degenerate_geometry (1 # 100) (model s) with
  | (Ok tt, m) => (Ok tt, mkSession m (HANDLE_COUNTER s))
  | (Raise (ValueError _), m) =>
      (Raise (ValueError (degenerate_error original_units)),
       mkSession m (HANDLE_COUNTER s))
  | (Raise e, m) => (Raise e, mkSession m (HANDLE_COUNTER s))
  end.

(** *** Step 5: face types (lines 130-137) *)

Definition reassign_type (face : Face) : Face :=
  let angle := normal_angle face in
  if negb (Qle_bool 60 angle) then
    mkFace (face_identifier face) roof_ceiling (normal_angle face) (face_user_data face)
  else if Qle_bool 130 angle then
    mkFace (face_identifier face) floor (normal_angle face) (face_user_data face)
  else face.

(** [for face in model.faces: ...]: the faces are edited where they are. *)
Definition map_faces (f : Face → Face) (m : Model) : Model :=
  mkModel (units m) (display_name m) (tolerance m) (stories m)
    ((λ r, mkRoom (room_identifier r) (room_user_data r) (f <$> room_faces r))
       <$> rooms m)
    (f <$> orphaned_faces m) (shades m) (shade_meshes m).

Definition reassign_types : Model → Model := map_faces reassign_type.

(** Lines 128-129: the user data of every room is replaced. *)
Definition store_identifiers (m : Model) : Model :=
  mkModel (units m) (display_name m) (tolerance m) (stories m)
    ((λ r, mkRoom (room_identifier r)
             (Some {[ "__identifier__" := room_identifier r ]}) (room_faces r))
       <$> rooms m)
    (orphaned_faces m) (shades m) (shade_meshes m).

(** *** Step 6: blocks (lines 154-165) *)

(** [enumerate(xs)] *)
Definition enumerate {A} (xs : list A) : list (nat * A) := imap pair xs.

Definition group_blocks (rooms : list Room) : list (list room_ref) * list string :=
  let '(story_rooms, story_names) := group_by_story rooms in
  foldl
    (λ '(block_rooms, block_names) '(flr_rooms, flr_name),
       let adj_rooms := group_by_adjacency rooms flr_rooms in
       if bool_decide (length adj_rooms = 1%nat) then
         (block_rooms ++ [flr_rooms], block_names ++ [flr_name])
       else
         foldl
           (λ '(block_rooms, block_names) '(i, adj_group),
              (block_rooms ++ [adj_group],
               block_names ++ [flr_name +:+ " " +:+ pretty (i + 1)%nat]))
           (block_rooms, block_names) (enumerate adj_rooms))
    ([], []) (zip story_rooms story_names).






(** *** Step 7: handles (lines 167-171) *)

(** [face.identifier = i] *)
Definition set_face_identifier (i : string) (f : Face) : Face :=
  mkFace i (type f) (normal_angle f) (face_user_data f).

(** Modelled from the spec: the walk of the missing
    [reset_ids_to_integers] over a list of faces, each face taking the
    next integer of the counter. *)
Fixpoint renumber_faces (n : Z) (fs : list Face) : list Face * Z :=
  match fs with
  | [] => ([], n)
  | f :: fs' =>
      let '(fs'', n') := renumber_faces (n + 1) fs' in
      (set_face_identifier (pretty n) f :: fs'', n')
  end.

(** Modelled from the spec: the walk of the missing
    [reset_ids_to_integers] over the rooms, a room taking the next integer
    and its faces the following ones. *)
Fixpoint renumber_rooms (n : Z) (rs : list Room) : list Room * Z :=
  match rs with
  | [] => ([], n)
  | r :: rs' =>
      let '(fs, n1) := renumber_faces (n + 1) (room_faces r) in
      let '(rs'', n2) := renumber_rooms n1 rs' in
      (mkRoom (pretty n) (room_user_data r) fs :: rs'', n2)
  end.

(** Modelled from the spec: the walk of the missing
    [reset_ids_to_integers] over the shades. *)
Fixpoint renumber_shades (n : Z) (ss : list Shade) : list Shade * Z :=
  match ss with
  | [] => ([], n)
  | s :: ss' =>
      let '(ss'', n') := renumber_shades (n + 1) ss' in
      (mkShade (pretty n) (shade_display_name s) (boundary s) (holes s) :: ss'', n')
  end.

(** Modelled from the spec: [model.reset_ids_to_integers(start_integer)],
    a method of the host's model that is not among the sources.  It
    re-assigns every room, face and shade identifier to an integer drawn
    from a counter that starts at [start_integer], and returns the counter
    as it stands after the last assignment. *)
Definition reset_ids_to_integers (start_integer : Z) (m : Model) : Model * Z :=
  let '(rs, n1) := renumber_rooms start_integer (rooms m) in
  let '(fs, n2) := renumber_faces n1 (orphaned_faces m) in
  let '(ss, n3) := renumber_shades n2 (shades m) in
  (mkModel (units m) (display_name m) (tolerance m) (stories m) rs fs ss
     (shade_meshes m), n3).

(** The identifiers of the rooms, faces and shades, in the order of the
    walk *)
Fixpoint room_identifiers (rs : list Room) : list string :=
  match rs with
  | [] => []
  | r :: rs' =>
      room_identifier r :: (face_identifier <$> room_faces r) ++ room_identifiers rs'
  end.

Definition identifiers (m : Model) : list string :=
  room_identifiers (rooms m)
  ++ (face_identifier <$> orphaned_faces m)
  ++ (shade_identifier <$> shades m).

(** Lines 168-171 *)
Definition assign_handles (block_rooms : list (list room_ref)) : M unit :=
  _ ← set_counter (Z.of_nat (length block_rooms) + 2);
  start ← get_counter;
  m ← get_model;
  let '(m', last) := reset_ids_to_integers start m in
  _ ← modify_model (λ _, m');
  _ ← set_counter last;
  n ← get_counter;
  set_counter (n + 1).

(** *** Step 8: blocks (lines 173-182) *)

(** The rooms that a list of references denotes *)
Definition deref (rooms : list Room) (refs : list room_ref) : list (room_ref * Room) :=
  omap (λ i, pair i <$> rooms !! i) refs.

Definition write_rooms (updates : list (room_ref * Room)) (m : Model) : Model :=
  mkModel (units m) (display_name m) (tolerance m) (stories m)
    (foldl (λ rs '(i, r), <[i := r]> rs) (rooms m) updates)
    (orphaned_faces m) (shades m) (shade_meshes m).

(** Modelled from the spec:
    [room_group_to_therm_xml_block(room_group, block_handle, xml_bldg,
    block_name, reset_counter=False)], which is not among the sources.  It
    emits one block element, holding the zone and surface hierarchy of its
    rooms, under the [BuildingBlocks] element of the building, here
    [xml_blocks]; the faces of the rooms are left with their index in their
    user data, and the handle counter moves on. *)
Definition room_group_to_therm_xml_block (room_group : list room_ref)
    (block_handle : Z) (xml_blocks : ET.Element) (block_name : string)
  : M ET.Element :=
  m ← get_model;
  n ← get_counter;
  let group := deref (rooms m) room_group in
  '(xml_block, rooms', n') ← lift (block_element (group.*2) block_handle block_name n);
  _ ← modify_model (write_rooms (zip (group.*1) rooms'));
  _ ← set_counter n';
  mret (ET.append xml_block xml_blocks).

(** [f.user_data['dsb_face_i']] *)
Definition dsb_face_i (f : Face) : result string :=
  match face_user_data f with
  | None => Raise (TypeError "'NoneType' object is not subscriptable")
  | Some d =>
      match d !! "dsb_face_i" with
      | Some i => Ok i
      | None => Raise (KeyError "dsb_face_i")
      end
  end.

(** [for f in faces: f_index_map[f.identifier] = f.user_data['dsb_face_i']] *)
Fixpoint index_faces (f_index_map : gmap string string) (fs : list Face)
  : result (gmap string string) :=
  match fs with
  | [] => Ok f_index_map
  | f :: fs' =>
      i ← dsb_face_i f;
      index_faces (<[face_identifier f := i]> f_index_map) fs'
  end.

(** The loop of lines 176-182 over the enumerated blocks *)
Fixpoint emit_blocks (blocks : list (nat * (list room_ref * string)))
    (xml_blocks : ET.Element) (f_index_map : gmap string string)
  : M (ET.Element * gmap string string) :=
  match blocks with
  | [] => mret (xml_blocks, f_index_map)
  | (i, (room_group, block_name)) :: rest =>
      xml_blocks ←
        room_group_to_therm_xml_block room_group (Z.of_nat i + 2) xml_blocks block_name;
      m ← get_model;
      f_index_map ←
        lift (index_faces f_index_map
                (concat (room_faces <$> (deref (rooms m) room_group).*2)));
      emit_blocks rest xml_blocks f_index_map
  end.

(** *** Step 9: adjacencies (lines 184-200) *)

(** [c = e.find(t)] followed by work on [c], which is edited in place *)
Definition in_found (t : string) (f : ET.Element → result ET.Element)
    (e : ET.Element) : result ET.Element :=
  c ← ET.find_elem t e;
  c' ← f c;
  Ok (ET.update_found t c' e).

(** [for c in e: ...] *)
Definition each_child (f : ET.Element → result ET.Element) (e : ET.Element)
  : result ET.Element :=
  cs ← mapM f (ET.children e);
  Ok (ET.with_children cs e).

(** [for c in e.find(t): ...]; iterating [None] raises [TypeError]. *)
Definition each_found (t : string) (f : ET.Element → result ET.Element)
    (e : ET.Element) : result ET.Element :=
  match ET.find t e with
  | Some c => c' ← each_child f c; Ok (ET.update_found t c' e)
  | None => Raise (TypeError "'NoneType' object is not iterable")
  end.

(** Lines 193-200 on the [ObjectIDs] element of one adjacency.  The lookup
    [f_index_map[xml_adj_face_id]] raises [KeyError] on an identifier that
    is no key, and on [None] when the attribute is missing. *)
Definition remap_object_ids (f_index_map : gmap string string)
    (xml_adj_obj_ids : ET.Element) : ET.Element :=
  let xml_adj_face_id := ET.get "surfaceIndex" xml_adj_obj_ids in
  if bool_decide (xml_adj_face_id ≠ Some "-1") then
    match xml_adj_face_id ≫= (f_index_map !!.) with
    | Some face_index => ET.set "surfaceIndex" face_index xml_adj_obj_ids
    | None =>
        ET.set "zoneHandle" "-1" (ET.set "surfaceIndex" "-1" xml_adj_obj_ids)
    end
  else xml_adj_obj_ids.

(** Lines 185-200: the walk over blocks, zones, surfaces and adjacencies *)
Definition remap_adjacencies (f_index_map : gmap string string)
    (xml_blocks : ET.Element) : result ET.Element :=
  each_child
    (each_found "Zones"
       (in_found "Body"
          (each_found "Surfaces"
             (each_found "Adjacencies"
                (in_found "ObjectIDs" (λ ids, Ok (remap_object_ids f_index_map ids)))))))
    xml_blocks.







(** *** Step 10: shades (lines 13-89 and 202-207) *)

(** ['{}; {}; {}'.format(pt.x, pt.y, pt.z)] *)
Definition point_text (pt : Point3D) : string :=
  str_of_float (x pt) +:+ "; " +:+ str_of_float (y pt) +:+ "; " +:+ str_of_float (z pt).

Definition vertices (pts : list Point3D) : ET.Element :=
  ET.mkElement "Vertices" ∅ None (ET.leaf "Point3D" ∘ point_text <$> pts).

(** The [Attributes] element with the title of a plane *)
Definition title (name : string) : ET.Element :=
  ET.mkElement "Attributes" ∅ None
    [ET.mkElement "Attribute" {[ "key" := "Title" ]} (Some name) []].

(** [ET.SubElement(planes_element, ...)] on the [Planes] element of the
    building: [None] in its place raises [TypeError]. *)
Definition add_plane (xml_shade : ET.Element) (building_element : ET.Element)
  : result ET.Element :=
  match ET.find "Planes" building_element with
  | Some planes_element =>
      Ok (ET.update_found "Planes" (ET.append xml_shade planes_element)
            building_element)
  | None => Raise (TypeError "SubElement() argument 1 must be Element, not None")
  end.

(** [shade_to_therm_xml_element(shade, building_element)]: the plane, and
    the building with the plane added when a building is given.  The
    polygon gets its object identifiers once, and once more for every
    hole. *)
Definition shade_to_therm_xml_element (shade : Shade)
    (building_element : option ET.Element)
  : result (ET.Element * option ET.Element) :=
  let xml_holes :=
    ET.mkElement "PolygonHoles" ∅ None
      ((λ hole_face, ET.mkElement "PolygonHole" ∅ None [vertices hole_face])
         <$> holes shade) in
  let xml_geo :=
    ET.mkElement "Polygon" {[ "auxiliaryType" := "-1" ]} None
      ([object_ids (shade_identifier shade) "0"; vertices (boundary shade); xml_holes]
       ++ ((λ _, object_ids (shade_identifier shade) "0") <$> holes shade)) in
  let xml_shade :=
    ET.mkElement "Plane" {[ "type" := "2" ]} None
      [xml_geo; title (shade_display_name shade)] in
  match building_element with
  | Some b => b' ← add_plane xml_shade b; Ok (xml_shade, Some b')
  | None => Ok (xml_shade, None)
  end.

(** One pass of the loop of [shade_mesh_to_therm_xml_element] *)
Definition mesh_plane (shade_mesh : ShadeMesh) (i : nat) (face : list Point3D)
    (xml_planes : option ET.Element) : M (option ET.Element) :=
  match xml_planes with
  | None => raise (TypeError "SubElement() argument 1 must be Element, not None")
  | Some planes =>
      n ← get_counter;
      _ ← set_counter (n + 1);
      let xml_geo :=
        ET.mkElement "Polygon" {[ "auxiliaryType" := "-1" ]} None
          [object_ids (pretty n) "0"; vertices face; ET.new "PolygonHoles"] in
      let xml_shade :=
        ET.mkElement "Plane" {[ "type" := "2" ]} None
          [xml_geo; title (mesh_display_name shade_mesh +:+ " " +:+ pretty i)] in
      mret (Some (ET.append xml_shade planes))
  end.

Fixpoint mesh_planes (shade_mesh : ShadeMesh) (faces : list (nat * list Point3D))
    (xml_planes : option ET.Element) : M (option ET.Element) :=
  match faces with
  | [] => mret xml_planes
  | (i, face) :: rest =>
      xml_planes ← mesh_plane shade_mesh i face xml_planes;
      mesh_planes shade_mesh rest xml_planes
  end.

(** [shade_mesh_to_therm_xml_element(shade_mesh, building_element,
    reset_counter)]: the [Planes] element, and the building with its
    [Planes] element in the new state. *)
Definition shade_mesh_to_therm_xml_element (shade_mesh : ShadeMesh)
    (building_element : option ET.Element) (reset_counter : bool)
  : M (option ET.Element * option ET.Element) :=
  let xml_planes :=
    match building_element with
    | Some b => ET.find "Planes" b
    | None => Some (ET.new "Planes")
    end in
  xml_planes ← mesh_planes shade_mesh (enumerate (face_vertices shade_mesh)) xml_planes;
  _ ← (if reset_counter then set_counter 1 else mret tt);
  mret (xml_planes,
        match building_element, xml_planes with
        | Some b, Some p => Some (ET.update_found "Planes" p b)
        | b, _ => b
        end).

(** Lines 203-204 *)
Fixpoint add_shades (ss : list Shade) (xml_bldg : ET.Element) : result ET.Element :=
  match ss with
  | [] => Ok xml_bldg
  | shade :: rest =>
      '(_, b) ← shade_to_therm_xml_element shade (Some xml_bldg);
      add_shades rest (default xml_bldg b)
  end.

Definition set_shade_meshes (sms : list ShadeMesh) (m : Model) : Model :=
  mkModel (units m) (display_name m) (tolerance m) (stories m) (rooms m)
    (orphaned_faces m) (shades m) sms.

(** Lines 205-207: each mesh is triangulated where it is, in the model,
    and then translated. *)
Fixpoint add_shade_meshes (i : nat) (n : nat) (xml_bldg : ET.Element) : M ET.Element :=
  match n with
  | O => mret xml_bldg
  | S n' =>
      m ← get_model;
      match shade_meshes m !! i with
      | None => mret xml_bldg
      | Some shade_mesh =>
          let shade_mesh :=
            triangulate_and_remove_degenerate_faces (tolerance m) shade_mesh in
          _ ← modify_model (set_shade_meshes (<[i := shade_mesh]> (shade_meshes m)));
          '(_, b) ← shade_mesh_to_therm_xml_element shade_mesh (Some xml_bldg) false;
          add_shade_meshes (S i) n' (default xml_bldg b)
      end
  end.

(** *** The translator (lines 92-213)

    The source declares this function under the name [model_to_therm_xml]
    and then declares the function that returns the text under the same
    name; the latter calls the former as [model_to_therm_xml_element],
    which is the name it has here.  [translate] is its body after the
    first two statements, at work on the duplicate. *)
Definition translate (original_units : Units) (xml_template : string) : M ET.Element :=
  m ← get_model;
  _ ← (if bool_decide (units m ≠ Meters)
       then modify_model (convert_to_units Meters) else mret tt);
  _ ← clean_geometry original_units;
  m ← get_model;
  _ ← (if bool_decide (length (stories m) = 0%nat) && bool_decide (length (rooms m) ≠ 0%nat)
       then modify_model (assign_stories_by_floor_height (2 # 1)) else mret tt);
  _ ← modify_model store_identifiers;
  _ ← modify_model reassign_types;
  xml_root ← lift (parse_template xml_template);
  m ← get_model;
  let model_name := clean_string (display_name m) in
  let xml_root := ET.set "name" ("~" +:+ model_name) xml_root in
  let xml_root := ET.set "date" today xml_root in
  let xml_root := ET.set "version" DESIGNBUILDER_VERSION xml_root in
  xml_site ← lift (ET.find_elem "Site" xml_root);
  xml_bldgs ← lift (ET.find_elem "Buildings" xml_site);
  xml_bldg ← lift (ET.find_elem "Building" xml_bldgs);
  let '(block_rooms, block_names) := group_blocks (rooms m) in
  _ ← assign_handles block_rooms;
  '(xml_blocks, f_index_map) ←
    emit_blocks (enumerate (zip block_rooms block_names)) (ET.new "BuildingBlocks") ∅;
  xml_blocks ← lift (remap_adjacencies f_index_map xml_blocks);
  let xml_bldg := ET.append xml_blocks xml_bldg in
  m ← get_model;
  xml_bldg ← lift (add_shades (shades m) xml_bldg);
  xml_bldg ← add_shade_meshes 0 (length (shade_meshes m)) xml_bldg;
  let xml_bldgs := ET.update_found "Building" xml_bldg xml_bldgs in
  let xml_site := ET.update_found "Buildings" xml_bldgs xml_site in
  let xml_site := ET.set "handle" "1" xml_site in
  let xml_root := ET.update_found "Site" xml_site xml_root in
  _ ← set_counter 1;
  mret xml_root.

(** *** The world: the models of the caller, the global counter, the files *)
Record World : Type := mkWorld {
  models : gmap nat Model;
  counter : Z;
  directories : gset string;
  files : gmap string (list Byte.byte);
}.

Definition IO (A : Type) : Type := World → result A * World.

#[global] Instance IO_ret : MRet IO := λ A a w, (Ok a, w).
#[global] Instance IO_bind : MBind IO := λ A B f m w,
  match m w with
  | (Ok a, w') => f a w'
  | (Raise e, w') => (Raise e, w')
  end.

(** [if not os.path.isdir(dir_name): os.makedirs(dir_name)] *)
Definition makedirs (dir_name : string) : IO unit := λ w,
  (Ok tt, mkWorld (models w) (counter w) ({[ dir_name ]} ∪ directories w) (files w)).

(** [open(path, 'wb')], which leaves an empty file, and [fp.write(data)] *)
Definition open_wb (path : string) : IO unit := λ w,
  (Ok tt, mkWorld (models w) (counter w) (directories w) (<[path := []]> (files w))).

Definition write_file (path : string) (data : list Byte.byte) : IO unit := λ w,
  (Ok tt, mkWorld (models w) (counter w) (directories w) (<[path := data]> (files w))).

Definition io_lift {A} (r : result A) : IO A := λ w, (r, w).

(** [model_to_therm_xml_element(model, xml_template)].  [model] refers to
    the model of the caller; [model.duplicate()] is a new object of the
    store with the same content, and the rest of the body works on it.  A
    reference always denotes an object; one that does not is reported as
    an error. *)
Definition model_to_therm_xml_element (model : nat) (xml_template : string)
  : IO ET.Element := λ w,
  match models w !! model with
  | None => (Raise (AttributeError "no such object"), w)
  | Some original_model =>
      let duplicate := fresh (dom (models w)) in
      let '(r, mkSession m n) :=
        translate (units original_model) xml_template
          (mkSession original_model (counter w)) in
      (r, mkWorld (<[duplicate := m]> (models w)) n (directories w) (files w))
  end.

(** The declaration that opens the text of the document *)
Definition xml_declaration : string :=
  "<?xml version=" +:+ quoted "1.0" +:+ " encoding=" +:+ quoted "ISO-8859-15" +:+
  " standalone=" +:+ quoted "yes" +:+ "?>".

(** [model_to_therm_xml(model, xml_template, program_name)] (lines 216-282) *)
Definition model_to_therm_xml (model : nat) (xml_template : string)
    (program_name : option string) : IO string :=
  xml_root ← model_to_therm_xml_element model xml_template;
  let therm_xml_str := tostring xml_root in
  let prog_comment :=
    match program_name with
    | Some p => "<!--File generated by " +:+ p +:+ "-->" +:+ nl
    | None => ""
    end in
  let base_template := xml_declaration +:+ nl +:+ prog_comment in
  mret (base_template +:+ therm_xml_str).

(** [model_to_thmz(model, output_file, xml_template, program_name)]
    (lines 285-320); the file is opened before the text is encoded. *)
Definition model_to_thmz (model : nat) (output_file : string) (xml_template : string)
    (program_name : option string) : IO string :=
  let dir_name := dirname_abspath output_file in
  _ ← makedirs dir_name;
  xml_str ← model_to_therm_xml model xml_template program_name;
  _ ← open_wb output_file;
  data ← io_lift (encode "iso-8859-15" xml_str);
  _ ← write_file output_file data;
  mret output_file.

End WithHost.
End Writer.

(** ** A reference host

    A small host for the concrete runs: every room is a story group of its
    own, a room without faces is degenerate, the one template is the
    document skeleton, and a block lists its faces as surfaces, each
    adjacent to the face named in its user data. *)

Module ReferenceHost.
Import Writer.

#[local] Existing Instance Reference.whole_float.

Definition skeleton : ET.Element :=
  ET.mkElement "dsbXML" ∅ None
    [ET.mkElement "Site" ∅ None
       [ET.mkElement "Buildings" ∅ None
          [ET.mkElement "Building" ∅ None [ET.new "Planes"]]]].

(** The surface of a face, with its adjacency *)
Definition surface (zone : string) (f : Face) : ET.Element :=
  ET.mkElement "Surface" ∅ None
    [ET.mkElement "Adjacencies" ∅ None
       [ET.mkElement "Adjacency" ∅ None
          [ET.mkElement "ObjectIDs"
             {[ "surfaceIndex" :=
                  default "-1" (face_user_data f ≫= (.!! "adjacent_to"));
                "zoneHandle" := zone ]} None []]]].

Definition zone (r : Room) : ET.Element :=
  ET.mkElement "Zone" ∅ None
    [ET.mkElement "Body" ∅ None
       [ET.mkElement "Surfaces" ∅ None (surface (room_identifier r) <$> room_faces r)]].

Definition note_index (i : nat) (f : Face) : Face :=
  mkFace (face_identifier f) (type f) (normal_angle f)
    (Some (<[ "dsb_face_i" := pretty i ]> (default ∅ (face_user_data f)))).

#[global] Instance host : Host := {|
  convert_to_units u m :=
    mkModel u (display_name m) (tolerance m) (stories m) (rooms m)
      (orphaned_faces m) (shades m) (shade_meshes m);
  remove_degenerate_geometry tol m :=
    if forallb (λ r, negb (Nat.eqb (length (room_faces r)) 0)) (rooms m)
    then (Ok tt, m)
    else (Raise (ValueError "degenerate room"), m);
  assign_stories_by_floor_height d m :=
    mkModel (units m) (display_name m) (tolerance m) ["Floor1"] (rooms m)
      (orphaned_faces m) (shades m) (shade_meshes m);
  group_by_story rooms :=
    match rooms with
    | [] => ([], [])
    | _ => ([seq 0 (length rooms)], ["Floor1"])
    end;
  group_by_adjacency rooms refs := (λ i, [i]) <$> refs;
  parse_template name :=
    if String.eqb name "Default" then Ok skeleton
    else Raise (OSError "No such file or directory");
  clean_string s := s;
  DESIGNBUILDER_VERSION := "7.0";
  today := "2026-01-01";
  object_ids handle parent :=
    ET.mkElement "ObjectIDs" {[ "handle" := handle; "parentHandle" := parent ]} None [];
  block_element rooms handle name n :=
    Ok (ET.mkElement "BuildingBlock" {[ "name" := name ]} None
          [ET.mkElement "Zones" ∅ None (zone <$> rooms)],
        (λ r, mkRoom (room_identifier r) (room_user_data r)
                (imap note_index (room_faces r))) <$> rooms,
        n);
  triangulate_and_remove_degenerate_faces tol sm := sm;
  tostring := Reference.tostring;
  encode codec s :=
    if String.eqb codec "iso-8859-15" then Ok (list_byte_of_string s)
    else Raise (UnicodeEncodeError codec);
  dirname_abspath path := "/";
|}.

Definition wall_face (id : string) (adjacent_to : string) : Face :=
  mkFace id wall (90 # 1) (Some {[ "adjacent_to" := adjacent_to ]}).

(** Two rooms with a wall each: the wall of the first is adjacent to the
    wall of the second, the wall of the second to a face that is not in
    the model. *)
Definition two_rooms : Model :=
  mkModel Meters "Two Rooms" (1 # 100) [] 
    [mkRoom "A" None [wall_face "A_wall" "7"];
     mkRoom "B" None [wall_face "B_wall" "gone"]]
    [] [] [].

(** A model in feet with a room that has no face *)
Definition flat_room : Model :=
  mkModel Feet "Flat" (1 # 100) [] [mkRoom "A" None []] [] [] [].

Definition world (m : Model) : World := mkWorld {[ 0%nat := m ]} 1 ∅ ∅.


Definition face_indices : gmap string string := {[ "5" := "0"; "7" := "0" ]}.

End ReferenceHost.


(** ** simulation/exposure.py: dictionaries and copies *)

Module ExposureDict.
Import Exposure.
Section WithFloat.
Context `{Float}.

(** [str(value)] of a scalar; [None] stands for itself, since the setters
    test [value is not None] before they call [str]. *)
Definition str (value : number) : option string :=
  match value with
  | NNone => None
  | NStr s => Some s
  | NInt z => Some (pretty z)
  | NFloat x => Some (str_of_float x)
  end.

(** [value == text] for a scalar: only a text equals a text. *)
Definition is_text (text : string) (value : number) : bool :=
  match value with
  | NStr s => String.eqb s text
  | _ => false
  end.

(** [data[key] if key in data and data[key] is not None else None] *)
Definition given (key : string) (data : gmap string number) : option number :=
  match data !! key with
  | Some NNone | None => None
  | Some value => Some value
  end.

(** [from_dict(data)] (lines 241-267).  [data['type']] raises [KeyError]
    on a dictionary without the key. *)
Definition from_dict (data : gmap string number) : result ModelExposure :=
  type ← match data !! "type" with
         | Some value => Ok value
         | None => Raise (KeyError "type")
         end;
  _ ← assert (is_text "ModelExposure" type)
        ("Expected ModelExposure. Got " +:+ str_opt (str type) +:+ ".");
  let m_type := default (NStr "Other") (given "model_type" data) in
  let c_type := given "cross_section_type" data in
  let g_orient := given "gravity_orientation" data in
  let w_orient := default (NInt 0) (data !! "wind_orientation") in
  __init__ (str m_type) (c_type ≫= str) (g_orient ≫= str) w_orient.

(** [to_dict()] (lines 342-353) *)
Definition to_dict (self : ModelExposure) : result (gmap string number) :=
  let base : gmap string number :=
    {[ "type" := NStr "ModelExposure";
       "model_type" := NStr (model_type self);
       "wind_orientation" := NFloat (wind_orientation self) ]} in
  base ←
    match _cross_section_type self with
    | Some _ =>
        cs ← cross_section_type self;
        Ok (<[ "cross_section_type" := NStr cs ]> base)
    | None => Ok base
    end;
  Ok match _gravity_orientation self, gravity_orientation self with
     | Some _, Some g => <[ "gravity_orientation" := NStr g ]> base
     | _, _ => base
     end.

(** [__copy__()] (lines 377-380) and [duplicate()] (lines 355-357): the
    slots go through the constructor again. *)
Definition __copy__ (self : ModelExposure) : result ModelExposure :=
  __init__ (Some (_model_type self)) (_cross_section_type self)
    (_gravity_orientation self) (NFloat (_wind_orientation self)).

Definition duplicate (self : ModelExposure) : result ModelExposure := __copy__ self.

(** [__repr__()] (lines 382-383) *)
Definition __repr__ (self : ModelExposure) : result string :=
  cs ← cross_section_type self;
  Ok ("ModelExposure: " +:+ model_type self +:+ " - " +:+ cs).

(** The gravity orientation that [to_therm_xml] writes (lines 300-310) *)
Definition written_gravity (self : ModelExposure) (model_plane : option Q) : string :=
  match gravity_orientation self with
  | Some g => g
  | None =>
      match model_plane with
      | Some up_ang => if Qle_bool 45 up_ang then "Down" else "Into Screen"
      | None => "Down"
      end
  end.

End WithFloat.
End ExposureDict.

(** Exposure objects over whole-number floats, on which the statements
    about dictionaries and copies are run. *)
Module ReferenceExposure.
Import Exposure ExposureDict.

(** [ModelExposure('Opaque Wall')] *)
Definition opaque_wall : ModelExposure (H := Reference.whole_float) :=
  mkModelExposure "Opaque Wall" None None 0%Z.

(** [{'type': 'ModelExposure', 'model_type': 'window',
      'cross_section_type': None, 'wind_orientation': None}] *)
Definition none_wind : gmap string (number (H := Reference.whole_float)) :=
  {[ "type" := NStr "ModelExposure"; "model_type" := NStr "window";
     "cross_section_type" := NNone; "wind_orientation" := NNone ]}.

(** [{'type': 'Material', 'model_type': 'Window'}] *)
Definition material_dict : gmap string (number (H := Reference.whole_float)) :=
  {[ "type" := NStr "Material"; "model_type" := NStr "Window" ]}.

(** [ModelExposure('Window')] *)
Definition window : ModelExposure (H := Reference.whole_float) :=
  mkModelExposure "Window" None None 0%Z.

End ReferenceExposure.

(** ** writer.py: planes and the text of single objects *)

Module WriterText.
Import Writer.
Section WithHost.
Context `{Float} `{!Host}.

(** The plane that one pass of the loop of
    [shade_mesh_to_therm_xml_element] builds (lines 74-86), for the face
    at position [i] and the handle that the counter holds. *)
Definition mesh_face_plane (shade_mesh : ShadeMesh) (handle : Z) (i : nat)
    (face : list Point3D) : ET.Element :=
  ET.mkElement "Plane" {[ "type" := "2" ]} None
    [ET.mkElement "Polygon" {[ "auxiliaryType" := "-1" ]} None
       [object_ids (pretty handle) "0"; vertices face; ET.new "PolygonHoles"];
     title (mesh_display_name shade_mesh +:+ " " +:+ pretty i)].



(** A step of the translation that leaves the display name of the model
    as it is, whether it returns or raises *)
Definition keeps_name {A} (step : M A) : Prop :=
  ∀ s r s', step s = (r, s') → display_name (model s') = display_name (model s).

End WithHost.
End WriterText.

(** A host whose codec refuses every character above 127, and a model
    whose name holds one *)
Module WriterSamples.
Import Writer.

#[local] Existing Instance Reference.whole_float.

Definition ascii_only (s : string) : bool :=
  forallb (λ c, (nat_of_ascii c <? 128)%nat) (list_ascii_of_string s).

Definition strict_host : Host := {|
  convert_to_units := convert_to_units (Host := ReferenceHost.host);
  remove_degenerate_geometry := remove_degenerate_geometry (Host := ReferenceHost.host);
  assign_stories_by_floor_height :=
    assign_stories_by_floor_height (Host := ReferenceHost.host);
  group_by_story := group_by_story (Host := ReferenceHost.host);
  group_by_adjacency := group_by_adjacency (Host := ReferenceHost.host);
  parse_template := parse_template (Host := ReferenceHost.host);
  clean_string := clean_string (Host := ReferenceHost.host);
  DESIGNBUILDER_VERSION := DESIGNBUILDER_VERSION (Host := ReferenceHost.host);
  today := today (Host := ReferenceHost.host);
  object_ids := object_ids (Host := ReferenceHost.host);
  block_element := block_element (Host := ReferenceHost.host);
  triangulate_and_remove_degenerate_faces :=
    triangulate_and_remove_degenerate_faces (Host := ReferenceHost.host);
  tostring := tostring (Host := ReferenceHost.host);
  encode codec s :=
    if ascii_only s then Ok (list_byte_of_string s)
    else Raise (UnicodeEncodeError codec);
  dirname_abspath := dirname_abspath (Host := ReferenceHost.host);
|}.

(** A model without rooms, named by the capital omega *)
Definition omega : Model :=
  mkModel Meters (String "206" (String "169" EmptyString)) (1 # 100) [] [] [] [] [].

(** A shade: a triangle with a triangular hole *)
Definition triangle : list Point3D :=
  [mkPoint3D 0%Z 0%Z 0%Z; mkPoint3D 4%Z 0%Z 0%Z; mkPoint3D 0%Z 4%Z 0%Z].

Definition awning : Shade :=
  mkShade "9" "Awning" triangle
    [[mkPoint3D 1%Z 1%Z 0%Z; mkPoint3D 1%Z 2%Z 0%Z; mkPoint3D 2%Z 1%Z 0%Z]].



(** A building with a [Planes] element, and one without *)
Definition building : ET.Element :=
  ET.mkElement "Building" ∅ None [ET.new "Planes"].

Definition bare_building : ET.Element := ET.mkElement "Building" ∅ None [].

(** A face whose user data holds no index, and one that holds the index 3 *)
Definition unindexed : Face := mkFace "5" wall (90 # 1) (Some ∅).

Definition indexed : Face := mkFace "6" wall (90 # 1) (Some {[ "dsb_face_i" := "3" ]}).


(** The object identifiers of an adjacency to the face 5 of the zone 4 *)
Definition resolved_ids : ET.Element :=
  ET.mkElement "ObjectIDs"
    {[ "handle" := "12"; "surfaceIndex" := "5"; "zoneHandle" := "4" ]} None [].

(** A store with one model, the global counter standing at 7 *)
Definition busy_world (m : Model) : World := mkWorld {[ 0%nat := m ]} 7 ∅ ∅.

End WriterSamples.

(** A store with a material and an object of another class, and a shape *)
Module ShapeSamples.
Import Shape.

Definition shelf : store :=
  {[ 0%nat := IsSolidMaterial Lockable.concrete;
     1%nat := NotSolidMaterial "<class 'str'>" ]}.

Definition frame_shape : ShapeThermProperties := mkShapeThermProperties "frame" (Some 0%nat).

End ShapeSamples.

(** ** run.py

    The runner writes a model to a THMZ file, hands the file to the THERM
    executable and reads the log that THERM leaves.  The file system, the
    configuration and the executable are outside the package: they are the
    fields of the class [System]. *)

Module Run.
Section WithSystem.
Context `{Float}.

(** The argument [model] of [run_model]: a model, or an object of another
    class, given by the text of its type *)
Inductive object : Type :=
| IsModel (m : Writer.Model)
| NotModel (type_name : string).

Class System : Type := {
  world : Type;
  (** [folders.therm_exe] of the configuration *)
  therm_exe : option string;
  (** [ff_folders.default_simulation_folder] *)
  default_simulation_folder : string;
  clean_string : string → string;
  (** [os.path.join(a, b)], [os.path.abspath(path)] and
      [os.path.split(path)[0]] *)
  join : string → string → string;
  abspath : string → string;
  split_head : string → string;
  (** [os.path.isfile(path)] *)
  isfile : string → world → bool;
  (** [preparedir(directory)] *)
  preparedir : string → world → result unit * world;
  (** [model.to_thmz(thmz_file)] *)
  to_thmz : Writer.Model → string → world → result unit * world;
  (** [write_to_file(file_path, data, mkdir)] *)
  write_to_file : string → string → bool → world → result string * world;
  (** [os.system(command)], whose exit status the runner drops *)
  system : string → world → world;
  (** [process = subprocess.Popen(cmds, shell=shell)] followed by
      [process.communicate()] *)
  popen_communicate : list string → bool → world → result unit * world;
  (** [with open(path, 'r') as f: f.read()] *)
  read_text : string → world → result string;
}.

Context `{System}.

Definition IO (A : Type) : Type := world → result A * world.

#[global] Instance IO_ret : MRet IO := λ A a w, (Ok a, w).
#[global] Instance IO_bind : MBind IO := λ A B f m w,
  match m w with
  | (Ok a, w') => f a w'
  | (Raise e, w') => (Raise e, w')
  end.

Definition raise {A} (e : exn) : IO A := λ w, (Raise e, w).

(** [all(ord(c) < 128 for c in text)], read on the bytes of the text: a
    character beyond ASCII is written with bytes above 127, and only
    such a character is. *)
Definition all_ascii (text : string) : bool :=
  forallb (λ c, (nat_of_ascii c <? 128)%nat) (list_ascii_of_string text).

(** The text of the batch file (lines 71-73) *)
Definition batch_text (exe thmz_file log_file directory : string) : string :=
  String.substring 0 2 directory +:+ nl +:+
  quoted exe +:+ " -pw thmCLA -thmz " +:+ quoted thmz_file +:+
  " -log " +:+ quoted log_file +:+ " -calc -exit".

(** The command of lines 81-82 *)
Definition therm_command (exe thmz_file log_file : string) : list string :=
  [exe; "-pw"; "thmCLA"; "-thmz"; thmz_file; "-log"; log_file; "-calc"; "-exit"].

(** [run_thmz(thmz_file, silent)] (lines 50-86) *)
Definition run_thmz (thmz_file : string) (silent : bool) : IO string := λ w,
  match therm_exe with
  | None =>
      (Raise (AssertionError "No usable THERM executable was found on the machine."),
       w)
  | Some exe =>
      let thmz_file := abspath thmz_file in
      if negb (isfile thmz_file w) then
        (Raise (AssertionError ("No THMZ file found at " +:+ thmz_file +:+ ".")), w)
      else
        let directory := split_head thmz_file in
        let log_file := join directory "therm.log" in
        let batch := batch_text exe thmz_file log_file directory in
        if negb silent && all_ascii batch then
          let batch_file := join directory "run_therm.bat" in
          match write_to_file batch_file batch true w with
          | (Ok _, w) => (Ok thmz_file, system (quoted batch_file) w)
          | (Raise e, w) => (Raise e, w)
          end
        else
          match popen_communicate (therm_command exe thmz_file log_file) silent w with
          | (Ok _, w) => (Ok thmz_file, w)
          | (Raise e, w) => (Raise e, w)
          end
  end.

(** The message of lines 44-45 *)
Definition failed_message (sim_log : string) : string :=
  "THERM simulation failed. Open the thmz file in the THERM interface " +:+
  "for more info." +:+ nl +:+ sim_log.

(** [run_model(model, directory, silent)] (lines 15-47) *)
Definition run_model (model : object) (directory : option string) (silent : bool)
  : IO string :=
  match model with
  | NotModel type_name =>
      raise (AssertionError ("Expected Fairyfly Model. Got " +:+ type_name +:+ "."))
  | IsModel model =>
      let directory :=
        match directory with
        | Some directory => directory
        | None =>
            join default_simulation_folder (clean_string (Writer.display_name model))
        end in
      _ ← preparedir directory;
      let thmz_file := join directory "model.thmz" in
      _ ← to_thmz model thmz_file;
      thmz_file ← run_thmz thmz_file silent;
      let log_file := join directory "therm.log" in
      sim_log ← (λ w, (read_text log_file w, w)) : IO string;
      if negb (contains "Calculation complete." sim_log) then
        raise (ValueError (failed_message sim_log))
      else mret thmz_file
  end.

End WithSystem.
End Run.

(** A machine for the runs: the world is its text files, THERM is
    installed, and running it leaves a log that reports completion or, for
    a file named broken, a failure. *)
Module ReferenceSystem.
Import Run.

#[local] Existing Instance Reference.whole_float.

Definition files : Type := gmap string string.

(** The path without its last component *)
Fixpoint after_slash (l : list ascii) : list ascii :=
  match l with
  | [] => []
  | c :: r => if Ascii.eqb c "/" then r else after_slash r
  end.

Definition dirname (path : string) : string :=
  string_of_list_ascii (rev (after_slash (rev (list_ascii_of_string path)))).

(** THERM at work on a file: it leaves its log beside the file. *)
Definition therm (path : string) (w : files) : files :=
  <[ dirname path +:+ "/therm.log" :=
       if contains "broken" path then "Error: no boundary conditions."
       else "Meshing... Calculation complete." ]> w.

(** A command line without its opening quote *)
Definition unquote (command : string) : string :=
  match command with
  | String _ rest => rest
  | EmptyString => EmptyString
  end.

Definition installed (exe : option string) : System := {|
  world := files;
  therm_exe := exe;
  default_simulation_folder := "/sim";
  clean_string s := s;
  join a b := a +:+ "/" +:+ b;
  abspath p := p;
  split_head := dirname;
  isfile p w := bool_decide (is_Some (w !! p));
  preparedir d w := (Ok tt, w);
  to_thmz m p w := (Ok tt, <[ p := Writer.display_name m ]> w);
  write_to_file p data mkdir w := (Ok p, <[ p := data ]> w);
  system command w := therm (unquote command) w;
  popen_communicate cmds shell w := (Ok tt, therm (default "" (cmds !! 4%nat)) w);
  read_text p w :=
    match w !! p with
    | Some text => Ok text
    | None => Raise (OSError "No such file or directory")
    end;
|}.

#[global] Instance machine : System := installed (Some "C:/THERM/THERM8.exe").

(** The same machine without THERM *)
Definition bare_machine : System := installed None.

(** A THMZ file whose name holds the capital omega *)
Definition omega_thmz : string :=
  "/sim/" +:+ String "206" (String "169" EmptyString) +:+ ".thmz".

Definition disk : files := {[ omega_thmz := "model"; "/sim/model.thmz" := "model" ]}.

End ReferenceSystem.
(** * Theorems *)

(** ** The exposure object *)

Module ExposureFacts.
Import Exposure.

Ltac cases_in H :=
  repeat (apply elem_of_cons in H as [-> | H]); [.. | by apply elem_of_nil in H].

Ltac in_list := solve [repeat constructor].

Section WithFloat.
Context `{Float}.

Lemma checked_permitted mt : mt ∈ MODEL_TYPES → checked_sections mt = permitted mt.
Proof. unfold MODEL_TYPES. intros Hmt. cases_in Hmt; reflexivity. Qed.

(** The three outcomes of the check *)
Lemma check_outcome self :
  match cross_section_type self with
  | Ok cs =>
      if bool_decide (cs ∈ checked_sections (model_type self))
      then _check_model_and_cross_section self = Ok tt
      else ∃ msg, _check_model_and_cross_section self = Raise (AssertionError msg)
  | Raise e => _check_model_and_cross_section self = Raise e
  end.
Proof.
  unfold _check_model_and_cross_section, checked_sections.
  destruct (cross_section_type self) as [cs|e]; cbn [mbind result_bind]; [|done].
  destruct (String.eqb (model_type self) "Other");
    [| destruct (String.eqb (model_type self) "Window")];
    case_bool_decide; unfold assert; eauto.
Qed.

Lemma check_ok_iff self :
  wf self → _check_model_and_cross_section self = Ok tt ↔ consistent self.
Proof.
  intros Hwf. pose proof (check_outcome self) as Hc.
  unfold consistent, model_type in *. rewrite <- (checked_permitted _ Hwf).
  destruct (cross_section_type self) as [cs|e].
  - case_bool_decide as Hin.
    + split; [eauto | done].
    + destruct Hc as [msg Hc]. rewrite Hc. split; [done|].
      intros (cs' & [= <-] & Hin'). done.
  - rewrite Hc. split; [done | by intros (? & ? & _)].
Qed.

(** The key that the loop of a setter selects *)
Lemma match_key_ok what keys v key :
  match_key what keys v = Ok key → key ∈ keys ∧ lower key = lower v.
Proof.
  unfold match_key. destruct (List.find _ keys) as [k|] eqn:E; [|done].
  intros [= <-]. apply find_some in E as [Hin Heq].
  split; [by apply list_elem_of_In | by apply String.eqb_eq].
Qed.

Lemma match_key_unknown what keys v :
  unknown keys v → ∃ msg, match_key what keys v = Raise (ValueError msg).
Proof.
  intros Hu. unfold match_key. destruct (List.find _ keys) as [k|] eqn:E; [|eauto].
  apply find_some in E as [Hin Heq]. apply String.eqb_eq in Heq.
  destruct (Hu k); [by apply list_elem_of_In | done].
Qed.

(** Every setter keeps the model type among the four keys. *)
Lemma set_model_type_wf v self : wf self → wf (set_model_type v self).2.
Proof.
  intros Hwf. unfold set_model_type. destruct v as [v|]; simpl.
  - destruct (match_key _ _ v) as [key|e] eqn:E; simpl; [|done].
    apply match_key_ok in E as [Hin _]. done.
  - unfold wf, MODEL_TYPES. simpl. in_list.
Qed.

Lemma set_cross_section_type_wf v self : wf self → wf (set_cross_section_type v self).2.
Proof.
  intros Hwf. unfold set_cross_section_type. destruct v as [v|]; simpl; [|done].
  by destruct (match_key _ _ v).
Qed.

Lemma set_gravity_orientation_wf v self : wf self → wf (set_gravity_orientation v self).2.
Proof.
  intros Hwf. unfold set_gravity_orientation. destruct v as [v|]; simpl; [|done].
  by destruct (match_key _ _ v).
Qed.

Lemma set_wind_orientation_wf v self : wf self → wf (set_wind_orientation v self).2.
Proof.
  intros Hwf. unfold set_wind_orientation. by destruct (float_in_range _ _ _ _).
Qed.

Lemma set_model_type_ok v self self' :
  wf self → set_model_type v self = (Ok tt, self') → wf self' ∧ consistent self'.
Proof.
  intros Hwf E. pose proof (set_model_type_wf v self Hwf) as Hwf'.
  rewrite E in Hwf'. simpl in Hwf'. split; [done|].
  apply check_ok_iff; [done|].
  unfold set_model_type in E. destruct v as [v|].
  - destruct (match_key _ _ v); [|done]. by injection E as E <-.
  - by injection E as E <-.
Qed.

Lemma set_cross_section_type_ok v self self' :
  wf self → set_cross_section_type v self = (Ok tt, self') →
  wf self' ∧ consistent self'.
Proof.
  intros Hwf E. pose proof (set_cross_section_type_wf v self Hwf) as Hwf'.
  rewrite E in Hwf'. simpl in Hwf'. split; [done|].
  apply check_ok_iff; [done|].
  unfold set_cross_section_type in E. destruct v as [v|].
  - destruct (match_key _ _ v); [|done]. by injection E as E <-.
  - by injection E as E <-.
Qed.

(** The constructor: what it returns carries the invariant. *)
Lemma init_ok mt cs g w self :
  __init__ mt cs g w = Ok self → wf self ∧ consistent self.
Proof.
  unfold __init__. set (self0 := mkModelExposure _ _ _ _).
  assert (wf self0) as Hwf0 by (unfold wf, MODEL_TYPES; simpl; in_list).
  destruct (set_model_type mt self0) as [[[]|e] self1] eqn:E1; [|done].
  apply set_model_type_ok in E1 as [Hwf1 _]; [|done].
  destruct (set_cross_section_type cs self1) as [[[]|e] self2] eqn:E2; [|done].
  apply set_cross_section_type_ok in E2 as [Hwf2 Hc2]; [|done].
  cbn [mbind result_bind].
  unfold set_gravity_orientation.
  assert (∀ g', consistent (assign_gravity_orientation g' self2)) as Hg by done.
  assert (∀ g', wf (assign_gravity_orientation g' self2)) as Hg' by done.
  destruct g as [g|]; [destruct (match_key _ _ g); [|done]|]; cbn [mbind result_bind];
    unfold set_wind_orientation; destruct (float_in_range _ _ _ _); try done;
    cbn [mbind result_bind]; by intros [= <-].
Qed.


(** A known model type whose list does not hold the effective cross
    section: the assignment is made and the check raises. *)
Lemma set_model_type_outside v key cs self :
  match_key "model_type" MODEL_TYPES v = Ok key →
  cross_section_type (assign_model_type key self) = Ok cs →
  cs ∉ permitted key →
  ∃ msg, set_model_type (Some v) self
         = (Raise (AssertionError msg), assign_model_type key self).
Proof.
  intros E Hcs Hout. unfold set_model_type. rewrite E.
  pose proof (check_outcome (assign_model_type key self)) as Hc.
  rewrite Hcs in Hc. apply match_key_ok in E as [Hin _].
  cbn [model_type assign_model_type _model_type] in Hc.
  rewrite (checked_permitted _ Hin) in Hc.
  rewrite bool_decide_eq_false_2 in Hc by done.
  destruct Hc as [msg ->]. eauto.
Qed.

Lemma set_cross_section_type_outside v key self :
  wf self →
  match_key "cross_section_type" ALL_SECTIONS v = Ok key →
  key ∉ permitted (model_type self) →
  ∃ msg, set_cross_section_type (Some v) self
         = (Raise (AssertionError msg), assign_cross_section_type (Some key) self).
Proof.
  intros Hwf E Hout. unfold set_cross_section_type. rewrite E.
  pose proof (check_outcome (assign_cross_section_type (Some key) self)) as Hc.
  cbn [cross_section_type assign_cross_section_type _cross_section_type
       model_type _model_type] in Hc.
  rewrite (checked_permitted _ Hwf) in Hc.
  rewrite bool_decide_eq_false_2 in Hc by done.
  destruct Hc as [msg ->]. eauto.
Qed.

Lemma set_model_type_unknown v self :
  unknown MODEL_TYPES v →
  ∃ msg, set_model_type (Some v) self = (Raise (ValueError msg), self).
Proof.
  intros Hu. unfold set_model_type.
  destruct (match_key_unknown "model_type" _ _ Hu) as [msg ->]. eauto.
Qed.

Lemma set_cross_section_type_unknown v self :
  unknown ALL_SECTIONS v →
  ∃ msg, set_cross_section_type (Some v) self = (Raise (ValueError msg), self).
Proof.
  intros Hu. unfold set_cross_section_type.
  destruct (match_key_unknown "cross_section_type" _ _ Hu) as [msg ->]. eauto.
Qed.

Lemma set_gravity_orientation_unknown v self :
  unknown GRAVITY_ORIENTATIONS v →
  ∃ msg, set_gravity_orientation (Some v) self = (Raise (ValueError msg), self).
Proof.
  intros Hu. unfold set_gravity_orientation.
  destruct (match_key_unknown "gravity_orientation" _ _ Hu) as [msg ->]. eauto.
Qed.

(** The constructor raises on what the setters reject. *)
Lemma init_unknown_model_type v cs g w :
  unknown MODEL_TYPES v → raises (__init__ (Some v) cs g w).
Proof.
  intros Hu. unfold __init__.
  by destruct (set_model_type_unknown v (mkModelExposure "Other" None None (float_of_Z 0)) Hu)
    as [msg ->].
Qed.

Lemma init_unknown_section mt v g w :
  unknown ALL_SECTIONS v → raises (__init__ mt (Some v) g w).
Proof.
  intros Hu. unfold __init__.
  destruct (set_model_type mt _) as [[[]|e] self1]; [|done].
  by destruct (set_cross_section_type_unknown v self1 Hu) as [msg ->].
Qed.

Lemma init_unknown_gravity mt cs v w :
  unknown GRAVITY_ORIENTATIONS v → raises (__init__ mt cs (Some v) w).
Proof.
  intros Hu. unfold __init__.
  destruct (set_model_type mt _) as [[[]|e] self1]; [|done].
  destruct (set_cross_section_type cs self1) as [[[]|e] self2]; [|done].
  by destruct (set_gravity_orientation_unknown v self2 Hu) as [msg ->].
Qed.

Lemma init_outside v c kmt kcs g w :
  match_key "model_type" MODEL_TYPES v = Ok kmt →
  match_key "cross_section_type" ALL_SECTIONS c = Ok kcs →
  kcs ∉ permitted kmt →
  raises (__init__ (Some v) (Some c) g w).
Proof.
  intros Emt Ecs Hout. unfold __init__. set (self0 := mkModelExposure _ _ _ _).
  destruct (set_model_type (Some v) self0) as [[[]|e] self1] eqn:E1; [|done].
  assert (self1 = assign_model_type kmt self0) as ->.
  { unfold set_model_type in E1. rewrite Emt in E1. by injection E1 as _ <-. }
  destruct (set_cross_section_type_outside c kcs (assign_model_type kmt self0))
    as [msg ->]; try done.
  apply match_key_ok in Emt as [Hin _]. done.
Qed.

(** C10.  An exposure object whose model type is one of the four keys,
    which is every object that the constructor returned and the setters
    then worked on, again has its model type among the keys after any call
    of a setter, returning or raising.  When an assignment to [model_type]
    or to [cross_section_type] returns, the effective cross section (the
    explicit one, or the default of the model type) lies in the list
    permitted for the model type: the Other sections for Other, the Window
    sections for Window, the Opaque sections for Opaque Wall and Opaque
    Roof.  An assignment whose combination falls outside these lists raises
    [AssertionError], the slot being assigned already; an unknown model
    type, section or gravity orientation raises [ValueError] and leaves the
    object as it was.  The constructor returns only objects that satisfy
    the invariant, and raises on each of these inputs. *)
Theorem cross_section_invariant (self : ModelExposure) (Hwf : wf self) :
  (∀ v, wf (set_model_type v self).2 ∧ wf (set_cross_section_type v self).2
        ∧ wf (set_gravity_orientation v self).2)
  ∧ (∀ w, wf (set_wind_orientation w self).2)
  ∧ (∀ v self', set_model_type v self = (Ok tt, self') → consistent self')
  ∧ (∀ v self', set_cross_section_type v self = (Ok tt, self') → consistent self')
  ∧ (∀ v key cs,
       match_key "model_type" MODEL_TYPES v = Ok key →
       cross_section_type (assign_model_type key self) = Ok cs →
       cs ∉ permitted key →
       ∃ msg, set_model_type (Some v) self
              = (Raise (AssertionError msg), assign_model_type key self))
  ∧ (∀ v key,
       match_key "cross_section_type" ALL_SECTIONS v = Ok key →
       key ∉ permitted (model_type self) →
       ∃ msg, set_cross_section_type (Some v) self
              = (Raise (AssertionError msg), assign_cross_section_type (Some key) self))
  ∧ (∀ v, unknown MODEL_TYPES v →
       ∃ msg, set_model_type (Some v) self = (Raise (ValueError msg), self))
  ∧ (∀ v, unknown ALL_SECTIONS v →
       ∃ msg, set_cross_section_type (Some v) self = (Raise (ValueError msg), self))
  ∧ (∀ v, unknown GRAVITY_ORIENTATIONS v →
       ∃ msg, set_gravity_orientation (Some v) self = (Raise (ValueError msg), self))
  ∧ (∀ mt cs g w x, __init__ mt cs g w = Ok x → wf x ∧ consistent x)
  ∧ (∀ v cs g w, unknown MODEL_TYPES v → raises (__init__ (Some v) cs g w))
  ∧ (∀ mt v g w, unknown ALL_SECTIONS v → raises (__init__ mt (Some v) g w))
  ∧ (∀ mt cs v w, unknown GRAVITY_ORIENTATIONS v → raises (__init__ mt cs (Some v) w))
  ∧ (∀ v c kmt kcs g w,
       match_key "model_type" MODEL_TYPES v = Ok kmt →
       match_key "cross_section_type" ALL_SECTIONS c = Ok kcs →
       kcs ∉ permitted kmt →
       raises (__init__ (Some v) (Some c) g w)).
Proof.
  repeat apply conj.
  - intros v. repeat apply conj.
    + by apply set_model_type_wf.
    + by apply set_cross_section_type_wf.
    + by apply set_gravity_orientation_wf.
  - intros w. by apply set_wind_orientation_wf.
  - intros v self' E. by apply set_model_type_ok in E as [_ Hc].
  - intros v self' E. by apply set_cross_section_type_ok in E as [_ Hc].
  - intros v key cs. apply set_model_type_outside.
  - intros v key. by apply set_cross_section_type_outside.
  - intros v. apply set_model_type_unknown.
  - intros v. apply set_cross_section_type_unknown.
  - intros v. apply set_gravity_orientation_unknown.
  - intros mt cs g w x. apply init_ok.
  - intros v cs g w. apply init_unknown_model_type.
  - intros mt v g w. apply init_unknown_section.
  - intros mt cs v w. apply init_unknown_gravity.
  - intros v c kmt kcs g w. apply init_outside.
Qed.


(** *** Encoding and decoding *)

Lemma consistent_wf self : consistent self → wf self.
Proof.
  intros (cs & _ & Hin). revert Hin. unfold wf, permitted, model_type, MODEL_TYPES.
  case_bool_decide as E1; [rewrite E1; intros _; in_list|].
  case_bool_decide as E2; [rewrite E2; intros _; in_list|].
  case_bool_decide as E3; [intros _; cases_in E3; in_list|].
  intros Hin. by apply elem_of_nil in Hin.
Qed.

(** A key spelled as it is listed is selected as itself. *)
Lemma match_key_model_type what key :
  key ∈ MODEL_TYPES → match_key what MODEL_TYPES key = Ok key.
Proof. unfold MODEL_TYPES. intros Hin. cases_in Hin; reflexivity. Qed.

Lemma match_key_section what key :
  key ∈ ALL_SECTIONS → match_key what ALL_SECTIONS key = Ok key.
Proof.
  unfold ALL_SECTIONS, WINDOW_SECTIONS, OPAQUE_SECTIONS, OTHER_SECTIONS.
  simpl. intros Hin. cases_in Hin; reflexivity.
Qed.

Lemma match_key_gravity what key :
  key ∈ GRAVITY_ORIENTATIONS → match_key what GRAVITY_ORIENTATIONS key = Ok key.
Proof. unfold GRAVITY_ORIENTATIONS. intros Hin. cases_in Hin; reflexivity. Qed.

Lemma permitted_all mt cs : cs ∈ permitted mt → cs ∈ ALL_SECTIONS.
Proof.
  unfold permitted, ALL_SECTIONS. rewrite !elem_of_app.
  case_bool_decide; [tauto|]. case_bool_decide; [tauto|].
  case_bool_decide; [tauto|]. intros Hin. by apply elem_of_nil in Hin.
Qed.

Lemma default_section_permitted mt :
  mt ∈ MODEL_TYPES → ∃ cs, SECTION_MAP !! mt = Some cs ∧ cs ∈ permitted mt.
Proof.
  unfold MODEL_TYPES. intros Hin.
  cases_in Hin; eexists; (split; [reflexivity | vm_compute; in_list]).
Qed.

(** The constructor on canonical arguments *)
Lemma init_canonical mt cs g s w :
  mt ∈ MODEL_TYPES → cs ∈ permitted mt → g ∈ GRAVITY_ORIENTATIONS →
  float_of_str s = Some w →
  float_leb (float_of_Z 0) w = true → float_leb w (float_of_Z 360) = true →
  __init__ (Some mt) (Some cs) (Some g) (NStr s)
  = Ok (mkModelExposure mt (Some cs) (Some g) w).
Proof.
  intros Hmt Hcs Hg Hs H0 H360. unfold __init__.
  unfold set_model_type. rewrite (match_key_model_type _ _ Hmt).
  set (self1 := assign_model_type mt _).
  assert (_check_model_and_cross_section self1 = Ok tt) as ->.
  { apply check_ok_iff; [done|].
    destruct (default_section_permitted mt Hmt) as (d & Hd & Hin).
    exists d. split; [|done]. unfold cross_section_type. simpl. by rewrite Hd. }
  cbn [mbind result_bind].
  unfold set_cross_section_type.
  rewrite (match_key_section _ _ (permitted_all _ _ Hcs)).
  set (self2 := assign_cross_section_type _ _).
  assert (_check_model_and_cross_section self2 = Ok tt) as ->.
  { apply check_ok_iff; [done|]. by exists cs. }
  cbn [mbind result_bind].
  unfold set_gravity_orientation. rewrite (match_key_gravity _ _ Hg).
  cbn [mbind result_bind].
  unfold set_wind_orientation, float_in_range. rewrite Hs.
  cbn [mbind result_bind]. rewrite H0, H360. reflexivity.
Qed.


Lemma to_therm_xml_valid self cs :
  cross_section_type self = Ok cs → wf self →
  to_therm_xml self None
  = Ok (let g := default "Down" (_gravity_orientation self) in
        let w := _wind_orientation self in
        if String.eqb (_model_type self) "Window" then
          encoded "Window/Transparent Facade" [] "WindowCrossSection" cs g w
        else if String.eqb (_model_type self) "Opaque Wall" then
          encoded "Opaque Facade" [ET.leaf "Assembly" "Walls"] "OpaqueCrossSection" cs g w
        else if String.eqb (_model_type self) "Opaque Roof" then
          encoded "Opaque Facade" [ET.leaf "Assembly" "Roof"] "OpaqueCrossSection" cs g w
        else encoded "Other" [] "OtherCrossSection" cs g w).
Proof.
  intros Hcs Hwf. unfold to_therm_xml, model_type, gravity_orientation, wind_orientation.
  rewrite Hcs. unfold wf, MODEL_TYPES in Hwf.
  destruct self as [mt c g w]. simpl in *.
  cases_in Hwf; destruct g; reflexivity.
Qed.

(** Decoding what the encoder built, for the three model types that the
    decoder recovers. *)
Lemma from_therm_xml_encoded_window cs g w :
  from_therm_xml (encoded "Window/Transparent Facade" [] "WindowCrossSection" cs g w)
  = __init__ (Some "Window") (Some cs) (Some g) (NStr (str_of_float w)).
Proof. reflexivity. Qed.

Lemma from_therm_xml_encoded_roof cs g w :
  from_therm_xml
    (encoded "Opaque Facade" [ET.leaf "Assembly" "Roof"] "OpaqueCrossSection" cs g w)
  = __init__ (Some "Opaque Roof") (Some cs) (Some g) (NStr (str_of_float w)).
Proof. reflexivity. Qed.

Lemma from_therm_xml_encoded_other cs g w :
  from_therm_xml (encoded "Other" [] "OtherCrossSection" cs g w)
  = __init__ (Some "Other") (Some cs) (Some g) (NStr (str_of_float w)).
Proof. reflexivity. Qed.

(** The decoder names the wall assembly by a text that is no model type. *)
Lemma from_therm_xml_encoded_wall cs g w :
  ∃ msg,
    from_therm_xml
      (encoded "Opaque Facade" [ET.leaf "Assembly" "Walls"] "OpaqueCrossSection" cs g w)
    = Raise (ValueError msg).
Proof. eexists. reflexivity. Qed.

Lemma eqb_refl_iff (x y : ModelExposure) :
  float_eqb (_wind_orientation x) (_wind_orientation y) = true →
  eqb x y = true ↔
  _model_type x = _model_type y
  ∧ _cross_section_type x = _cross_section_type y
  ∧ _gravity_orientation x = _gravity_orientation y.
Proof.
  intros Hw. unfold eqb. rewrite Hw, !andb_true_iff, !bool_decide_eq_true.
  rewrite String.eqb_eq. tauto.
Qed.


Lemma explicit_section self cs :
  cross_section_type self = Ok cs →
  default (default "" (SECTION_MAP !! _model_type self)) (_cross_section_type self) = cs.
Proof.
  unfold cross_section_type. destruct (_cross_section_type self); simpl.
  - by intros [= ->].
  - by destruct (SECTION_MAP !! _model_type self); intros [= ->].
Qed.

Lemma from_to_therm_xml self :
  valid self → _model_type self ≠ "Opaque Wall" →
  float_of_str (str_of_float (_wind_orientation self)) = Some (_wind_orientation self) →
  ∃ e, to_therm_xml self None = Ok e ∧ from_therm_xml e = Ok (explicit self).
Proof.
  intros (Hc & Hg & H0 & H360) Hwall Hrepr.
  pose proof (consistent_wf _ Hc) as Hwf. destruct Hc as (cs & Hcs & Hin).
  eexists. split; [by apply to_therm_xml_valid|].
  assert (default "Down" (_gravity_orientation self) ∈ GRAVITY_ORIENTATIONS) as Hg'.
  { destruct (_gravity_orientation self) as [g|]; [by apply Hg | simpl; in_list]. }
  unfold explicit. rewrite (explicit_section _ _ Hcs).
  unfold model_type in Hin. unfold wf, MODEL_TYPES in Hwf.
  destruct self as [mt c g w]. simpl in *.
  cases_in Hwf; [| done | |]; simpl.
  - rewrite from_therm_xml_encoded_window. by apply init_canonical; [in_list|..].
  - rewrite from_therm_xml_encoded_roof. by apply init_canonical; [in_list|..].
  - rewrite from_therm_xml_encoded_other. by apply init_canonical; [in_list|..].
Qed.

End WithFloat.

(** C2, as the code has it.  Take a valid exposure object whose model type
    is Window, Opaque Roof or Other, and a library that parses what it
    serialised and reads a printed float back.  Decoding the XML text of
    the object returns the object with its two defaults written out: the
    cross section of the model type where none was set, and the gravity
    orientation Down where none was set.  The result equals the object
    under [__eq__] exactly when the object has both set explicitly. *)
Theorem decode_encode_explicit `{Float}
    (tostring : ET.Element → string) (fromstring : string → result ET.Element)
    (self : ModelExposure) :
  valid self →
  _model_type self ≠ "Opaque Wall" →
  float_of_str (str_of_float (_wind_orientation self)) = Some (_wind_orientation self) →
  float_eqb (_wind_orientation self) (_wind_orientation self) = true →
  (∀ e, to_therm_xml self None = Ok e → fromstring (tostring e) = Ok e) →
  (s ← to_therm_xml_str tostring self; from_therm_xml_str fromstring s)
  = Ok (explicit self)
  ∧ (roundtrips tostring fromstring self
     ↔ is_Some (_cross_section_type self) ∧ is_Some (_gravity_orientation self)).
Proof.
  intros Hv Hwall Hrepr Hnan Hparse.
  destruct (from_to_therm_xml self Hv Hwall Hrepr) as (e & He & Hd).
  assert ((s ← to_therm_xml_str tostring self; from_therm_xml_str fromstring s)
          = Ok (explicit self)) as Hrun.
  { unfold to_therm_xml_str, from_therm_xml_str. rewrite He. cbn [mbind result_bind].
    rewrite (Hparse e He). exact Hd. }
  split; [exact Hrun|]. unfold roundtrips. rewrite Hrun. split.
  - intros (self' & [= <-] & Heq). apply eqb_refl_iff in Heq as (_ & Hcs & Hg); [|done].
    simpl in *. rewrite <- Hcs, <- Hg. eauto.
  - intros [[c Hc] [g Hg]]. exists (explicit self). split; [done|].
    apply eqb_refl_iff; [done|]. unfold explicit. simpl. by rewrite Hc, Hg.
Qed.

(** A run of the invariant: a window jamb is given the model type Window
    again, spelled in capitals. *)
Lemma cross_section_invariant_witness :
  ∃ self',
    set_model_type (Some "WINDOW") Reference.window_jamb = (Ok tt, self')
    ∧ consistent self'.
Proof.
  eexists. split; [vm_compute; reflexivity|].
  assert (wf Reference.window_jamb) as Hwf by (vm_compute; in_list).
  destruct (cross_section_invariant Reference.window_jamb Hwf)
    as (_ & _ & Hset & _).
  apply (Hset (Some "WINDOW")). vm_compute. reflexivity.
Defined.

(** A run of the theorem: a window jamb with gravity up, facing east. *)
Lemma decode_encode_explicit_witness :
  roundtrips Reference.tostring Reference.fromstring Reference.window_jamb.
Proof.
  apply (decode_encode_explicit (H := Reference.whole_float)).
  - split; [|split; [|split]].
    + exists "Jamb". split; [reflexivity | vm_compute; in_list].
    + intros g [= <-]. in_list.
    + reflexivity.
    + reflexivity.
  - discriminate.
  - reflexivity.
  - reflexivity.
  - intros e [= <-]. reflexivity.
  - simpl. eauto.
Defined.

(** C2 as the specification states it fails on the object that the
    constructor builds from its defaults: the decoder returns it with the
    section General Cross Section and the gravity Down written out, and the
    equality of the class compares the unset slots with these texts. *)
Lemma default_exposure_does_not_roundtrip :
  default_exposure = Ok Reference.exposure_of_defaults
  ∧ valid Reference.exposure_of_defaults
  ∧ (s ← to_therm_xml_str Reference.tostring Reference.exposure_of_defaults;
     from_therm_xml_str Reference.fromstring s)
    = Ok (mkModelExposure "Other" (Some "General Cross Section") (Some "Down") 0%Z)
  ∧ ¬ roundtrips Reference.tostring Reference.fromstring
        Reference.exposure_of_defaults.
Proof.
  repeat apply conj.
  - reflexivity.
  - exists "General Cross Section". split; [reflexivity | vm_compute; in_list].
  - discriminate.
  - reflexivity.
  - reflexivity.
  - reflexivity.
  - intros (x' & Hrun & Heq). vm_compute in Hrun. injection Hrun as <-.
    vm_compute in Heq. discriminate.
Qed.

(** The wall assembly, apart from the defaults: the encoder writes the
    assembly Walls, from which the decoder forms the text Opaque Walls, and
    the constructor rejects it. *)
Example opaque_wall_does_not_decode :
  ∃ msg,
    (s ← to_therm_xml_str Reference.tostring
           (mkModelExposure (H := Reference.whole_float)
              "Opaque Wall" (Some "Header") (Some "Up") 90%Z);
     from_therm_xml_str Reference.fromstring s)
    = Raise (ValueError msg).
Proof. eexists. vm_compute. reflexivity. Qed.

End ExposureFacts.

(** ** Locked objects *)

Module LockableFacts.
Import Lockable.

Lemma mutate_locked {A} (f : A → result A) (x : t A) :
  locked x = true → mutate f x = (Raise (ImmutableStateError "locked"), x).
Proof. unfold mutate. by intros ->. Qed.

Lemma mutate_unlocked {A} (f : A → result A) (x : t A) a :
  locked x = false → f (state x) = Ok a → mutate f x = (Ok tt, mk false a).
Proof. unfold mutate. by intros -> ->. Qed.

(** C9.  For every lockable object and every mutator: on the locked object
    the mutator fails with the error of an immutable state and leaves the
    object as it is; after [unlock()] the same mutator, where its value is
    valid for the fields, succeeds and the fields are changed.  This holds
    in particular for the density of a solid material and the temperature
    of a condition. *)
Theorem locked_mutation_fails {A} (x : t A) (f : A → result A) :
  (∃ msg, mutate f (lock x) = (Raise (ImmutableStateError msg), lock x))
  ∧ state (mutate f (lock x)).2 = state x
  ∧ (∀ a, f (state x) = Ok a → mutate f (unlock (lock x)) = (Ok tt, mk false a)).
Proof.
  repeat apply conj.
  - exists "locked". by apply mutate_locked.
  - by rewrite mutate_locked.
  - intros a Hf. by apply mutate_unlocked.
Qed.

(** The test of the solid material: the density 700 is refused on the
    locked concrete and accepted after unlocking. *)
Lemma locked_mutation_fails_witness :
  (set_density (Some (700 # 1)) (lock concrete_600)).1
  = Raise (AttributeError "locked")
  ∧ (set_density (Some (700 # 1)) (unlock (lock concrete_600))).1 = Ok tt
  ∧ density (state (set_density (Some (700 # 1)) (unlock (lock concrete_600))).2)
    = Some (700 # 1).
Proof.
  destruct (locked_mutation_fails concrete_600 (update_density (Some (700 # 1))))
    as (_ & _ & Hunlock).
  unfold set_density. rewrite (Hunlock _ eq_refl). repeat apply conj; reflexivity.
Defined.

(** The test of the condition *)
Example condition_lockability :
  (set_temperature (0 # 1) (lock nfrc_ext_36)).1 = Raise (AttributeError "locked")
  ∧ (set_temperature (-12 # 1) (unlock (lock nfrc_ext_36))).1 = Ok tt.
Proof. split; reflexivity. Qed.

(** A material assigned to a shape is locked in the store: a mutator
    applied to it afterwards fails. *)
Lemma assigned_material_is_locked r m self σ (f : SolidMaterial → result SolidMaterial) :
  σ !! r = Some (Shape.IsSolidMaterial m) →
  ∃ self' σ',
    Shape.set_material (Some r) self σ = (Ok tt, self', σ')
    ∧ Shape._material self' = Some r
    ∧ σ' !! r = Some (Shape.IsSolidMaterial (lock m))
    ∧ mutate f (lock m) = (Raise (ImmutableStateError "locked"), lock m).
Proof.
  intros Hr. unfold Shape.set_material. rewrite Hr.
  eexists _, _. repeat apply conj; try reflexivity.
  by rewrite lookup_insert_eq.
Qed.

End LockableFacts.

(** ** The translator *)

Module WriterFacts.
Import Writer.

Section WithHost.
Context `{Float} `{!Host}.

(** *** Face types *)

Lemma faces_map_faces f m : faces (map_faces f m) = f <$> faces m.
Proof.
  unfold faces, map_faces. cbn [rooms orphaned_faces]. rewrite fmap_app. f_equal.
  induction (rooms m) as [|r rs IH]; [done|].
  rewrite !fmap_cons. cbn [concat room_faces]. by rewrite fmap_app, IH.
Qed.

(** C3.  The step of the translation that re-types the faces applies one
    rule to every face of the model, whatever type the face had: an angle
    between the normal and the vertical axis below 60 degrees makes the
    face a roof or ceiling, an angle of 130 degrees or more makes it a
    floor, and an angle in between leaves the face as it is.  Nothing but
    the type of a face changes. *)
Theorem faces_reclassified (m : Model) :
  faces (reassign_types m) = reassign_type <$> faces m
  ∧ ∀ face : Face,
      ((normal_angle face < 60)%Q → type (reassign_type face) = roof_ceiling)
      ∧ ((130 <= normal_angle face)%Q → type (reassign_type face) = floor)
      ∧ ((60 <= normal_angle face)%Q → (normal_angle face < 130)%Q →
         reassign_type face = face)
      ∧ face_identifier (reassign_type face) = face_identifier face
      ∧ normal_angle (reassign_type face) = normal_angle face
      ∧ face_user_data (reassign_type face) = face_user_data face.
Proof.
  split; [apply faces_map_faces|]. intros face. unfold reassign_type.
  destruct (Qle_bool 60 (normal_angle face)) eqn:E60; simpl;
    [destruct (Qle_bool 130 (normal_angle face)) eqn:E130; simpl|].
  - (* 130 <= angle *)
    repeat apply conj; try done.
    + intros Hlt. apply Qle_bool_iff in E60. by apply Qlt_not_le in Hlt.
    + intros _ Hlt. apply Qle_bool_iff in E130. by apply Qlt_not_le in Hlt.
  - (* 60 <= angle < 130 *)
    repeat apply conj; try done.
    + intros Hlt. apply Qle_bool_iff in E60. by apply Qlt_not_le in Hlt.
    + intros Hle. apply Qle_bool_iff in Hle. congruence.
  - (* angle < 60 *)
    assert (∀ q, (60 <= q)%Q → (q <= normal_angle face)%Q → False) as Hno.
    { intros q H60 Hq. assert (60 <= normal_angle face)%Q as Hle
        by (by eapply Qle_trans). apply Qle_bool_iff in Hle. congruence. }
    repeat apply conj; try done.
    + intros Hle. destruct (Hno 130%Q); [done | exact Hle].
    + intros Hle. destruct (Hno 60%Q); [apply Qle_refl | exact Hle].
Qed.


(** *** Blocks *)











(** *** Handles *)

Lemma seqZ_succ (n : Z) (k : nat) :
  seqZ n (Z.of_nat (S k)) = n :: seqZ (n + 1) (Z.of_nat k).
Proof.
  rewrite seqZ_cons by lia. f_equal. f_equal; lia.
Qed.

Lemma seqZ_add (n : Z) (k1 k2 : nat) :
  seqZ n (Z.of_nat (k1 + k2))
  = seqZ n (Z.of_nat k1) ++ seqZ (n + Z.of_nat k1) (Z.of_nat k2).
Proof. rewrite Nat2Z.inj_add. apply seqZ_app; lia. Qed.

Lemma renumber_faces_spec n fs :
  (renumber_faces n fs).2 = (n + Z.of_nat (length fs))%Z
  ∧ face_identifier <$> (renumber_faces n fs).1
    = pretty <$> seqZ n (Z.of_nat (length fs)).
Proof.
  revert n. induction fs as [|f fs IH]; intros n.
  - simpl. split; [lia | done].
  - cbn [renumber_faces]. destruct (IH (n + 1)%Z) as [IH2 IH1].
    destruct (renumber_faces (n + 1) fs) as [fs' n']. cbn [fst snd length] in *.
    split; [lia|]. rewrite (seqZ_succ n (length fs)), !fmap_cons.
    by rewrite IH1.
Qed.

Lemma renumber_rooms_spec n rs :
  (renumber_rooms n rs).2 = (n + Z.of_nat (length (room_identifiers rs)))%Z
  ∧ room_identifiers (renumber_rooms n rs).1
    = pretty <$> seqZ n (Z.of_nat (length (room_identifiers rs))).
Proof.
  revert n. induction rs as [|r rs IH]; intros n.
  - simpl. split; [lia | done].
  - cbn [renumber_rooms].
    destruct (renumber_faces_spec (n + 1) (room_faces r)) as [Hf2 Hf1].
    destruct (renumber_faces (n + 1) (room_faces r)) as [fs n1].
    cbn [fst snd] in Hf1, Hf2.
    destruct (IH n1) as [IH2 IH1].
    destruct (renumber_rooms n1 rs) as [rs' n2]. cbn [fst snd] in IH1, IH2.
    cbn [room_identifiers fst snd room_identifier room_faces].
    rewrite !length_cons, !length_app, !length_fmap.
    split; [subst; lia|].
    rewrite IH1, Hf1.
    rewrite seqZ_succ, seqZ_add, fmap_cons, fmap_app. by subst n1.
Qed.

Lemma renumber_shades_spec n ss :
  (renumber_shades n ss).2 = (n + Z.of_nat (length ss))%Z
  ∧ shade_identifier <$> (renumber_shades n ss).1
    = pretty <$> seqZ n (Z.of_nat (length ss)).
Proof.
  revert n. induction ss as [|s ss IH]; intros n.
  - simpl. split; [lia | done].
  - cbn [renumber_shades]. destruct (IH (n + 1)%Z) as [IH2 IH1].
    destruct (renumber_shades (n + 1) ss) as [ss' n']. cbn [fst snd length] in *.
    split; [lia|]. rewrite (seqZ_succ n (length ss)), !fmap_cons.
    by rewrite IH1.
Qed.

Lemma reset_ids_to_integers_spec start m :
  (reset_ids_to_integers start m).2
  = (start + Z.of_nat (length (identifiers m)))%Z
  ∧ identifiers (reset_ids_to_integers start m).1
    = pretty <$> seqZ start (Z.of_nat (length (identifiers m))).
Proof.
  unfold reset_ids_to_integers, identifiers.
  destruct (renumber_rooms_spec start (rooms m)) as [Hr2 Hr1].
  destruct (renumber_rooms start (rooms m)) as [rs n1]. cbn [fst snd] in Hr1, Hr2.
  destruct (renumber_faces_spec n1 (orphaned_faces m)) as [Hf2 Hf1].
  destruct (renumber_faces n1 (orphaned_faces m)) as [fs n2]. cbn [fst snd] in Hf1, Hf2.
  destruct (renumber_shades_spec n2 (shades m)) as [Hs2 Hs1].
  destruct (renumber_shades n2 (shades m)) as [ss n3]. cbn [fst snd] in Hs1, Hs2.
  cbn [fst snd rooms orphaned_faces shades].
  rewrite !length_app, !length_fmap. split; [lia|].
  rewrite Hr1, Hf1, Hs1, !seqZ_add, !fmap_app.
  by subst n1 n2.
Qed.


(** C4.  Once the rooms are grouped into blocks, the handle counter is set
    to the number of blocks plus two, and only then are the identifiers
    reassigned: the identifiers of the rooms, faces and shades of the
    duplicate become, in the order of the walk, the integers that the
    counter runs through from that start, so that the identifier at
    position [i] is the number of blocks plus two plus [i] and none lies
    below the number of blocks plus two.  The counter is left one past the
    value that the reassignment returned. *)
Theorem handles_start_above_blocks (block_rooms : list (list room_ref)) (s : Session) :
  let start := (Z.of_nat (length block_rooms) + 2)%Z in
  ∃ s',
    assign_handles block_rooms s = (Ok tt, s')
    ∧ model s' = (reset_ids_to_integers start (model s)).1
    ∧ length (identifiers (model s')) = length (identifiers (model s))
    ∧ HANDLE_COUNTER s'
      = (start + Z.of_nat (length (identifiers (model s))) + 1)%Z
    ∧ ∀ i id, identifiers (model s') !! i = Some id →
        id = pretty (start + Z.of_nat i)%Z
        ∧ (Z.of_nat (length block_rooms) + 2 ≤ start + Z.of_nat i)%Z.
Proof.
  intros start. pose proof (reset_ids_to_integers_spec start (model s)) as [Hn Hids].
  unfold assign_handles, mbind, M_bind, set_counter, get_counter, get_model,
    modify_model. cbn [HANDLE_COUNTER model]. fold start.
  destruct (reset_ids_to_integers start (model s)) as [m' last].
  cbn [fst snd HANDLE_COUNTER model] in *.
  eexists. split; [reflexivity|]. cbn [HANDLE_COUNTER model].
  repeat apply conj.
  - done.
  - by rewrite Hids, length_fmap, length_seqZ, Nat2Z.id.
  - lia.
  - intros i id Hi. rewrite Hids, list_lookup_fmap in Hi.
    destruct (seqZ start _ !! i) as [k|] eqn:Hk; [|done].
    apply lookup_seqZ in Hk as [-> _]. injection Hi as <-. split; [done | lia].
Qed.


(** *** Adjacencies *)

Lemma find_tag t e c : ET.find t e = Some c → ET.tag c = t.
Proof.
  unfold ET.find. intros Hf. apply find_some in Hf as [_ Heq].
  by apply String.eqb_eq.
Qed.

Lemma find_update_found t e c c' :
  ET.find t e = Some c → ET.tag c' = t →
  ET.find t (ET.update_found t c' e) = Some c'.
Proof.
  unfold ET.find, ET.update_found, ET.with_children. cbn [ET.children].
  intros Hf Ht. induction (ET.children e) as [|c0 cs IH]; [done|].
  cbn [List.find ET.replace_first] in *.
  destruct (String.eqb (ET.tag c0) t) eqn:E0.
  - cbn [List.find]. by rewrite Ht, String.eqb_refl.
  - cbn [List.find]. rewrite E0. by apply IH.
Qed.











(** *** The whole translation *)

Lemma bind_ok {A B} (m : M A) (f : A → M B) s a s' :
  m s = (Ok a, s') → (m ≫= f) s = f a s'.
Proof. unfold mbind, M_bind. by intros ->. Qed.

Lemma bind_raise {A B} (m : M A) (f : A → M B) s e s' :
  m s = (Raise e, s') → (m ≫= f) s = (Raise e, s').
Proof. unfold mbind, M_bind. by intros ->. Qed.

(** The model as it is handed to the removal of degenerate geometry *)
Lemma translate_degenerate original_units xml_template s msg m' :
  remove_degenerate_geometry (1 # 100)
    (if bool_decide (units (model s) ≠ Meters)
     then convert_to_units Meters (model s) else model s)
  = (Raise (ValueError msg), m') →
  translate original_units xml_template s
  = (Raise (ValueError (degenerate_error original_units)),
     mkSession m' (HANDLE_COUNTER s)).
Proof.
  intros Hrm. unfold translate.
  erewrite bind_ok by reflexivity.
  case_bool_decide.
  - erewrite bind_ok by reflexivity. apply bind_raise.
    unfold clean_geometry. cbn [model HANDLE_COUNTER]. by rewrite Hrm.
  - erewrite bind_ok by reflexivity. apply bind_raise.
    unfold clean_geometry. destruct s. cbn [model HANDLE_COUNTER] in *. by rewrite Hrm.
Qed.



(** What the text function and the file function do around the translator *)
Lemma model_to_therm_xml_unfold w model xml_template program_name :
  model_to_therm_xml model xml_template program_name w
  = match model_to_therm_xml_element model xml_template w with
    | (Ok xml_root, w') =>
        (Ok ((xml_declaration +:+ nl +:+
              match program_name with
              | Some p => "<!--File generated by " +:+ p +:+ "-->" +:+ nl
              | None => ""
              end) +:+ tostring xml_root), w')
    | (Raise e, w') => (Raise e, w')
    end.
Proof.
  unfold model_to_therm_xml, mbind, IO_bind.
  by destruct (model_to_therm_xml_element model xml_template w) as [[xml_root|e] w'].
Qed.

Lemma model_to_thmz_unfold w model output_file xml_template program_name :
  model_to_thmz model output_file xml_template program_name w
  = match model_to_therm_xml model xml_template program_name
            (makedirs (dirname_abspath output_file) w).2 with
    | (Ok xml_str, w') =>
        match encode "iso-8859-15" xml_str with
        | Ok data => (Ok output_file, (write_file output_file data (open_wb output_file w').2).2)
        | Raise e => (Raise e, (open_wb output_file w').2)
        end
    | (Raise e, w') => (Raise e, w')
    end.
Proof.
  unfold model_to_thmz, mbind, IO_bind. cbn [makedirs fst snd].
  destruct (model_to_therm_xml _ _ _ _) as [[xml_str|e] w']; [|done].
  cbn [open_wb io_lift]. by destruct (encode "iso-8859-15" xml_str).
Qed.

Lemma contains_units_error u :
  contains (units_str u) (degenerate_error u) = true
  ∧ contains "0.01" (degenerate_error u) = false.
Proof. by destruct u. Qed.

(** C6, as the code has it.  When the removal of degenerate geometry at
    the tolerance 0.01 raises [ValueError], the translator raises a
    [ValueError] whose message names the unit system of the caller's model
    and asks whether it is correct; the message does not name the
    tolerance.  No document is returned, by the element function, the text
    function or the file function, and the file function writes no file. *)
Theorem degenerate_geometry_aborts (w : World) (model : nat) (xml_template : string)
    (original_model : Model) (msg : string) (m' : Model) :
  models w !! model = Some original_model →
  remove_degenerate_geometry (1 # 100)
    (if bool_decide (units original_model ≠ Meters)
     then convert_to_units Meters original_model else original_model)
  = (Raise (ValueError msg), m') →
  let error := degenerate_error (units original_model) in
  (model_to_therm_xml_element model xml_template w).1 = Raise (ValueError error)
  ∧ (∀ program_name,
       (model_to_therm_xml model xml_template program_name w).1
       = Raise (ValueError error))
  ∧ (∀ output_file program_name,
       (model_to_thmz model output_file xml_template program_name w).1
       = Raise (ValueError error)
       ∧ files (model_to_thmz model output_file xml_template program_name w).2
         = files w)
  ∧ error = "Failed to remove degenerate Rooms." +:+ nl +:+
            "Your Model units system is: " +:+ units_str (units original_model) +:+
            ". Is this correct?"
  ∧ contains (units_str (units original_model)) error = true
  ∧ contains "0.01" error = false.
Proof.
  intros Hm Hrm error.
  assert (∀ w0, models w0 = models w → counter w0 = counter w →
            ∃ w', model_to_therm_xml_element model xml_template w0
                  = (Raise (ValueError error), w') ∧ files w' = files w0) as Hel.
  { intros w0 Hm0 Hc0. unfold model_to_therm_xml_element. rewrite Hm0, Hm.
    rewrite (translate_degenerate _ _ _ msg m') by exact Hrm. eauto. }
  repeat apply conj.
  - by destruct (Hel w) as (w' & -> & _).
  - intros pn. rewrite model_to_therm_xml_unfold. by destruct (Hel w) as (w' & -> & _).
  - intros output_file pn. rewrite model_to_thmz_unfold, model_to_therm_xml_unfold.
    destruct (Hel (makedirs (dirname_abspath output_file) w).2) as (w' & -> & Hf);
      [done..|]. cbn [fst snd]. by rewrite Hf.
  - done.
  - apply contains_units_error.
  - apply contains_units_error.
Qed.


(** *** The model of the caller *)





(** *** The charset *)

Lemma append_cons (x : ascii) (a b : string) :
  String x a +:+ b = String x (a +:+ b).
Proof. reflexivity. Qed.

Lemma append_assoc (a b c : string) : (a +:+ b) +:+ c = a +:+ (b +:+ c).
Proof.
  induction a as [|x a IH]; [done|]. rewrite !append_cons. by f_equal.
Qed.

Lemma prefix_append (a b : string) : String.prefix a (a +:+ b) = true.
Proof.
  induction a as [|c a IH]; [by destruct b|].
  rewrite append_cons. cbn [String.prefix]. by destruct (ascii_dec c c).
Qed.

(** C8.  The text that the text function returns begins with the XML
    declaration, which names the encoding ISO-8859-15 and no other.  The
    file function encodes that text with the codec iso-8859-15, whatever
    the platform, and the bytes it gets are the content of the file when
    it returns. *)
Theorem document_charset (w : World) (model : nat) (xml_template : string)
    (program_name : option string) :
  xml_declaration
  = "<?xml version=" +:+ dq +:+ "1.0" +:+ dq +:+ " encoding=" +:+ dq +:+
    "ISO-8859-15" +:+ dq +:+ " standalone=" +:+ dq +:+ "yes" +:+ dq +:+ "?>"
  ∧ (∀ xml_str w',
       model_to_therm_xml model xml_template program_name w = (Ok xml_str, w') →
       String.prefix xml_declaration xml_str = true)
  ∧ (∀ output_file path w',
       model_to_thmz model output_file xml_template program_name w = (Ok path, w') →
       ∃ xml_str data,
         (model_to_therm_xml model xml_template program_name
            (makedirs (dirname_abspath output_file) w).2).1 = Ok xml_str
         ∧ encode "iso-8859-15" xml_str = Ok data
         ∧ files w' !! output_file = Some data
         ∧ path = output_file).
Proof.
  repeat apply conj.
  - reflexivity.
  - intros xml_str w'. rewrite model_to_therm_xml_unfold.
    destruct (model_to_therm_xml_element model xml_template w) as [[xml_root|e] w1];
      [|done].
    intros [= <- <-]. rewrite append_assoc. apply prefix_append.
  - intros output_file path w'. rewrite model_to_thmz_unfold.
    destruct (model_to_therm_xml _ _ _ _) as [[xml_str|e] w1]; [|done].
    destruct (encode "iso-8859-15" xml_str) as [data|e] eqn:Eenc; [|done].
    intros [= <- <-]. exists xml_str, data. repeat apply conj; try done.
    unfold write_file. cbn [snd files]. apply lookup_insert_eq.
Qed.

End WithHost.

(** *** Runs on the reference host *)

Import ReferenceHost.
#[local] Existing Instance Reference.whole_float.



(** The room without faces: the message names the feet of the model. *)
Lemma degenerate_geometry_aborts_witness :
  (model_to_therm_xml_element 0 "Default" (world flat_room)).1
  = Raise (ValueError (degenerate_error Feet)).
Proof.
  eapply (degenerate_geometry_aborts (world flat_room) 0 "Default" flat_room);
    reflexivity.
Defined.

(** C6 as the specification states it fails on the model in feet whose
    room has no face: the message of the error names the unit system and
    not the tolerance. *)
Lemma degenerate_message_lacks_tolerance :
  ∃ msg,
    (model_to_therm_xml_element 0 "Default" (world flat_room)).1
    = Raise (ValueError msg)
    ∧ contains "Feet" msg = true
    ∧ contains "0.01" msg = false.
Proof. eexists. repeat apply conj; vm_compute; reflexivity. Qed.

(** The file of the two rooms holds the encoded text, which begins with
    the declaration. *)
Lemma document_charset_witness :
  ∃ xml_str data,
    files (model_to_thmz 0 "model.thmz" "Default" None (world two_rooms)).2
      !! "model.thmz" = Some data
    ∧ encode "iso-8859-15" xml_str = Ok data
    ∧ String.prefix xml_declaration xml_str = true.
Proof.
  destruct (document_charset (world two_rooms) 0 "Default" None)
    as (_ & Hprefix & Hfile).
  destruct (model_to_thmz 0 "model.thmz" "Default" None (world two_rooms))
    as [[path|e] w'] eqn:Erun; [|vm_compute in Erun; discriminate].
  destruct (Hfile "model.thmz" path w' Erun) as (xml_str & data & Hstr & Henc & Hf & _).
  exists xml_str, data. repeat apply conj; try done.
  destruct (document_charset
              (makedirs (dirname_abspath "model.thmz") (world two_rooms)).2
              0 "Default" None) as (_ & Hprefix' & _).
  destruct (model_to_therm_xml 0 "Default" None
              (makedirs (dirname_abspath "model.thmz") (world two_rooms)).2)
    as [r w1] eqn:Etext.
  cbn [fst] in Hstr. subst r. by eapply Hprefix'.
Defined.

(** The translation of the two rooms returns a document and leaves the
    model of the caller in the store as it was. *)
Example translation_keeps_original :
  is_ok (model_to_therm_xml_element 0 "Default" (world two_rooms)).1 = true
  ∧ models (model_to_therm_xml_element 0 "Default" (world two_rooms)).2 !! 0%nat
    = Some two_rooms.
Proof. split; vm_compute; reflexivity. Qed.

End WriterFacts.

(** ** The exposure object: dictionaries, copies, spellings *)

Module ExposureDictFacts.
Import Exposure ExposureDict ExposureFacts.

Section WithFloat.
Context `{Float}.

(** The constructor on the slots of a valid object *)
Lemma init_valid self wind :
  valid self →
  float_in_range wind 0 360 "ModelExposure wind orientation"
  = Ok (_wind_orientation self) →
  __init__ (Some (_model_type self)) (_cross_section_type self)
    (_gravity_orientation self) wind = Ok self.
Proof.
  intros (Hc & Hg & H0 & H360) Hw.
  pose proof (consistent_wf _ Hc) as Hwf.
  destruct self as [mt cs g w]. cbn [_model_type _cross_section_type
    _gravity_orientation _wind_orientation] in *.
  change (mt ∈ MODEL_TYPES) in Hwf.
  unfold __init__, set_model_type. rewrite (match_key_model_type _ _ Hwf).
  set (self1 := assign_model_type mt _).
  assert (_check_model_and_cross_section self1 = Ok tt) as ->.
  { apply check_ok_iff; [done|].
    destruct (default_section_permitted mt Hwf) as (d & Hd & Hin).
    exists d. split; [|done]. unfold cross_section_type. simpl. by rewrite Hd. }
  cbn [mbind result_bind].
  assert (set_cross_section_type cs self1
          = (Ok tt, assign_cross_section_type cs self1)) as ->.
  { unfold set_cross_section_type. destruct cs as [c|].
    - destruct Hc as (c' & [= <-] & Hin).
      rewrite (match_key_section _ _ (permitted_all _ _ Hin)).
      f_equal. apply check_ok_iff; [done|]. by exists c.
    - f_equal. apply check_ok_iff; [done|].
      destruct Hc as (c' & Hc' & Hin). by exists c'. }
  cbn [mbind result_bind].
  assert (set_gravity_orientation g (assign_cross_section_type cs self1)
          = (Ok tt, assign_gravity_orientation g (assign_cross_section_type cs self1)))
    as ->.
  { unfold set_gravity_orientation. destruct g as [g|]; [|done].
    by rewrite (match_key_gravity _ _ (Hg g eq_refl)). }
  cbn [mbind result_bind]. unfold set_wind_orientation. rewrite Hw. reflexivity.
Qed.

Lemma float_in_range_float (w : float) name :
  float_leb (float_of_Z 0) w = true → float_leb w (float_of_Z 360) = true →
  float_in_range (NFloat w) 0 360 name = Ok w.
Proof.
  intros H0 H360. unfold float_in_range. cbn [mbind result_bind].
  by rewrite H0, H360.
Qed.


(** The check reads the model type and the cross section only. *)
Lemma check_ext self other :
  _model_type self = _model_type other →
  _cross_section_type self = _cross_section_type other →
  _check_model_and_cross_section self = _check_model_and_cross_section other.
Proof.
  intros Hm Hc. unfold _check_model_and_cross_section, cross_section_type, model_type.
  by rewrite Hm, Hc.
Qed.

Lemma consistent_ext self other :
  _model_type self = _model_type other →
  _cross_section_type self = _cross_section_type other →
  consistent self → consistent other.
Proof.
  intros Hm Hc. unfold consistent, cross_section_type, model_type.
  by rewrite Hm, Hc.
Qed.

Lemma float_in_range_bounds value name w :
  float_in_range value 0 360 name = Ok w →
  float_leb (float_of_Z 0) w = true ∧ float_leb w (float_of_Z 360) = true.
Proof.
  unfold float_in_range.
  destruct (match value with NNone => _ | _ => _ end) as [x|e];
    cbn [mbind result_bind]; [|done].
  unfold assert. destruct (float_leb (float_of_Z 0) x) eqn:E0; [|done].
  destruct (float_leb x (float_of_Z 360)) eqn:E1; [|done].
  cbn [andb mbind result_bind]. by intros [= <-].
Qed.

(** What each setter leaves when it returns *)
Lemma set_model_type_returns v self self' :
  set_model_type v self = (Ok tt, self') →
  ∃ key, key ∈ MODEL_TYPES ∧ self' = assign_model_type key self
         ∧ _check_model_and_cross_section self' = Ok tt.
Proof.
  unfold set_model_type. destruct v as [v|].
  - destruct (match_key _ _ v) as [key|e] eqn:E; [|done].
    apply match_key_ok in E as [Hin _]. intros [= Hc <-]. eauto.
  - intros [= Hc <-]. exists "Other". split; [in_list | done].
Qed.

Lemma set_cross_section_type_returns v self self' :
  set_cross_section_type v self = (Ok tt, self') →
  ∃ key, self' = assign_cross_section_type key self
         ∧ _check_model_and_cross_section self' = Ok tt.
Proof.
  unfold set_cross_section_type. destruct v as [v|].
  - destruct (match_key _ _ v) as [key|e] eqn:E; [|done]. intros [= Hc <-]. eauto.
  - intros [= Hc <-]. eauto.
Qed.

Lemma set_gravity_orientation_returns v self self' :
  set_gravity_orientation v self = (Ok tt, self') →
  ∃ key, self' = assign_gravity_orientation key self
         ∧ ∀ g, key = Some g → g ∈ GRAVITY_ORIENTATIONS.
Proof.
  unfold set_gravity_orientation. destruct v as [v|].
  - destruct (match_key _ _ v) as [key|e] eqn:E; [|done].
    apply match_key_ok in E as [Hin _]. intros [= <-].
    exists (Some key). split; [done|]. by intros g [= <-].
  - intros [= <-]. exists None. done.
Qed.

Lemma set_wind_orientation_returns v self self' :
  set_wind_orientation v self = (Ok tt, self') →
  ∃ w, self' = assign_wind_orientation w self
       ∧ float_leb (float_of_Z 0) w = true ∧ float_leb w (float_of_Z 360) = true.
Proof.
  unfold set_wind_orientation.
  destruct (float_in_range v 0 360 _) as [w|e] eqn:E; [|done].
  intros [= <-]. exists w. split; [done|]. by eapply float_in_range_bounds.
Qed.

Lemma init_returns_valid mt cs g w self :
  __init__ mt cs g w = Ok self → valid self.
Proof.
  unfold __init__. set (self0 := mkModelExposure _ _ _ _).
  assert (wf self0) as Hwf0 by (unfold wf, MODEL_TYPES; simpl; in_list).
  destruct (set_model_type mt self0) as [[[]|e] self1] eqn:E1; [|done].
  pose proof (set_model_type_ok _ _ _ Hwf0 E1) as [Hwf1 _].
  destruct (set_cross_section_type cs self1) as [[[]|e] self2] eqn:E2; [|done].
  pose proof (set_cross_section_type_ok _ _ _ Hwf1 E2) as [Hwf2 Hc2].
  destruct (set_gravity_orientation g self2) as [[[]|e] self3] eqn:E3; [|done].
  apply set_gravity_orientation_returns in E3 as (k & -> & Hk).
  destruct (set_wind_orientation w _) as [[[]|e] self4] eqn:E4; [|done].
  apply set_wind_orientation_returns in E4 as (x & -> & H0 & H360).
  cbn [mbind result_bind]. intros [= <-].
  split; [|split; [|split]]; [| exact Hk | exact H0 | exact H360].
  by apply (consistent_ext self2).
Qed.

(** A copy of an object that the check rejects fails as the check does. *)
Lemma copy_of_rejected self e :
  wf self → (∀ c, _cross_section_type self = Some c → c ∈ ALL_SECTIONS) →
  _check_model_and_cross_section self = Raise e →
  duplicate self = Raise e.
Proof.
  intros Hwf Hall Hcheck. change (_model_type self ∈ MODEL_TYPES) in Hwf.
  unfold duplicate, __copy__, __init__, set_model_type.
  rewrite (match_key_model_type _ _ Hwf).
  set (self1 := assign_model_type _ _).
  assert (_check_model_and_cross_section self1 = Ok tt) as ->.
  { apply check_ok_iff; [done|].
    destruct (default_section_permitted _ Hwf) as (d & Hd & Hin).
    exists d. split; [|done]. unfold cross_section_type. simpl. by rewrite Hd. }
  cbn [mbind result_bind]. unfold set_cross_section_type.
  destruct (_cross_section_type self) as [c|] eqn:Ec.
  - rewrite (match_key_section _ _ (Hall c eq_refl)).
    rewrite (check_ext _ self), Hcheck; done.
  - rewrite (check_ext _ self), Hcheck; done.
Qed.

(** Keys that differ in more than the case of their letters *)
Lemma lower_inj_on (keys : list string) x y :
  NoDup (lower <$> keys) → x ∈ keys → y ∈ keys → lower x = lower y → x = y.
Proof.
  induction keys as [|a l IH]; intros Hnd Hx Hy E; [by apply elem_of_nil in Hx|].
  rewrite fmap_cons in Hnd. apply NoDup_cons in Hnd as [Ha Hnd].
  apply elem_of_cons in Hx as [->|Hx]; apply elem_of_cons in Hy as [->|Hy]; try done.
  - destruct Ha. rewrite E. by apply list_elem_of_fmap_2.
  - destruct Ha. rewrite <- E. by apply list_elem_of_fmap_2.
  - by apply IH.
Qed.

Lemma match_key_listed what keys v key :
  NoDup (lower <$> keys) → key ∈ keys → lower key = lower v →
  match_key what keys v = Ok key.
Proof.
  intros Hnd Hin E. unfold match_key.
  destruct (List.find _ keys) as [k|] eqn:Ef.
  - apply find_some in Ef as [Hk Heq]. apply String.eqb_eq in Heq.
    f_equal. apply (lower_inj_on keys); [done | by apply list_elem_of_In | done |].
    by rewrite Heq.
  - apply list_elem_of_In in Hin. pose proof (find_none _ _ Ef _ Hin) as Hn.
    simpl in Hn. apply String.eqb_neq in Hn. done.
Qed.

Lemma model_types_distinct : NoDup (lower <$> MODEL_TYPES).
Proof. apply (bool_decide_unpack _). vm_compute. exact I. Qed.

Lemma all_sections_distinct : NoDup (lower <$> ALL_SECTIONS).
Proof. apply (bool_decide_unpack _). vm_compute. exact I. Qed.

Lemma gravity_orientations_distinct : NoDup (lower <$> GRAVITY_ORIENTATIONS).
Proof. apply (bool_decide_unpack _). vm_compute. exact I. Qed.

Lemma to_therm_xml_plane self cs plane :
  cross_section_type self = Ok cs → wf self →
  to_therm_xml self plane
  = Ok (let g := written_gravity self plane in
        let w := _wind_orientation self in
        if String.eqb (_model_type self) "Window" then
          encoded "Window/Transparent Facade" [] "WindowCrossSection" cs g w
        else if String.eqb (_model_type self) "Opaque Wall" then
          encoded "Opaque Facade" [ET.leaf "Assembly" "Walls"] "OpaqueCrossSection" cs g w
        else if String.eqb (_model_type self) "Opaque Roof" then
          encoded "Opaque Facade" [ET.leaf "Assembly" "Roof"] "OpaqueCrossSection" cs g w
        else encoded "Other" [] "OtherCrossSection" cs g w).
Proof.
  intros Hcs Hwf. unfold to_therm_xml, written_gravity, model_type, wind_orientation.
  rewrite Hcs. unfold wf, MODEL_TYPES in Hwf.
  destruct self as [mt c g w]. simpl in *.
  cases_in Hwf; reflexivity.
Qed.

Lemma written_gravity_listed self plane :
  (∀ g, _gravity_orientation self = Some g → g ∈ GRAVITY_ORIENTATIONS) →
  written_gravity self plane ∈ GRAVITY_ORIENTATIONS.
Proof.
  intros Hg. unfold written_gravity, gravity_orientation.
  destruct (_gravity_orientation self) as [g|]; [by apply Hg|].
  destruct plane as [a|]; [destruct (Qle_bool 45 a)|]; in_list.
Qed.

End WithFloat.

(** X1.  A dictionary built by [to_dict] is read back by [from_dict] as the
    object it was built from, slot by slot: unlike the XML form, the
    dictionary keeps an unset cross section and an unset gravity
    orientation unset, and it holds for every model type. *)
Theorem to_dict_from_dict `{Float} (self : ModelExposure) :
  valid self → ∃ data, to_dict self = Ok data ∧ from_dict data = Ok self.
Proof.
  intros Hv. pose proof Hv as (Hc & Hg & H0 & H360).
  destruct Hc as (cs & Hcs & Hin).
  pose proof (init_valid self (NFloat (_wind_orientation self)) Hv
                (float_in_range_float _ _ H0 H360)) as Hinit.
  unfold to_dict, gravity_orientation, model_type, wind_orientation.
  destruct self as [mt c g w]. cbn [_model_type _cross_section_type
    _gravity_orientation _wind_orientation] in *.
  destruct c as [c|]; [rewrite Hcs|]; cbn [mbind result_bind];
    (destruct g as [g|]; eexists; (split; [reflexivity|]);
     unfold from_dict, given;
     repeat (rewrite lookup_insert_eq || rewrite lookup_insert_ne by done
             || rewrite lookup_singleton_eq || rewrite lookup_singleton_ne by done);
     cbn [mbind result_bind is_text String.eqb]);
    try (injection Hcs as ->); exact Hinit.
Qed.

(** X2.  [from_dict] checks the type tag before anything else: a dictionary
    without the key raises [KeyError], and one whose tag is not the text
    ModelExposure raises [AssertionError], whatever else it holds. *)
Theorem from_dict_wrong_type `{Float} (data : gmap string number) :
  data !! "type" ≠ Some (NStr "ModelExposure") →
  match data !! "type" with
  | None => from_dict data = Raise (KeyError "type")
  | Some _ => ∃ msg, from_dict data = Raise (AssertionError msg)
  end.
Proof.
  intros Hne. unfold from_dict. destruct (data !! "type") as [t|]; [|done].
  cbn [mbind result_bind].
  assert (is_text "ModelExposure" t = false) as ->; [|unfold assert; eauto].
  destruct t as [|s|z|x]; try done. simpl.
  apply String.eqb_neq. intros ->. done.
Qed.

(** X3.  A key whose value is [None] counts as absent, the wind orientation
    apart: there an absent key gives the default 0 and an explicit [None]
    is handed to the constructor, which does not return. *)
Theorem from_dict_none `{Float} (data : gmap string number) :
  data !! "type" = Some (NStr "ModelExposure") →
  (∀ key, key ≠ "type" → key ≠ "wind_orientation" → data !! key = Some NNone →
     from_dict data = from_dict (delete key data))
  ∧ (data !! "wind_orientation" = None →
     from_dict data = from_dict (<[ "wind_orientation" := NInt 0 ]> data))
  ∧ (data !! "wind_orientation" = Some NNone → raises (from_dict data)).
Proof.
  intros Ht. repeat apply conj.
  - intros key Hk Hw Hnone. unfold from_dict, given.
    rewrite (lookup_delete_ne data key "type") by done.
    rewrite (lookup_delete_ne data key "wind_orientation") by done.
    assert (∀ k, match delete key data !! k with
                 | Some NNone | None => None
                 | Some value => Some value
                 end
                 = match data !! k with
                   | Some NNone | None => None
                   | Some value => Some value
                   end) as Hsame; [|by rewrite !Hsame].
    intros k. destruct (decide (key = k)) as [<-|Hne].
    + by rewrite lookup_delete_eq, Hnone.
    + by rewrite lookup_delete_ne.
  - intros Hw. unfold from_dict, given.
    rewrite (lookup_insert_ne data "wind_orientation" "type") by done.
    rewrite (lookup_insert_ne data "wind_orientation" "model_type") by done.
    rewrite (lookup_insert_ne data "wind_orientation" "cross_section_type") by done.
    rewrite (lookup_insert_ne data "wind_orientation" "gravity_orientation") by done.
    rewrite lookup_insert_eq, Hw. done.
  - intros Hw. unfold from_dict. rewrite Ht, Hw. cbn [mbind result_bind is_text].
    rewrite String.eqb_refl. cbn [assert mbind result_bind default].
    unfold __init__.
    destruct (set_model_type _ _) as [[[]|e] self1]; [|done].
    destruct (set_cross_section_type _ _) as [[[]|e] self2]; [|done].
    destruct (set_gravity_orientation _ _) as [[[]|e] self3]; [|done].
    done.
Qed.

(** X4.  Whatever the constructor, [from_dict], [from_therm_xml] and
    [duplicate] return is a valid object: its effective cross section is
    one of its model type, its gravity orientation is unset or one of the
    six listed, and its wind orientation lies between 0 and 360. *)
Theorem returned_exposure_is_valid `{Float} (x : ModelExposure) :
  (∃ mt cs g w, __init__ mt cs g w = Ok x)
  ∨ (∃ data, from_dict data = Ok x)
  ∨ (∃ xml_element, from_therm_xml xml_element = Ok x)
  ∨ (∃ self, duplicate self = Ok x) →
  valid x.
Proof.
  intros [(mt & cs & g & w & E) | [(data & E) | [(e & E) | (self & E)]]].
  - by eapply init_returns_valid.
  - unfold from_dict in E. destruct (data !! "type") as [t|]; [|done].
    cbn [mbind result_bind] in E. destruct (is_text _ t); [|done].
    cbn [assert mbind result_bind] in E. by eapply init_returns_valid.
  - unfold from_therm_xml in E.
    destruct (ET.find_elem "Exposure" e) as [xml_exp|]; [|done].
    cbn [mbind result_bind] in E.
    destruct (ET.find_text "ModelPurpose" xml_exp) as [purpose|]; [|done].
    cbn [mbind result_bind] in E.
    destruct (if bool_decide (purpose = Some "Other") then _ else _)
      as [[mt cs]|]; [|done].
    cbn [mbind result_bind] in E.
    destruct (ET.find_text "GravityOrientation" e) as [g|]; [|done].
    cbn [mbind result_bind] in E.
    destruct (ET.find_text "ModelOrientation" e) as [w|]; [|done].
    cbn [mbind result_bind] in E. by eapply init_returns_valid.
  - by eapply init_returns_valid.
Qed.

(** X5.  Every setter that returns leaves a valid object valid. *)
Theorem setters_keep_valid `{Float} (self : ModelExposure) :
  valid self →
  (∀ v self', set_model_type v self = (Ok tt, self') → valid self')
  ∧ (∀ v self', set_cross_section_type v self = (Ok tt, self') → valid self')
  ∧ (∀ v self', set_gravity_orientation v self = (Ok tt, self') → valid self')
  ∧ (∀ v self', set_wind_orientation v self = (Ok tt, self') → valid self').
Proof.
  intros (Hc & Hg & H0 & H360). pose proof (consistent_wf _ Hc) as Hwf.
  repeat apply conj.
  - intros v self' E. pose proof (set_model_type_ok _ _ _ Hwf E) as [_ Hc'].
    apply set_model_type_returns in E as (key & _ & -> & _). by repeat split.
  - intros v self' E. pose proof (set_cross_section_type_ok _ _ _ Hwf E) as [_ Hc'].
    apply set_cross_section_type_returns in E as (key & -> & _). by repeat split.
  - intros v self' E.
    apply set_gravity_orientation_returns in E as (key & -> & Hk). by repeat split.
  - intros v self' E.
    apply set_wind_orientation_returns in E as (w & -> & Hw0 & Hw360). by repeat split.
Qed.

(** X6.  A copy of a valid object is the object, slot by slot. *)
Theorem duplicate_valid `{Float} (self : ModelExposure) :
  valid self → duplicate self = Ok self ∧ __copy__ self = Ok self.
Proof.
  intros Hv. pose proof Hv as (_ & _ & H0 & H360).
  split; apply (init_valid self _ Hv), float_in_range_float; done.
Qed.

(** X7.  An assignment that the check rejects has already been made.  The
    object that it leaves can not be copied: the copy runs the same check
    on the same model type and cross section and raises the same error. *)
Theorem rejected_assignment_blocks_copy `{Float}
    (self self' : ModelExposure) (v : option string) (msg : string) :
  valid self →
  set_model_type v self = (Raise (AssertionError msg), self')
  ∨ set_cross_section_type v self = (Raise (AssertionError msg), self') →
  duplicate self' = Raise (AssertionError msg).
Proof.
  intros (Hc & _) Hset. pose proof (consistent_wf _ Hc) as Hwf.
  assert (∀ c, _cross_section_type self = Some c → c ∈ ALL_SECTIONS) as Hall.
  { intros c Ec. destruct Hc as (c' & Hc' & Hin). unfold cross_section_type in Hc'.
    rewrite Ec in Hc'. injection Hc' as <-. by eapply permitted_all. }
  destruct Hset as [E|E].
  - pose proof (set_model_type_wf v self Hwf) as Hwf'. rewrite E in Hwf'.
    apply copy_of_rejected; [exact Hwf' | |].
    + unfold set_model_type in E.
      destruct v as [v|]; [destruct (match_key _ _ v)|];
        injection E as _ <-; exact Hall.
    + unfold set_model_type in E.
      destruct v as [v|]; [unfold match_key in E; destruct (List.find _ _); [|done]|];
        by injection E as E <-.
  - pose proof (set_cross_section_type_wf v self Hwf) as Hwf'. rewrite E in Hwf'.
    apply copy_of_rejected; [exact Hwf' | |].
    + unfold set_cross_section_type in E.
      destruct v as [v|]; [destruct (match_key _ _ v) as [key|] eqn:Ek|];
        injection E as _ <-; [| exact Hall | done].
      intros c [= <-]. by apply match_key_ok in Ek as [? _].
    + unfold set_cross_section_type in E.
      destruct v as [v|]; [unfold match_key in E; destruct (List.find _ _); [|done]|];
        by injection E as E <-.
Qed.

(** X8.  Assigning [None].  To the cross section it brings back the default of
    the model type and to the gravity orientation it clears the slot,
    neither of which can fail; to the model type it is the assignment of
    Other, check included; to the wind orientation it is a [TypeError]
    that leaves the object as it is. *)
Theorem none_assignments `{Float} (self : ModelExposure) :
  wf self →
  set_cross_section_type None self = (Ok tt, assign_cross_section_type None self)
  ∧ set_gravity_orientation None self = (Ok tt, assign_gravity_orientation None self)
  ∧ set_model_type None self = set_model_type (Some "Other") self
  ∧ ∃ msg, set_wind_orientation NNone self = (Raise (TypeError msg), self).
Proof.
  intros Hwf. repeat apply conj.
  - unfold set_cross_section_type. f_equal. apply check_ok_iff; [done|].
    destruct (default_section_permitted _ Hwf) as (d & Hd & Hin).
    exists d. split; [|done]. unfold cross_section_type. simpl. by rewrite Hd.
  - reflexivity.
  - unfold set_model_type. by rewrite (match_key_model_type _ "Other") by in_list.
  - eexists. reflexivity.
Qed.

(** X9.  The setters compare without regard to case and store the listed
    spelling: a value that spells a listed key in any mix of capitals is
    assigned as that key, by each of the three text setters. *)
Theorem spelling_selects_listed_key `{Float}
    (v key : string) (self : ModelExposure) :
  lower key = lower v →
  (key ∈ MODEL_TYPES →
     set_model_type (Some v) self
     = (_check_model_and_cross_section (assign_model_type key self),
        assign_model_type key self))
  ∧ (key ∈ ALL_SECTIONS →
     set_cross_section_type (Some v) self
     = (_check_model_and_cross_section (assign_cross_section_type (Some key) self),
        assign_cross_section_type (Some key) self))
  ∧ (key ∈ GRAVITY_ORIENTATIONS →
     set_gravity_orientation (Some v) self
     = (Ok tt, assign_gravity_orientation (Some key) self)).
Proof.
  intros E. repeat apply conj; intros Hin.
  - unfold set_model_type.
    by rewrite (match_key_listed _ _ _ key model_types_distinct Hin E).
  - unfold set_cross_section_type.
    by rewrite (match_key_listed _ _ _ key all_sections_distinct Hin E).
  - unfold set_gravity_orientation.
    by rewrite (match_key_listed _ _ _ key gravity_orientations_distinct Hin E).
Qed.

(** X10.  Encoding with a model plane and decoding.  An explicit gravity
    orientation is written whatever the plane; without one, a plane whose
    normal is less than 45 degrees from the vertical gives Into Screen and
    any other plane gives Down.  The decoder returns the object with that
    gravity orientation and its effective cross section. *)
Theorem model_plane_sets_gravity `{Float} (self : ModelExposure) (up_ang : Q) :
  valid self →
  _model_type self ≠ "Opaque Wall" →
  float_of_str (str_of_float (_wind_orientation self)) = Some (_wind_orientation self) →
  ∃ e g,
    to_therm_xml self (Some up_ang) = Ok e
    ∧ from_therm_xml e = Ok (assign_gravity_orientation (Some g) (explicit self))
    ∧ match _gravity_orientation self with
      | Some g' => g = g'
      | None => ((up_ang < 45)%Q → g = "Into Screen") ∧ ((45 <= up_ang)%Q → g = "Down")
      end.
Proof.
  intros (Hc & Hg & H0 & H360) Hwall Hrepr.
  pose proof (consistent_wf _ Hc) as Hwf. destruct Hc as (cs & Hcs & Hin).
  pose proof (written_gravity_listed self (Some up_ang) Hg) as Hg'.
  eexists. exists (written_gravity self (Some up_ang)).
  split; [by apply to_therm_xml_plane|]. split.
  - unfold assign_gravity_orientation, explicit.
    cbn [_model_type _cross_section_type _wind_orientation].
    rewrite (explicit_section _ _ Hcs).
    unfold model_type in Hin. unfold wf, MODEL_TYPES in Hwf.
    destruct self as [mt c g w]. cbn [_model_type _cross_section_type
      _gravity_orientation _wind_orientation] in *.
    cases_in Hwf; [| done | |]; simpl.
    + rewrite from_therm_xml_encoded_window. by apply init_canonical; [in_list|..].
    + rewrite from_therm_xml_encoded_roof. by apply init_canonical; [in_list|..].
    + rewrite from_therm_xml_encoded_other. by apply init_canonical; [in_list|..].
  - unfold written_gravity, gravity_orientation.
    destruct (_gravity_orientation self) as [g|]; [done|].
    destruct (Qle_bool 45 up_ang) eqn:E.
    + apply Qle_bool_iff in E. split; [|done]. intros Hlt.
      exfalso. by apply (Qlt_not_le _ _ Hlt).
    + split; [done|]. intros Hle. apply Qle_bool_iff in Hle. congruence.
Qed.

(** *** Runs on whole-number floats *)

Import ReferenceExposure.

Lemma window_jamb_valid : valid Reference.window_jamb.
Proof.
  split; [|split; [|split]]; [| | reflexivity | reflexivity].
  - exists "Jamb". split; [reflexivity | vm_compute; in_list].
  - intros g [= <-]. in_list.
Qed.

Lemma window_valid : valid window.
Proof.
  split; [|split; [|split]]; [| | reflexivity | reflexivity].
  - exists "Sill". split; [reflexivity | vm_compute; in_list].
  - intros g [=].
Qed.

Lemma opaque_wall_valid : valid opaque_wall.
Proof.
  split; [|split; [|split]]; [| | reflexivity | reflexivity].
  - exists "Sill Plate". split; [reflexivity | vm_compute; in_list].
  - intros g [=].
Qed.

(** An opaque wall with nothing else set goes through its dictionary. *)
Lemma to_dict_from_dict_witness :
  ∃ data, to_dict opaque_wall = Ok data ∧ from_dict data = Ok opaque_wall.
Proof. apply (to_dict_from_dict opaque_wall). exact opaque_wall_valid. Defined.

(** The dictionary of another class is refused. *)
Lemma from_dict_wrong_type_witness :
  ∃ msg, from_dict material_dict = Raise (AssertionError msg).
Proof.
  assert (material_dict !! "type" ≠ Some (NStr "ModelExposure")) as Hne
    by (vm_compute; intros [=]).
  exact (from_dict_wrong_type material_dict Hne).
Defined.

(** A dictionary with [None] for the cross section and for the wind
    orientation: the first counts as absent, the second makes the call
    fail. *)
Lemma from_dict_none_witness :
  from_dict none_wind = from_dict (delete "cross_section_type" none_wind)
  ∧ raises (from_dict none_wind).
Proof.
  assert (none_wind !! "type" = Some (NStr "ModelExposure")) as Ht
    by (vm_compute; reflexivity).
  destruct (from_dict_none none_wind Ht) as (Habsent & _ & Hwind).
  split.
  - apply Habsent; [done | done | vm_compute; reflexivity].
  - apply Hwind. vm_compute. reflexivity.
Defined.

(** The constructor called with lower-case texts returns a valid object. *)
Lemma returned_exposure_is_valid_witness : valid Reference.window_jamb.
Proof.
  apply returned_exposure_is_valid. left.
  exists (Some "window"), (Some "jamb"), (Some "up"), (NInt 90).
  vm_compute. reflexivity.
Defined.

(** A window jamb turned to face west stays valid. *)
Lemma setters_keep_valid_witness :
  ∃ self', set_wind_orientation (NStr "270") Reference.window_jamb = (Ok tt, self')
           ∧ valid self'.
Proof.
  eexists. split; [vm_compute; reflexivity|].
  destruct (setters_keep_valid Reference.window_jamb window_jamb_valid)
    as (_ & _ & _ & Hwind).
  apply (Hwind (NStr "270")). vm_compute. reflexivity.
Defined.

Lemma duplicate_valid_witness :
  duplicate window = Ok window ∧ __copy__ window = Ok window.
Proof. apply (duplicate_valid window). exact window_valid. Defined.

(** A window jamb is given the model type Other: the assignment is
    rejected, and the object that is left can not be copied. *)
Lemma rejected_assignment_blocks_copy_witness :
  ∃ msg self',
    set_model_type (Some "other") Reference.window_jamb
    = (Raise (AssertionError msg), self')
    ∧ _model_type self' = "Other"
    ∧ duplicate self' = Raise (AssertionError msg).
Proof.
  eexists _, _. split; [vm_compute; reflexivity|]. split; [reflexivity|].
  apply (rejected_assignment_blocks_copy Reference.window_jamb _ (Some "other")).
  - exact window_jamb_valid.
  - left. vm_compute. reflexivity.
Defined.

(** A window jamb loses its explicit cross section. *)
Lemma none_assignments_witness :
  (set_cross_section_type None Reference.window_jamb).1 = Ok tt
  ∧ cross_section_type (set_cross_section_type None Reference.window_jamb).2
    = Ok "Sill".
Proof.
  assert (wf Reference.window_jamb) as Hwf by (vm_compute; in_list).
  destruct (none_assignments Reference.window_jamb Hwf) as (Hcs & _).
  rewrite Hcs. split; reflexivity.
Defined.

Lemma spelling_selects_listed_key_witness :
  set_gravity_orientation (Some "INTO screen") Reference.window_jamb
  = (Ok tt, assign_gravity_orientation (Some "Into Screen") Reference.window_jamb).
Proof.
  assert (lower "Into Screen" = lower "INTO screen") as E by (vm_compute; reflexivity).
  destruct (spelling_selects_listed_key "INTO screen" "Into Screen"
              Reference.window_jamb E) as (_ & _ & Hg).
  apply Hg. in_list.
Defined.

(** A window without a gravity orientation, drawn on a plane that is 30
    degrees from the horizontal. *)
Lemma model_plane_sets_gravity_witness :
  ∃ e, to_therm_xml window (Some 30%Q) = Ok e
       ∧ from_therm_xml e
         = Ok (mkModelExposure "Window" (Some "Sill") (Some "Into Screen") 0%Z).
Proof.
  assert (_model_type window ≠ "Opaque Wall") as Hne by (vm_compute; intros [=]).
  assert (float_of_str (str_of_float (_wind_orientation window))
          = Some (_wind_orientation window)) as Hrepr by (vm_compute; reflexivity).
  destruct (model_plane_sets_gravity window 30%Q window_valid Hne Hrepr)
    as (e & g & He & Hd & Hg).
  exists e. split; [exact He|].
  simpl in Hg. destruct Hg as [Hlt _]. rewrite (Hlt eq_refl) in Hd. exact Hd.
Defined.

End ExposureDictFacts.

(** ** The translator: frames, failures and single objects *)

Module WriterMoreFacts.
Import Writer WriterText WriterFacts.

Section WithHost.
Context `{Float} `{!Host}.

(** *** Adjacencies *)

(** X11.  The remap of one [ObjectIDs] element changes nothing but the two
    attributes [surfaceIndex] and [zoneHandle]: tag, text, children and
    every other attribute stay.  The zone handle changes only when the
    adjacency is cleared, and an element that holds the sentinel -1 is
    left as it is. *)
Theorem remap_changes_two_attributes
    (f_index_map : gmap string string) (xml_adj_obj_ids : ET.Element) :
  let remapped := remap_object_ids f_index_map xml_adj_obj_ids in
  ET.tag remapped = ET.tag xml_adj_obj_ids
  ∧ ET.text remapped = ET.text xml_adj_obj_ids
  ∧ ET.children remapped = ET.children xml_adj_obj_ids
  ∧ (∀ k, k ≠ "surfaceIndex" → k ≠ "zoneHandle" →
       ET.get k remapped = ET.get k xml_adj_obj_ids)
  ∧ (ET.get "surfaceIndex" remapped ≠ Some "-1" →
       ET.get "zoneHandle" remapped = ET.get "zoneHandle" xml_adj_obj_ids)
  ∧ (ET.get "surfaceIndex" xml_adj_obj_ids = Some "-1" →
       remapped = xml_adj_obj_ids).
Proof.
  intros remapped. unfold remapped, remap_object_ids.
  case_bool_decide as Hs.
  - destruct (ET.get "surfaceIndex" xml_adj_obj_ids ≫= _) as [face_index|];
      unfold ET.get, ET.set; cbn [ET.tag ET.text ET.children ET.attrib];
      repeat apply conj; try done.
    + intros k Hk _. by rewrite lookup_insert_ne.
    + intros _. by rewrite lookup_insert_ne.
    + intros k Hk Hz. by rewrite !lookup_insert_ne.
    + intros Hne. exfalso. apply Hne.
      rewrite lookup_insert_ne by done. apply lookup_insert_eq.
  - repeat apply conj; done.
Qed.

(** *** The face-index map *)

Lemma index_faces_app m fs1 fs2 :
  index_faces m (fs1 ++ fs2) = (m' ← index_faces m fs1; index_faces m' fs2).
Proof.
  revert m. induction fs1 as [|f fs1 IH]; intros m; [done|].
  cbn [app index_faces]. destruct (dsb_face_i f); cbn [mbind result_bind]; [|done].
  apply IH.
Qed.

(** X12.  The loop that fills the face-index map returns exactly when every
    face holds an index in its user data.  The map it returns has an entry
    for the identifier of every face, the index of a face with that
    identifier, and keeps the entry of every other identifier. *)
Theorem index_faces_covers (f_index_map : gmap string string) (fs : list Face) :
  ((∀ f, f ∈ fs → ∃ i, dsb_face_i f = Ok i)
   ↔ ∃ m', index_faces f_index_map fs = Ok m')
  ∧ (∀ m', index_faces f_index_map fs = Ok m' →
       (∀ f, f ∈ fs →
          ∃ f' i, f' ∈ fs ∧ face_identifier f' = face_identifier f
                  ∧ dsb_face_i f' = Ok i ∧ m' !! face_identifier f = Some i)
       ∧ (∀ k, k ∉ face_identifier <$> fs → m' !! k = f_index_map !! k)).
Proof.
  split.
  - revert f_index_map. induction fs as [|f fs IH]; intros m.
    + split; [by eexists | intros _ f Hf; by apply elem_of_nil in Hf].
    + cbn [index_faces]. split.
      * intros Hall. destruct (Hall f) as [i ->]; [by left|].
        cbn [mbind result_bind]. apply IH. intros f' Hf'. apply Hall. by right.
      * intros [m' Hm']. destruct (dsb_face_i f) as [i|] eqn:Ei; [|done].
        cbn [mbind result_bind] in Hm'.
        intros f' Hf'. apply elem_of_cons in Hf' as [->|Hf']; [eauto|].
        eapply IH; [by eexists | done].
  - revert f_index_map. induction fs as [|f fs IH] using rev_ind; intros m m'.
    + intros [= <-]. split; [intros f Hf; by apply elem_of_nil in Hf | done].
    + rewrite index_faces_app. destruct (index_faces m fs) as [m1|] eqn:E1; [|done].
      cbn [mbind result_bind index_faces].
      destruct (dsb_face_i f) as [i|] eqn:Ei; [|done]. cbn [mbind result_bind].
      intros [= <-]. destruct (IH m m1 E1) as [Hin Hout]. split.
      * intros f0 Hf0.
        destruct (decide (face_identifier f0 = face_identifier f)) as [Eid|Nid].
        -- exists f, i. rewrite Eid, lookup_insert_eq.
           repeat split; try done. apply elem_of_app. right. by left.
        -- apply elem_of_app in Hf0 as [Hf0|Hf0].
           ++ destruct (Hin f0 Hf0) as (f' & i' & Hf' & Hid & Hi & Hm).
              exists f', i'. rewrite lookup_insert_ne by done.
              repeat split; try done. apply elem_of_app. by left.
           ++ apply list_elem_of_singleton in Hf0 as ->. done.
      * intros k Hk. rewrite fmap_app in Hk.
        apply not_elem_of_app in Hk as [Hk1 Hk2].
        rewrite lookup_insert_ne; [by apply Hout|].
        intros <-. apply Hk2. by left.
Qed.

(** *** Face types *)

Lemma reassign_type_idempotent face :
  reassign_type (reassign_type face) = reassign_type face.
Proof.
  unfold reassign_type.
  destruct (Qle_bool 60 (normal_angle face)) eqn:E60; cbn [negb normal_angle].
  - destruct (Qle_bool 130 (normal_angle face)) eqn:E130; cbn [normal_angle].
    + by rewrite E60, E130.
    + by rewrite E60, E130.
  - by rewrite E60.
Qed.

Lemma map_faces_compose f g m :
  map_faces f (map_faces g m) = map_faces (f ∘ g) m.
Proof.
  unfold map_faces. cbn [units display_name tolerance stories rooms orphaned_faces
    shades shade_meshes]. f_equal.
  - rewrite <- list_fmap_compose. apply list_fmap_ext. intros _ r _.
    cbn [compose room_identifier room_user_data room_faces].
    by rewrite <- list_fmap_compose.
  - by rewrite <- list_fmap_compose.
Qed.

(** X13.  Re-typing the faces a second time changes nothing, and the first time
    changes nothing but the types: every face keeps its identifier, its
    angle and its user data, and the model keeps the number of its
    faces. *)
Theorem reassign_types_idempotent (m : Model) :
  reassign_types (reassign_types m) = reassign_types m
  ∧ face_identifier <$> faces (reassign_types m) = face_identifier <$> faces m
  ∧ normal_angle <$> faces (reassign_types m) = normal_angle <$> faces m
  ∧ face_user_data <$> faces (reassign_types m) = face_user_data <$> faces m
  ∧ length (faces (reassign_types m)) = length (faces m).
Proof.
  unfold reassign_types. rewrite map_faces_compose, faces_map_faces.
  assert (∀ face, face_identifier (reassign_type face) = face_identifier face
                  ∧ normal_angle (reassign_type face) = normal_angle face
                  ∧ face_user_data (reassign_type face) = face_user_data face) as Hk.
  { intros face. unfold reassign_type.
    destruct (negb _); [done|]. by destruct (Qle_bool 130 _). }
  repeat apply conj.
  - unfold map_faces. f_equal.
    + apply list_fmap_ext. intros _ r _. f_equal.
      apply list_fmap_ext. intros _ face _. apply reassign_type_idempotent.
    + apply list_fmap_ext. intros _ face _. apply reassign_type_idempotent.
  - rewrite <- list_fmap_compose. apply list_fmap_ext. intros _ face _. apply Hk.
  - rewrite <- list_fmap_compose. apply list_fmap_ext. intros _ face _. apply Hk.
  - rewrite <- list_fmap_compose. apply list_fmap_ext. intros _ face _. apply Hk.
  - apply length_fmap.
Qed.

(** *** Shades *)

Lemma with_children_self (e : ET.Element) : ET.with_children (ET.children e) e = e.
Proof. by destruct e. Qed.







(** One pass of the mesh loop *)
Lemma mesh_plane_step sm i face p s :
  mesh_plane sm i face (Some p) s
  = (Ok (Some (ET.append (mesh_face_plane sm (HANDLE_COUNTER s) i face) p)),
     mkSession (model s) (HANDLE_COUNTER s + 1)).
Proof. reflexivity. Qed.

Lemma mesh_planes_spec sm (fs : list (list Point3D)) (k : nat) p s :
  mesh_planes sm (imap (λ i, pair (k + i)%nat) fs) (Some p) s
  = (Ok (Some (ET.with_children
                 (ET.children p
                  ++ imap (λ i face,
                             mesh_face_plane sm (HANDLE_COUNTER s + Z.of_nat i)
                               (k + i) face) fs) p)),
     mkSession (model s) (HANDLE_COUNTER s + Z.of_nat (length fs))).
Proof.
  revert k p s. induction fs as [|face fs IH]; intros k p s.
  - cbn [imap mesh_planes length]. rewrite app_nil_r, with_children_self.
    destruct s. cbn [model HANDLE_COUNTER]. by rewrite Z.add_0_r.
  - cbn [imap mesh_planes]. unfold mbind at 1, M_bind at 1.
    rewrite mesh_plane_step.
    rewrite (imap_ext _ (λ i, pair (S k + i)%nat) fs)
      by (intros; cbn [compose]; f_equal; lia).
    rewrite IH. cbn [model HANDLE_COUNTER length]. f_equal.
    + do 2 f_equal. unfold ET.with_children, ET.append.
      cbn [ET.tag ET.attrib ET.text ET.children]. f_equal.
      rewrite <- app_assoc. f_equal. cbn [app]. rewrite Nat.add_0_r, Z.add_0_r.
      f_equal. apply imap_ext. intros i face' _. cbn [compose].
      f_equal; lia.
    + f_equal. lia.
Qed.

(** X15.  The planes of a mesh.  The faces take consecutive handles from the
    global counter, the face at position [i] the counter plus [i], and
    their planes are added after the planes that the [Planes] element
    held; the counter ends that many higher, or at 1 when a reset is
    asked for.  A building without a [Planes] element gives [TypeError]
    at the first face, with the counter untouched, and no error for a
    mesh without faces, for which [None] is returned. *)
Theorem shade_mesh_planes (shade_mesh : ShadeMesh) (building_element : option ET.Element)
    (reset_counter : bool) (s : Session) :
  let fs := face_vertices shade_mesh in
  let added :=
    imap (λ i face, mesh_face_plane shade_mesh (HANDLE_COUNTER s + Z.of_nat i) i face)
      fs in
  let after :=
    mkSession (model s)
      (if reset_counter then 1 else HANDLE_COUNTER s + Z.of_nat (length fs)) in
  let run := shade_mesh_to_therm_xml_element shade_mesh building_element reset_counter s in
  match building_element with
  | None => run = (Ok (Some (ET.mkElement "Planes" ∅ None added), None), after)
  | Some b =>
      match ET.find "Planes" b with
      | Some planes =>
          let planes' := ET.with_children (ET.children planes ++ added) planes in
          run = (Ok (Some planes', Some (ET.update_found "Planes" planes' b)), after)
      | None =>
          match fs with
          | [] => run = (Ok (None, Some b), after)
          | _ :: _ => ∃ msg, run = (Raise (TypeError msg), s)
          end
      end
  end.
Proof.
  intros fs added after run. unfold run, shade_mesh_to_therm_xml_element, enumerate.
  fold fs.
  assert (∀ p, mesh_planes shade_mesh (imap pair fs) (Some p) s
               = (Ok (Some (ET.with_children (ET.children p ++ added) p)),
                  mkSession (model s) (HANDLE_COUNTER s + Z.of_nat (length fs))))
    as Hloop.
  { intros p. apply (mesh_planes_spec shade_mesh fs 0 p s). }
  destruct building_element as [b|].
  - destruct (ET.find "Planes" b) as [planes|] eqn:Ef.
    + unfold mbind at 1, M_bind at 1. rewrite Hloop.
      unfold after. by destruct reset_counter.
    + destruct fs as [|face fs'] eqn:Efs.
      * cbn [imap mesh_planes]. unfold after. destruct reset_counter, s; cbn.
        -- done.
        -- by rewrite Z.add_0_r.
      * cbn [imap mesh_planes]. eexists. reflexivity.
  - unfold mbind at 1, M_bind at 1. rewrite Hloop.
    unfold after. by destruct reset_counter.
Qed.




(** *** The whole translation *)

Lemma bind_inv {A B} (m : M A) (f : A → M B) s b s' :
  (m ≫= f) s = (Ok b, s') → ∃ a s1, m s = (Ok a, s1) ∧ f a s1 = (Ok b, s').
Proof. unfold mbind, M_bind. destruct (m s) as [[a|e] s1]; [eauto | done]. Qed.

Lemma find_elem_inv t e c : ET.find_elem t e = Ok c → ET.find t e = Some c.
Proof. unfold ET.find_elem. destruct (ET.find t e); [by intros [= ->] | done]. Qed.

(** The steps after the name is read keep the display name. *)
Lemma keeps_name_bind {A B} (m : M A) (f : A → M B) :
  keeps_name m → (∀ a, keeps_name (f a)) → keeps_name (m ≫= f).
Proof.
  intros Hm Hf s r s'. unfold mbind, M_bind.
  destruct (m s) as [[a|e] s1] eqn:Em.
  - intros Hrun. rewrite (Hf a _ _ _ Hrun). by eapply Hm.
  - intros [= <- <-]. by eapply Hm.
Qed.

Lemma keeps_name_ret {A} (a : A) : keeps_name (mret a).
Proof. by intros s r s' [= <- <-]. Qed.

Lemma keeps_name_lift {A} (r : result A) : keeps_name (lift r).
Proof. by intros s r' s' [= <- <-]. Qed.

Lemma keeps_name_get_model : keeps_name get_model.
Proof. by intros s r s' [= <- <-]. Qed.

Lemma keeps_name_get_counter : keeps_name get_counter.
Proof. by intros s r s' [= <- <-]. Qed.

Lemma keeps_name_set_counter n : keeps_name (set_counter n).
Proof. by intros s r s' [= <- <-]. Qed.

Lemma keeps_name_modify (f : Model → Model) :
  (∀ m, display_name (f m) = display_name m) → keeps_name (modify_model f).
Proof. intros Hf s r s' [= <- <-]. apply Hf. Qed.

Lemma reset_ids_to_integers_name start m :
  display_name (reset_ids_to_integers start m).1 = display_name m.
Proof.
  unfold reset_ids_to_integers.
  destruct (renumber_rooms _ _) as [rs n1]. destruct (renumber_faces _ _) as [fs n2].
  by destruct (renumber_shades _ _) as [ss n3].
Qed.

Lemma assign_handles_keeps_name block_rooms : keeps_name (assign_handles block_rooms).
Proof.
  intros s r s'.
  unfold assign_handles, mbind, M_bind, set_counter, get_counter, get_model.
  cbn [model HANDLE_COUNTER].
  pose proof (reset_ids_to_integers_name (Z.of_nat (length block_rooms) + 2) (model s))
    as Hname.
  destruct (reset_ids_to_integers _ (model s)) as [m' last]. cbn [fst] in Hname.
  unfold modify_model. cbn [model HANDLE_COUNTER]. by intros [= _ <-].
Qed.

Lemma room_group_keeps_name room_group block_handle xml_blocks block_name :
  keeps_name (room_group_to_therm_xml_block room_group block_handle xml_blocks
                block_name).
Proof.
  unfold room_group_to_therm_xml_block.
  apply keeps_name_bind; [apply keeps_name_get_model|]. intros m.
  apply keeps_name_bind; [apply keeps_name_get_counter|]. intros n.
  apply keeps_name_bind; [apply keeps_name_lift|]. intros [[xml_block rooms'] n'].
  apply keeps_name_bind; [by apply keeps_name_modify|]. intros _.
  apply keeps_name_bind; [apply keeps_name_set_counter|]. intros _.
  apply keeps_name_ret.
Qed.

Lemma emit_blocks_keeps_name blocks : ∀ xml_blocks f_index_map,
  keeps_name (emit_blocks blocks xml_blocks f_index_map).
Proof.
  induction blocks as [|[i [room_group block_name]] rest IH]; intros xb fm.
  - apply keeps_name_ret.
  - cbn [emit_blocks].
    apply keeps_name_bind; [apply room_group_keeps_name|]. intros xb'.
    apply keeps_name_bind; [apply keeps_name_get_model|]. intros m.
    apply keeps_name_bind; [apply keeps_name_lift|]. intros fm'.
    apply IH.
Qed.

Lemma shade_mesh_keeps_name shade_mesh building_element reset_counter :
  keeps_name (shade_mesh_to_therm_xml_element shade_mesh building_element
                reset_counter).
Proof.
  intros s r s' Hrun.
  pose proof (shade_mesh_planes shade_mesh building_element reset_counter s) as Hspec.
  cbv zeta in Hspec. rewrite Hrun in Hspec.
  destruct building_element as [b|].
  - destruct (ET.find "Planes" b) as [planes|].
    + by injection Hspec as _ ->.
    + destruct (face_vertices shade_mesh).
      * by injection Hspec as _ ->.
      * destruct Hspec as [msg Hspec]. by injection Hspec as _ ->.
  - by injection Hspec as _ ->.
Qed.

Lemma add_shade_meshes_keeps_name n : ∀ i xml_bldg,
  keeps_name (add_shade_meshes i n xml_bldg).
Proof.
  induction n as [|n IH]; intros i b.
  - apply keeps_name_ret.
  - cbn [add_shade_meshes].
    apply keeps_name_bind; [apply keeps_name_get_model|]. intros m.
    destruct (shade_meshes m !! i) as [sm|]; [|apply keeps_name_ret].
    apply keeps_name_bind; [by apply keeps_name_modify|]. intros _.
    apply keeps_name_bind; [apply shade_mesh_keeps_name|]. intros [p b'].
    apply IH.
Qed.

Lemma translate_returns original_units xml_template s xml_root s' :
  translate original_units xml_template s = (Ok xml_root, s') →
  HANDLE_COUNTER s' = 1%Z
  ∧ ET.get "version" xml_root = Some DESIGNBUILDER_VERSION
  ∧ ET.get "date" xml_root = Some today
  ∧ ET.get "name" xml_root = Some ("~" +:+ clean_string (display_name (model s')))
  ∧ (∃ template, parse_template xml_template = Ok template
                 ∧ ET.tag xml_root = ET.tag template
                 ∧ (∀ k, k ∉ ["name"; "date"; "version"] →
                         ET.get k xml_root = ET.get k template)
                 ∧ ∃ site buildings building,
                     ET.find "Site" template = Some site
                     ∧ ET.find "Buildings" site = Some buildings
                     ∧ ET.find "Building" buildings = Some building)
  ∧ (∃ xml_site, ET.find "Site" xml_root = Some xml_site
                 ∧ ET.get "handle" xml_site = Some "1").
Proof.
  unfold translate. intros Hrun.
  do 7 (apply bind_inv in Hrun as (? & ? & _ & Hrun)).
  apply bind_inv in Hrun as (template & s8 & Htpl & Hrun).
  apply bind_inv in Hrun as (m & s9 & Hm & Hrun).
  apply bind_inv in Hrun as (xml_site & ? & Hsite & Hrun).
  apply bind_inv in Hrun as (xml_bldgs & ? & Hbldgs & Hrun).
  apply bind_inv in Hrun as (xml_bldg & ? & Hbldg & Hrun).
  unfold lift in Htpl, Hsite, Hbldgs, Hbldg. unfold get_model in Hm.
  injection Htpl as Htpl _. injection Hm as <- <-.
  injection Hsite as Hsite <-. injection Hbldgs as Hbldgs <-.
  injection Hbldg as Hbldg <-.
  apply find_elem_inv in Hsite. apply find_elem_inv in Hbldgs.
  apply find_elem_inv in Hbldg.
  destruct (group_blocks (rooms (model s8))) as [block_rooms block_names].
  apply bind_inv in Hrun as (? & s10 & H10 & Hrun).
  apply assign_handles_keeps_name in H10.
  apply bind_inv in Hrun as ([xml_blocks f_index_map] & s11 & H11 & Hrun).
  apply emit_blocks_keeps_name in H11.
  apply bind_inv in Hrun as (? & s12 & H12 & Hrun).
  unfold lift in H12. injection H12 as _ <-.
  apply bind_inv in Hrun as (? & s13 & H13 & Hrun).
  unfold get_model in H13. injection H13 as _ <-.
  apply bind_inv in Hrun as (? & s14 & H14 & Hrun).
  unfold lift in H14. injection H14 as _ <-.
  apply bind_inv in Hrun as (? & s15 & H15 & Hrun).
  apply add_shade_meshes_keeps_name in H15.
  apply bind_inv in Hrun as (? & ? & Hset & Hrun).
  unfold set_counter in Hset. injection Hset as _ <-.
  unfold mret, M_ret in Hrun. injection Hrun as <- <-.
  unfold ET.get, ET.update_found, ET.with_children, ET.set.
  cbn [HANDLE_COUNTER model ET.attrib ET.tag]. repeat apply conj.
  - done.
  - apply lookup_insert_eq.
  - rewrite lookup_insert_ne by done. apply lookup_insert_eq.
  - rewrite H15, H11, H10. rewrite !lookup_insert_ne by done. apply lookup_insert_eq.
  - exists template. split; [done|]. split; [done|]. split.
    + intros k Hk.
      rewrite !lookup_insert_ne; [done|..]; intros <-; apply Hk; repeat constructor.
    + by exists xml_site, xml_bldgs, xml_bldg.
  - eexists. split.
    + apply (find_update_found "Site" _ xml_site); [exact Hsite|].
      cbn [ET.tag]. by eapply find_tag.
    + cbn [ET.attrib]. apply lookup_insert_eq.
Qed.

(** X18.  A translation that returns leaves the global handle counter at
    1, writes no file and makes no directory.  The document it returns has
    the tag and the attributes of the template, with [name], [date] and
    [version] set, the name being the cleaned display name of the
    duplicate after a tilde, and its [Site] element has the handle 1.  It
    returns only for a template that holds a [Site] with [Buildings] with
    a [Building]. *)
Theorem translation_returns (w w' : World) (model : nat) (xml_template : string)
    (xml_root : ET.Element) :
  model_to_therm_xml_element model xml_template w = (Ok xml_root, w') →
  counter w' = 1%Z
  ∧ files w' = files w
  ∧ directories w' = directories w
  ∧ ET.get "version" xml_root = Some DESIGNBUILDER_VERSION
  ∧ ET.get "date" xml_root = Some today
  ∧ (∃ duplicate, models w' !! fresh (dom (models w)) = Some duplicate
                  ∧ ET.get "name" xml_root
                    = Some ("~" +:+ clean_string (display_name duplicate)))
  ∧ (∃ template, parse_template xml_template = Ok template
                 ∧ ET.tag xml_root = ET.tag template
                 ∧ (∀ k, k ∉ ["name"; "date"; "version"] →
                         ET.get k xml_root = ET.get k template)
                 ∧ ∃ site buildings building,
                     ET.find "Site" template = Some site
                     ∧ ET.find "Buildings" site = Some buildings
                     ∧ ET.find "Building" buildings = Some building)
  ∧ (∃ xml_site, ET.find "Site" xml_root = Some xml_site
                 ∧ ET.get "handle" xml_site = Some "1").
Proof.
  unfold model_to_therm_xml_element.
  destruct (models w !! model) as [original_model|]; [|done].
  destruct (translate _ _ _) as [r [m n]] eqn:Hrun. intros [= -> <-].
  apply translate_returns in Hrun as (Hc & Hv & Hd & Hn & Hrest).
  cbn [HANDLE_COUNTER Writer.model] in Hc, Hn.
  cbn [counter files directories models].
  split; [done|]. split; [done|]. split; [done|]. split; [done|]. split; [done|].
  split; [|done]. exists m. split; [apply lookup_insert_eq | done].
Qed.

(** *** Failures of the clean-up that are no [ValueError] *)



(** *** What the file function leaves behind *)

Lemma model_to_therm_xml_element_files w model xml_template :
  files (model_to_therm_xml_element model xml_template w).2 = files w
  ∧ directories (model_to_therm_xml_element model xml_template w).2 = directories w.
Proof.
  unfold model_to_therm_xml_element.
  destruct (models w !! model) as [original_model|]; [|done].
  by destruct (translate _ _ _) as [r [m n]].
Qed.

Lemma model_to_therm_xml_files w model xml_template program_name :
  files (model_to_therm_xml model xml_template program_name w).2 = files w
  ∧ directories (model_to_therm_xml model xml_template program_name w).2
    = directories w.
Proof.
  rewrite model_to_therm_xml_unfold.
  pose proof (model_to_therm_xml_element_files w model xml_template) as Hf.
  by destruct (model_to_therm_xml_element model xml_template w) as [[xml_root|e] w'].
Qed.

(** X20.  The effects of the file function on the file system, whether it
    returns or raises.  The directory of the output file is made in every
    case, and no file but the output file is touched.  When the
    translation raises, the output file is as it was.  When the text can
    not be encoded, the error of the codec is raised and the output file
    is left empty: it was opened for writing before the text was
    encoded. *)
Theorem file_function_effects (w : World) (model : nat) (output_file : string)
    (xml_template : string) (program_name : option string) :
  let run := model_to_thmz model output_file xml_template program_name w in
  let text :=
    model_to_therm_xml model xml_template program_name
      (makedirs (dirname_abspath output_file) w).2 in
  dirname_abspath output_file ∈ directories run.2
  ∧ (∀ path, path ≠ output_file → files run.2 !! path = files w !! path)
  ∧ (∀ e, text.1 = Raise e → run.1 = Raise e ∧ files run.2 = files w)
  ∧ (∀ xml_str e, text.1 = Ok xml_str → encode "iso-8859-15" xml_str = Raise e →
       run.1 = Raise e ∧ files run.2 !! output_file = Some []).
Proof.
  intros run text. unfold run. rewrite model_to_thmz_unfold. fold text.
  pose proof (model_to_therm_xml_files (makedirs (dirname_abspath output_file) w).2
                model xml_template program_name) as [Hf Hd].
  fold text in Hf, Hd. cbn [makedirs snd files directories] in Hf, Hd.
  destruct text as [[xml_str|e] w1]; cbn [fst snd] in *.
  - destruct (encode "iso-8859-15" xml_str) as [data|e] eqn:Eenc;
      cbn [fst snd open_wb write_file files directories]; rewrite Hf, Hd.
    + split; [apply elem_of_union_l; by apply elem_of_singleton|].
      split; [intros path Hp; by rewrite !lookup_insert_ne|].
      split; [done|]. intros s e' [= <-] Henc. congruence.
    + split; [apply elem_of_union_l; by apply elem_of_singleton|].
      split; [intros path Hp; by rewrite lookup_insert_ne|].
      split; [done|]. intros s e' [= <-] Henc.
      rewrite Eenc in Henc. injection Henc as <-.
      split; [done | apply lookup_insert_eq].
  - rewrite Hf, Hd.
    split; [apply elem_of_union_l; by apply elem_of_singleton|].
    split; [done|]. split; [by intros e' [= <-] | done].
Qed.

End WithHost.

(** *** Runs on the reference hosts *)

Import ReferenceHost WriterSamples.
#[local] Existing Instance Reference.whole_float.

(** A resolved adjacency keeps its zone handle and its own handle. *)
Lemma remap_changes_two_attributes_witness :
  ET.get "surfaceIndex" (remap_object_ids face_indices resolved_ids) = Some "0"
  ∧ ET.get "zoneHandle" (remap_object_ids face_indices resolved_ids) = Some "4"
  ∧ ET.get "handle" (remap_object_ids face_indices resolved_ids) = Some "12".
Proof.
  destruct (remap_changes_two_attributes face_indices resolved_ids)
    as (_ & _ & _ & Hother & Hzone & _).
  split; [vm_compute; reflexivity|]. split.
  - rewrite Hzone; [vm_compute; reflexivity|]. vm_compute. intros [=].
  - rewrite Hother; [vm_compute; reflexivity | done | done].
Defined.

(** A face with an index is entered; a face without one stops the loop. *)
Lemma index_faces_covers_witness :
  (∃ m', index_faces ∅ [indexed] = Ok m')
  ∧ ¬ ∃ m', index_faces ∅ [indexed; unindexed] = Ok m'.
Proof.
  split.
  - destruct (index_faces_covers ∅ [indexed]) as [[Hto _] _].
    apply Hto. intros f Hf.
    apply list_elem_of_singleton in Hf as ->. by exists "3".
  - intros Hok. destruct (index_faces_covers ∅ [indexed; unindexed]) as [[_ Hfrom] _].
    destruct (Hfrom Hok unindexed) as [i Hi]; [repeat constructor|].
    vm_compute in Hi. discriminate.
Defined.

(** The two rooms are translated with the counter standing at 7. *)
Lemma translation_returns_witness :
  ∃ xml_root w',
    model_to_therm_xml_element 0 "Default" (busy_world two_rooms) = (Ok xml_root, w')
    ∧ counter w' = 1%Z
    ∧ ET.get "version" xml_root = Some "7.0".
Proof.
  destruct (model_to_therm_xml_element 0 "Default" (busy_world two_rooms))
    as [[xml_root|e] w'] eqn:E; [|vm_compute in E; discriminate].
  exists xml_root, w'. split; [reflexivity|].
  destruct (translation_returns _ _ _ _ _ E) as (Hc & _ & _ & Hv & _).
  split; [exact Hc | exact Hv].
Defined.



(** A model named by a letter that the codec refuses: the file function
    raises the error of the codec and leaves an empty file. *)
Lemma file_function_effects_witness :
  ∃ e,
    (model_to_thmz (H0 := strict_host) 0 "out.thmz" "Default" None (world omega)).1
    = Raise (UnicodeEncodeError e)
    ∧ files (model_to_thmz (H0 := strict_host) 0 "out.thmz" "Default" None
               (world omega)).2 !! "out.thmz" = Some [].
Proof.
  destruct (file_function_effects (H0 := strict_host) (world omega) 0 "out.thmz"
              "Default" None) as (_ & _ & _ & Henc).
  destruct (model_to_therm_xml (H0 := strict_host) 0 "Default" None
              (makedirs (dirname_abspath (Host := strict_host) "out.thmz")
                 (world omega)).2) as [[xml_str|e] w1] eqn:E;
    [|vm_compute in E; discriminate].
  exists "iso-8859-15". apply (Henc xml_str).
  - reflexivity.
  - vm_compute in E. injection E as <- _. vm_compute. reflexivity.
Defined.

(** The awning on the building, and on the building without planes *)
Example add_shades_awning :
  (∃ b, add_shades [awning] building = Ok b
        ∧ (length ∘ ET.children <$> ET.find "Planes" b) = Some 1%nat)
  ∧ add_shades [awning] bare_building
    = Raise (TypeError "SubElement() argument 1 must be Element, not None")
  ∧ add_shades [] bare_building = Ok bare_building.
Proof. split; [eexists; split; vm_compute; reflexivity|]. split; reflexivity. Qed.

End WriterMoreFacts.

(** ** The material of a shape *)

Module ShapeFacts.
Import Shape.

(** X21.  The material setter of a shape touches nothing but the material slot
    of the shape and the object that is assigned.  The host stays, every
    other object of the store stays, and the store holds the same
    references.  When the setter returns, the slot holds the value, the
    getter gives it back, with the generic concrete standing in for
    [None], and the assigned object is a solid material before and after.
    When it raises, which it does with [AssertionError] and only for a
    value that is no solid material, the shape and the store are as they
    were. *)
Theorem set_material_frame (value : option nat) (self : ShapeThermProperties)
    (σ : store) (generic_concrete : nat) :
  let run := set_material value self σ in
  let self' := run.1.2 in
  let σ' := run.2 in
  _host self' = _host self
  ∧ (∀ r, value ≠ Some r → σ' !! r = σ !! r)
  ∧ dom σ' = dom σ
  ∧ match run.1.1 with
    | Ok _ =>
        _material self' = value
        ∧ material generic_concrete self' = default generic_concrete value
        ∧ ∀ r, value = Some r →
            ∃ m m', σ !! r = Some (IsSolidMaterial m)
                    ∧ σ' !! r = Some (IsSolidMaterial m')
    | Raise e =>
        self' = self ∧ σ' = σ
        ∧ (∃ msg, e = AssertionError msg)
        ∧ ∃ r, value = Some r ∧ ∀ m, σ !! r ≠ Some (IsSolidMaterial m)
    end.
Proof.
  intros run self' σ'. unfold self', σ', run, set_material.
  destruct value as [r|].
  - destruct (σ !! r) as [[m|type_name]|] eqn:Er; cbn [fst snd].
    + repeat apply conj; try done.
      * intros r0 Hr0. rewrite lookup_insert_ne; [done|]. by intros ->.
      * apply dom_insert_lookup_L. by rewrite Er.
      * intros r0 [= <-]. exists m, (Lockable.lock m). by rewrite lookup_insert_eq.
    + repeat apply conj; try done; [by eexists|].
      exists r. split; [done|]. intros m. by rewrite Er.
    + repeat apply conj; try done; [by eexists|].
      exists r. split; [done|]. intros m. by rewrite Er.
  - cbn [fst snd]. repeat apply conj; done.
Qed.

Import ShapeSamples.

(** The frame is given the object 1 of the shelf, which is a text: the
    setter raises and the frame keeps the concrete. *)
Lemma set_material_frame_witness :
  ∃ msg,
    set_material (Some 1%nat) frame_shape shelf
    = (Raise (AssertionError msg), frame_shape, shelf).
Proof.
  pose proof (set_material_frame (Some 1%nat) frame_shape shelf 0%nat) as Hrun.
  cbn zeta in Hrun. destruct Hrun as (_ & _ & _ & Hrun).
  destruct (set_material (Some 1%nat) frame_shape shelf) as [[[u|e] self'] σ'] eqn:E;
    [vm_compute in E; discriminate|].
  cbn [fst snd] in Hrun. destruct Hrun as (-> & -> & (msg & ->) & _).
  by exists msg.
Defined.

End ShapeFacts.

(** ** The runner *)

Module RunFacts.
Import Run.

Section WithSystem.
Context `{Float} `{!System}.

Lemma list_ascii_of_string_app (a b : string) :
  list_ascii_of_string (a +:+ b) = list_ascii_of_string a ++ list_ascii_of_string b.
Proof.
  induction a as [|c a IH]; [done|].
  rewrite WriterFacts.append_cons. cbn [list_ascii_of_string app]. by rewrite IH.
Qed.

Lemma all_ascii_app (a b : string) :
  all_ascii (a +:+ b) = all_ascii a && all_ascii b.
Proof. unfold all_ascii. by rewrite list_ascii_of_string_app, forallb_app. Qed.

(** A batch text holds the executable and the THMZ file as they are. *)
Lemma batch_text_not_ascii exe thmz_file log_file directory :
  all_ascii exe = false ∨ all_ascii thmz_file = false →
  all_ascii (batch_text exe thmz_file log_file directory) = false.
Proof.
  intros Hna. unfold batch_text, quoted. rewrite !all_ascii_app.
  destruct Hna as [-> | ->];
    repeat (rewrite andb_false_r || rewrite andb_false_l); reflexivity.
Qed.

Lemma contains_refl (s : string) : contains s s = true.
Proof.
  destruct s as [|c s]; [done|]. cbn [contains String.prefix].
  destruct (ascii_dec c c); [|done].
  pose proof (WriterFacts.prefix_append s "") as Hp.
  assert (s +:+ "" = s) as Es by (clear; induction s as [|x s IH]; [done|];
    rewrite WriterFacts.append_cons; by f_equal).
  rewrite Es in Hp. by rewrite Hp.
Qed.

Lemma contains_append (a s : string) : contains s (a +:+ s) = true.
Proof.
  induction a as [|c a IH]; [apply contains_refl|].
  rewrite WriterFacts.append_cons. cbn [contains]. rewrite IH. apply orb_true_r.
Qed.

Lemma run_thmz_returns thmz_file silent w path w' :
  run_thmz thmz_file silent w = (Ok path, w') →
  path = abspath thmz_file ∧ is_Some therm_exe ∧ isfile (abspath thmz_file) w = true.
Proof.
  unfold run_thmz. destruct therm_exe as [exe|]; [|done].
  destruct (isfile (abspath thmz_file) w); [|done]. cbn [negb].
  destruct (negb silent && _).
  - destruct (write_to_file _ _ _ _) as [[p|e] w1]; [|done].
    intros [= <- _]. by repeat split.
  - destruct (popen_communicate _ _ _) as [[u|e] w1]; [|done].
    intros [= <- _]. by repeat split.
Qed.

End WithSystem.

(** X22.  Without a THERM executable, or without the THMZ file, [run_thmz]
    raises [AssertionError] before it does anything: nothing is written
    and nothing is run. *)
Theorem run_thmz_refuses `{Float} `{!System}
    (thmz_file : string) (silent : bool) (w : world) :
  therm_exe = None ∨ isfile (abspath thmz_file) w = false →
  ∃ msg, run_thmz thmz_file silent w = (Raise (AssertionError msg), w).
Proof.
  intros Hno. unfold run_thmz. destruct therm_exe as [exe|]; [|by eexists].
  destruct Hno as [Hno | ->]; [done|]. by eexists.
Qed.

(** X23.  In silent mode, or when the path of the executable or of the THMZ
    file holds a character beyond ASCII, no batch file is written: THERM
    is started as a process with its nine arguments, through the shell
    exactly in silent mode, and the absolute path of the THMZ file is
    returned once the process has ended. *)
Theorem no_batch_file `{Float} `{!System}
    (exe thmz_file : string) (silent : bool) (w : world) :
  therm_exe = Some exe →
  isfile (abspath thmz_file) w = true →
  silent = true ∨ all_ascii exe = false ∨ all_ascii (abspath thmz_file) = false →
  run_thmz thmz_file silent w
  = match popen_communicate
            [exe; "-pw"; "thmCLA"; "-thmz"; abspath thmz_file; "-log";
             join (split_head (abspath thmz_file)) "therm.log"; "-calc"; "-exit"]
            silent w with
    | (Ok _, w') => (Ok (abspath thmz_file), w')
    | (Raise e, w') => (Raise e, w')
    end.
Proof.
  intros Hexe Hfile Hwhy. unfold run_thmz. rewrite Hexe, Hfile. cbn [negb].
  assert (negb silent
          && all_ascii (batch_text exe (abspath thmz_file)
                          (join (split_head (abspath thmz_file)) "therm.log")
                          (split_head (abspath thmz_file))) = false) as ->; [|done].
  destruct Hwhy as [-> | Hna]; [done|].
  rewrite batch_text_not_ascii by done. apply andb_false_r.
Qed.

(** X24.  [run_model] returns only after a completed calculation: the model is
    a model, THERM is installed, the log beside the THMZ file reads
    Calculation complete. somewhere, and the path returned is the absolute
    path of [model.thmz] in the directory of the run. *)
Theorem run_model_returns `{Float} `{!System}
    (model : object) (directory : option string) (silent : bool)
    (w w' : world) (thmz_file : string) :
  run_model model directory silent w = (Ok thmz_file, w') →
  ∃ m sim_log,
    model = IsModel m
    ∧ is_Some therm_exe
    ∧ let directory :=
        default (join default_simulation_folder (clean_string (Writer.display_name m)))
          directory in
      thmz_file = abspath (join directory "model.thmz")
      ∧ read_text (join directory "therm.log") w' = Ok sim_log
      ∧ contains "Calculation complete." sim_log = true.
Proof.
  unfold run_model. destruct model as [m|type_name]; [|done].
  set (d := match directory with Some d => d | None => _ end).
  assert (d = default (join default_simulation_folder
                         (clean_string (Writer.display_name m))) directory) as Hd
    by (by destruct directory).
  unfold mbind, IO_bind.
  destruct (preparedir d w) as [[u1|e] w1]; [|done].
  destruct (to_thmz m (join d "model.thmz") w1) as [[u2|e] w2]; [|done].
  destruct (run_thmz (join d "model.thmz") silent w2) as [[p|e] w3] eqn:Erun; [|done].
  destruct (read_text (join d "therm.log") w3) as [sim_log|e] eqn:Elog; [|done].
  destruct (contains "Calculation complete." sim_log) eqn:Ec; [|done].
  cbn [negb]. intros [= <- <-].
  apply run_thmz_returns in Erun as (-> & Hexe & _).
  exists m, sim_log. cbn zeta. rewrite <- Hd. by repeat split.
Qed.

(** X25.  The log decides.  Once the directory is prepared, the file written,
    THERM run and the log read, [run_model] returns the path when the log
    holds the text Calculation complete. and raises [ValueError]
    otherwise, with a message that holds the whole log. *)
Theorem log_decides `{Float} `{!System}
    (m : Writer.Model) (directory : string) (silent : bool)
    (w w1 w2 w3 : world) (thmz_file sim_log : string) :
  preparedir directory w = (Ok tt, w1) →
  to_thmz m (join directory "model.thmz") w1 = (Ok tt, w2) →
  run_thmz (join directory "model.thmz") silent w2 = (Ok thmz_file, w3) →
  read_text (join directory "therm.log") w3 = Ok sim_log →
  run_model (IsModel m) (Some directory) silent w
  = (if contains "Calculation complete." sim_log then Ok thmz_file
     else Raise (ValueError (failed_message sim_log)), w3)
  ∧ contains sim_log (failed_message sim_log) = true.
Proof.
  intros Hprep Hwrite Hrun Hlog. split.
  - unfold run_model, mbind, IO_bind. rewrite Hprep, Hwrite, Hrun, Hlog.
    by destruct (contains "Calculation complete." sim_log).
  - unfold failed_message. rewrite <- !WriterFacts.append_assoc.
    apply contains_append.
Qed.

(** *** Runs on the reference machine *)

Import ReferenceSystem.
#[local] Existing Instance Reference.whole_float.

Lemma run_thmz_refuses_witness :
  ∃ msg,
    run_thmz (H0 := bare_machine) "/sim/model.thmz" false disk
    = (Raise (AssertionError msg), disk).
Proof. apply (run_thmz_refuses (H0 := bare_machine)). by left. Defined.

(** The file named by the omega is run without a batch file. *)
Lemma no_batch_file_witness :
  ∃ w', run_thmz omega_thmz false disk = (Ok omega_thmz, w')
        ∧ w' !! "/sim/run_therm.bat" = None
        ∧ w' !! "/sim/therm.log" = Some "Meshing... Calculation complete.".
Proof.
  assert (all_ascii (abspath omega_thmz) = false) as Hna by (vm_compute; reflexivity).
  assert (isfile (abspath omega_thmz) disk = true) as Hfile
    by (vm_compute; reflexivity).
  rewrite (no_batch_file (H0 := machine) "C:/THERM/THERM8.exe" omega_thmz false disk eq_refl Hfile
             (or_intror (or_intror Hna))).
  eexists. split; [reflexivity|]. split; vm_compute; reflexivity.
Defined.

(** The two rooms are run in the directory /sim. *)
Lemma run_model_returns_witness :
  ∃ w' sim_log,
    run_model (IsModel ReferenceHost.two_rooms) (Some "/sim") false ∅
    = (Ok "/sim/model.thmz", w')
    ∧ read_text "/sim/therm.log" w' = Ok sim_log
    ∧ contains "Calculation complete." sim_log = true.
Proof.
  destruct (run_model (IsModel ReferenceHost.two_rooms) (Some "/sim") false ∅)
    as [[p|e] w'] eqn:E; [|vm_compute in E; discriminate].
  destruct (run_model_returns (H0 := machine) _ _ _ _ _ _ E) as (m & sim_log & _ & _ & Hp & Hlog & Hc).
  exists w', sim_log. cbn [default from_option id] in Hp. rewrite Hp.
  split; [reflexivity|]. split; [exact Hlog | exact Hc].
Defined.

(** The same model in the directory /sim/broken, where THERM fails *)
Lemma log_decides_witness :
  ∃ w',
    run_model (IsModel ReferenceHost.two_rooms) (Some "/sim/broken") false ∅
    = (Raise (ValueError (failed_message "Error: no boundary conditions.")), w').
Proof.
  eexists.
  refine (proj1 (log_decides (H0 := machine) ReferenceHost.two_rooms "/sim/broken" false ∅ _ _ _
                   "/sim/broken/model.thmz" "Error: no boundary conditions."
                   _ _ _ _)).
  - reflexivity.
  - reflexivity.
  - vm_compute. reflexivity.
  - vm_compute. reflexivity.
Defined.

End RunFacts.
